(** * HitSpool interface (dglo/hitspool): a shallow embedding

    The Python sources are embedded module by module:
    - [HsUtil]   : HsUtil.py (assemble_email_dict, dict_to_object,
                   get_daq_ticks, send_live_status,
                   split_rsync_host_and_path);
    - [Payload]  : payload.py (envelopes, source names, the delta decoder,
                   hits and their waveforms, events, PayloadReader and the
                   loop of main);
    - [HsSenderTest] : the file list check of HsSenderTest.py;
    - [RequestMonitor], [HsSender] : the Sender, whose implementation files
      are not part of the tree; they are modelled from the written
      specification and from HsSenderTest.py / IntegrationTest.py.

    Definitions come first, the theorems about them follow. *)

From Stdlib Require Import ZArith String Ascii List Lia Bool.
From Stdlib Require Import DecimalString.
From Stdlib Require DecimalN DecimalFacts.
From Stdlib Require Strings.Byte.
From Stdlib Require Import Floats.SpecFloat.
From stdpp Require Import gmap strings list sorting.

Set Warnings "-register-all".
Local Open Scope string_scope.
Local Open Scope list_scope.
Local Open Scope Z_scope.

(** String concatenation, written apart from list append. *)
Infix "+:+" := String.append (at level 60, right associativity).

(** ** Python values, exceptions and results *)

(** A calendar time as [datetime.datetime] stores it (naive, no tzinfo). *)
Record datetime := mk_datetime {
  dt_year : Z; dt_month : Z; dt_day : Z;
  dt_hour : Z; dt_minute : Z; dt_second : Z; dt_microsecond : Z
}.

(** The Python objects the embedded functions can receive.  [PyDict] is a
    dictionary with string keys (what a decoded JSON object is);
    [PyDAQTime] is an instance of HsBase.DAQTime, of which only the [utc]
    attribute is read. *)
Inductive pyval :=
| PyNone
| PyBool (b : bool)
| PyInt (z : Z)
| PyStr (s : string)
| PyList (l : list pyval)
| PyDict (d : gmap string pyval)
| PyDatetime (t : datetime)
| PyDAQTime (utc : datetime).

(** Exceptions.  A message built with the [%] operator is kept as its format
    string and its arguments. *)
Inductive pyexc :=
| HsException (fmt : string) (args : list pyval)
| PayloadException (fmt : string) (args : list pyval)
| TypeError (msg : string)
| ValueError (msg : string)
| IndexError (msg : string)
| OverflowError (msg : string)
| UnboundLocalError (var : string)
| StructError (msg : string)
| SyntaxError (msg : string)
| RuntimeError (msg : string).

Inductive result (A : Type) :=
| Ok (a : A)
| Raise (e : pyexc).
Arguments Ok {A} a.
Arguments Raise {A} e.

Definition bind {A B} (r : result A) (k : A -> result B) : result B :=
  match r with
  | Ok a => k a
  | Raise e => Raise e
  end.

#[global] Instance result_ret : MRet result := fun A a => Ok a.
#[global] Instance result_bind : MBind result := fun A B k r => bind r k.

Definition raises {A} (r : result A) : Prop :=
  match r with Ok _ => False | Raise _ => True end.

Definition is_HsException (e : pyexc) : bool :=
  match e with HsException _ _ => true | _ => false end.

Definition is_PayloadException (e : pyexc) : bool :=
  match e with PayloadException _ _ => true | _ => false end.

Definition raises_HsException {A} (r : result A) : Prop :=
  match r with Raise e => is_HsException e = true | Ok _ => False end.

(** ** Strings *)

(** The double quote character, for message texts that quote a value. *)
Definition dq : string := String (ascii_of_nat 34) EmptyString.

Module Str.

(** [s.find(c)] for a one-character needle: index of the first
    occurrence, or -1. *)
Fixpoint find (c : ascii) (s : string) : Z :=
  match s with
  | EmptyString => -1
  | String a rest =>
      if Ascii.eqb a c then 0
      else let i := find c rest in if i <? 0 then -1 else i + 1
  end.

(** Cut [s] at the first [c]: the text before and the text after. *)
Fixpoint cut (c : ascii) (s : string) : option (string * string) :=
  match s with
  | EmptyString => None
  | String a rest =>
      if Ascii.eqb a c then Some (EmptyString, rest)
      else match cut c rest with
           | Some (h, t) => Some (String a h, t)
           | None => None
           end
  end.

(** [s.split(c, 1)]: at most one split, so one or two parts. *)
Definition split1 (c : ascii) (s : string) : list string :=
  match cut c s with
  | Some (h, t) => [h; t]
  | None => [s]
  end.

Fixpoint contains (c : ascii) (s : string) : bool :=
  match s with
  | EmptyString => false
  | String a rest => Ascii.eqb a c || contains c rest
  end.


(** [str(n)] for a natural number, and ["%0<w>d" % n]. *)
Definition of_N (n : N) : string := NilZero.string_of_uint (N.to_uint n).

Fixpoint zeros (k : nat) : string :=
  match k with O => EmptyString | S k' => String "0" (zeros k') end.

Definition pad (w : nat) (n : Z) : string :=
  let d := of_N (Z.to_N n) in
  zeros (w - String.length d) +:+ d.

Definition is_digit (a : ascii) : bool :=
  let n := nat_of_ascii a in (48 <=? n)%nat && (n <=? 57)%nat.



Fixpoint all (f : ascii -> bool) (s : string) : bool :=
  match s with
  | EmptyString => true
  | String a rest => f a && all f rest
  end.






(** ["%d" % z] for an integer of either sign. *)
Definition of_Z (z : Z) : string :=
  if z <? 0 then "-" +:+ of_N (Z.to_N (- z)) else of_N (Z.to_N z).

End Str.

(** ** datetime arithmetic (the part of the standard module that
       [end_time - start_time] runs) *)

Module Datetime.

Record timedelta := mk_timedelta {
  days : Z; seconds : Z; microseconds : Z
}.

Definition is_leap (y : Z) : bool :=
  (y mod 4 =? 0) && (negb (y mod 100 =? 0) || (y mod 400 =? 0)).

Definition days_before_year (year : Z) : Z :=
  let y := year - 1 in y * 365 + y / 4 - y / 100 + y / 400.

Definition days_in_month (year month : Z) : Z :=
  if month =? 2 then (if is_leap year then 29 else 28)
  else if (month =? 4) || (month =? 6) || (month =? 9) || (month =? 11)
       then 30 else 31.

Definition days_before_month (year month : Z) : Z :=
  fold_left (fun acc m => acc + days_in_month year m)
            (map Z.of_nat (seq 1 (Z.to_nat (month - 1)))) 0.

Definition toordinal (t : datetime) : Z :=
  days_before_year (dt_year t) +
  days_before_month (dt_year t) (dt_month t) + dt_day t.

(** The constructor of [timedelta] carries microseconds into seconds and
    seconds into days ([divmod], rounding down). *)
Definition normalize (d s us : Z) : timedelta :=
  let s1 := s + us / 1000000 in
  {| days := d + s1 / 86400;
     seconds := s1 mod 86400;
     microseconds := us mod 1000000 |}.

Definition sub (t1 t2 : datetime) : timedelta :=
  let secs (t : datetime) :=
    dt_second t + dt_minute t * 60 + dt_hour t * 3600 in
  normalize (toordinal t1 - toordinal t2) (secs t1 - secs t2)
            (dt_microsecond t1 - dt_microsecond t2).

(** [str(t)]: ISO format with a blank between date and time; the
    fraction is printed when it is not zero. *)
Definition str (t : datetime) : string :=
  Str.pad 4 (dt_year t) +:+ "-" +:+ Str.pad 2 (dt_month t) +:+ "-" +:+
  Str.pad 2 (dt_day t) +:+ " " +:+ Str.pad 2 (dt_hour t) +:+ ":" +:+
  Str.pad 2 (dt_minute t) +:+ ":" +:+ Str.pad 2 (dt_second t) +:+
  (if dt_microsecond t =? 0 then EmptyString
   else "." +:+ Str.pad 6 (dt_microsecond t)).

(** The field ranges the constructor of [datetime] enforces. *)
Definition valid (t : datetime) : bool :=
  (1 <=? dt_year t) && (dt_year t <=? 9999) &&
  (1 <=? dt_month t) && (dt_month t <=? 12) &&
  (1 <=? dt_day t) && (dt_day t <=? days_in_month (dt_year t) (dt_month t)) &&
  (0 <=? dt_hour t) && (dt_hour t <=? 23) &&
  (0 <=? dt_minute t) && (dt_minute t <=? 59) &&
  (0 <=? dt_second t) && (dt_second t <=? 59) &&
  (0 <=? dt_microsecond t) && (dt_microsecond t <=? 999999).

(** [t.strftime("%Y-%m-%d %H:%M:%S")]; Python 2 refuses years before
    1900. *)
Definition strftime (t : datetime) : result string :=
  if dt_year t <? 1900
  then Raise (ValueError ("year=" +:+ Str.of_Z (dt_year t) +:+
                          " is before 1900; the datetime strftime() " +:+
                          "methods require year >= 1900"))
  else Ok (Str.pad 4 (dt_year t) +:+ "-" +:+ Str.pad 2 (dt_month t) +:+ "-" +:+
           Str.pad 2 (dt_day t) +:+ " " +:+ Str.pad 2 (dt_hour t) +:+ ":" +:+
           Str.pad 2 (dt_minute t) +:+ ":" +:+ Str.pad 2 (dt_second t)).

End Datetime.

(** ** Python floats: IEEE 754 binary64, round to nearest even *)

Module PyFloat.

Definition float := spec_float.
Definition prec : Z := 53.
Definition emax : Z := 1024.

(** [float(z)] for an integer: correctly rounded; too large an integer
    raises OverflowError. *)
Definition of_int (z : Z) : result float :=
  match binary_normalize prec emax z 0 false with
  | S754_infinity _ =>
      Raise (OverflowError "long int too large to convert to float")
  | f => Ok f
  end.

(** A float literal with an integral value, such as [1E6]. *)
Definition literal (z : Z) : float := binary_normalize prec emax z 0 false.

Definition mul (a b : float) : float := SFmul prec emax a b.
Definition add (a b : float) : float := SFadd prec emax a b.

(** [int(f)]: truncation toward zero. *)
Definition to_int (f : float) : result Z :=
  match f with
  | S754_zero _ => Ok 0
  | S754_finite sg m e =>
      let mag := if 0 <=? e then Z.pos m * 2 ^ e
                 else Z.pos m / 2 ^ (- e) in
      Ok (if sg then - mag else mag)
  | S754_infinity _ =>
      Raise (OverflowError "cannot convert float infinity to integer")
  | S754_nan => Raise (ValueError "cannot convert float NaN to integer")
  end.

(** [i * f] and [f + i] with an integer operand: the integer is converted
    first. *)
Definition int_mul (i : Z) (f : float) : result float :=
  x ← of_int i; Ok (mul x f).
Definition add_int (f : float) (i : Z) : result float :=
  x ← of_int i; Ok (add f x).

End PyFloat.

(** ** HsUtil.py *)

Module HsUtil.

Definition STATUS_REQUEST_ERROR := "REQUEST ERROR".
Definition STATUS_QUEUED := "QUEUED".
Definition STATUS_IN_PROGRESS := "IN PROGRESS".
Definition STATUS_SUCCESS := "SUCCESS".
Definition STATUS_FAIL := "FAIL".
Definition STATUS_PARTIAL := "PARTIAL".

(** [split_rsync_host_and_path(rsync_path)].  The source returns the list
    [parts] in the first case and a tuple in the second; both unpack to
    two strings, which is what the pair stands for. *)
Definition split_rsync_host_and_path (rsync_path : pyval)
  : result (string * string) :=
  match rsync_path with
  | PyStr s =>
      let parts := Str.split1 ":" s in
      match parts with
      | [p0; p1] =>
          if Str.find "/" p0 <? 0 then Ok (p0, p1) else Ok ("", s)
      | _ => Ok ("", s)
      end
  | _ => Raise (HsException ("Illegal rsync path " +:+ dq +:+ "%s" +:+ dq
                             +:+ "<%s>") [rsync_path])
  end.

(** [get_daq_ticks(start_time, end_time, is_ns=False)].  The multipliers
    and [1E6] are float literals, so the product is computed in binary64
    and converted back with [int]. *)
Definition get_daq_ticks (start_time end_time : datetime) (is_ns : bool)
  : result Z :=
  let multiplier :=
    if is_ns then PyFloat.literal 1000 else PyFloat.literal 10000 in
  let delta := Datetime.sub end_time start_time in
  f1 ← PyFloat.int_mul
         (Datetime.days delta * 24 * 3600 + Datetime.seconds delta)
         (PyFloat.literal 1000000);
  f2 ← PyFloat.add_int f1 (Datetime.microseconds delta);
  PyFloat.to_int (PyFloat.mul f2 multiplier).

(** The interval of the docstring, in exact integer arithmetic. *)
Definition exact_ticks (start_time end_time : datetime) (is_ns : bool) : Z :=
  let delta := Datetime.sub end_time start_time in
  ((Datetime.days delta * 86400 + Datetime.seconds delta) * 10 ^ 6 +
   Datetime.microseconds delta) * (if is_ns then 10 ^ 3 else 10 ^ 4).

(** *** send_live_status *)

Definition is_none (v : pyval) : bool :=
  match v with PyNone => true | _ => false end.

(** [v != s] for a string [s]. *)
Definition ne_str (v : pyval) (s : string) : bool :=
  match v with
  | PyStr t => negb (String.eqb t s)
  | _ => true
  end.

(** The chain of tests on [start_time] (and, with the other words, on
    [stop_time]), giving [str(start_utc)].  The third test reads the
    local [start_utc], which no branch taken so far has bound: for an
    argument that is neither None nor a DAQTime it stops there. *)
Definition time_to_utc_str (which var : string) (t status : pyval)
  : result string :=
  match t with
  | PyNone =>
      if ne_str status STATUS_REQUEST_ERROR
      then Raise (HsException (which +:+ " time is not set") [])
      else Ok ""
  | PyDAQTime utc => Ok (Datetime.str utc)
  | _ => Raise (UnboundLocalError var)
  end.

(** The socket to I3Live, as the list of the JSON objects sent on it. *)
Definition i3socket := list pyval.

Definition send_json (sock : i3socket) (msg : pyval) : i3socket :=
  sock ++ [msg].

Definition set_unless_none (key : string) (v : pyval)
    (d : gmap string pyval) : gmap string pyval :=
  if is_none v then d else <[key := v]> d.

Definition status_value (req_id username prefix : pyval)
    (start_utc stop_utc : string) (copydir : pyval) (nowstr : string)
    (status : pyval) : gmap string pyval :=
  <["request_id" := req_id]> (
  <["username" := username]> (
  <["prefix" := prefix]> (
  <["start_time" := PyStr start_utc]> (
  <["stop_time" := PyStr stop_utc]> (
  <["destination_dir" := copydir]> (
  <["update_time" := PyStr nowstr]> (
  <["status" := status]> ∅))))))).

Definition i3json (nowstr : string) (value : gmap string pyval) : pyval :=
  PyDict (<["service" := PyStr "hitspool"]> (
          <["varname" := PyStr "hsrequest_info"]> (
          <["time" := PyStr nowstr]> (
          <["value" := PyDict value]> (
          <["prio" := PyInt 1]> ∅))))).

(** [send_live_status(i3socket, req_id, ..., success, failed)]; [utcnow]
    is the reading of the clock.  The result is the socket after the call
    and how the call ended. *)
Definition send_live_status (utcnow : datetime) (sock : i3socket)
    (req_id username prefix start_time stop_time copydir status
     success failed : pyval) : i3socket * result unit :=
  if is_none status then (sock, Raise (HsException "Status is not set" []))
  else if is_none req_id
  then (sock, Raise (HsException "Request ID is not set" []))
  else if is_none copydir
  then (sock, Raise (HsException "Destination directory is not set" []))
  else
    match time_to_utc_str "Start" "start_utc" start_time status with
    | Raise e => (sock, Raise e)
    | Ok start_utc =>
        match time_to_utc_str "Stop" "stop_utc" stop_time status with
        | Raise e => (sock, Raise e)
        | Ok stop_utc =>
            let nowstr := Datetime.str utcnow in
            let value :=
              set_unless_none "failed" failed (
              set_unless_none "success" success (
                status_value req_id username prefix start_utc stop_utc
                             copydir nowstr status)) in
            (send_json sock (i3json nowstr value), Ok tt)
        end
    end.

(** *** dict_to_object *)














(** *** assemble_email_dict *)

Definition DEFAULT_DESCRIPTION : string := "HsInterface Data Request".

(** The entry of [notifies] made for one address. *)
Definition notify (header message email : pyval) : pyval :=
  PyDict (<["receiver" := email]> (
          <["notifies_txt" := message]> (
          <["notifies_header" := header]> ∅))).

Definition true_false (b : bool) : pyval :=
  PyStr (if b then "true" else "false").

(** [assemble_email_dict(address_list, header, message, description, prio,
    short_subject, quiet)] for an address list that is None or a list and
    flags that are Booleans; [now] is the reading of the local clock. *)
Definition assemble_email_dict (now : datetime)
    (address_list : option (list pyval))
    (header message description prio : pyval) (short_subject quiet : bool)
  : result pyval :=
  match address_list with
  | None | Some [] => Raise (HsException "No addresses specified" [])
  | Some addresses =>
      let notifies := map (notify header message) addresses in
      time ← Datetime.strftime now;
      Ok (PyDict (
        <["service" := PyStr "HSiface"]> (
        <["varname" := PyStr "alert"]> (
        <["prio" := prio]> (
        <["time" := PyStr time]> (
        <["value" := PyDict (
           <["condition" := header]> (
           <["desc" := description]> (
           <["notifies" := PyList notifies]> (
           <["short_subject" := true_false short_subject]> (
           <["quiet" := true_false quiet]> ∅)))))]> ∅))))))
  end.

End HsUtil.

(** ** struct.pack and struct.unpack, big-endian formats *)

Definition pybytes := list Byte.byte.

Module Struct.

(** The format characters the sources use: [x] (pad), [B], [H], [I], [Q]
    unsigned and [i], [q] signed. *)
Inductive field := Pad (n : nat) | U8 | U16 | U32 | U64 | I32 | I64.

Definition size (f : field) : nat :=
  match f with
  | Pad n => n | U8 => 1 | U16 => 2 | U32 | I32 => 4 | U64 | I64 => 8
  end.

Definition calcsize (fmt : list field) : nat :=
  fold_right (fun f n => (size f + n)%nat) 0%nat fmt.

Definition byte_of_Z (z : Z) : Byte.byte :=
  match Byte.of_N (Z.to_N z) with Some b => b | None => Byte.x00 end.

Definition Z_of_byte (b : Byte.byte) : Z := Z.of_N (Byte.to_N b).

(** The low [n] bytes of [v], most significant first. *)
Fixpoint be_encode (n : nat) (v : Z) : pybytes :=
  match n with
  | O => []
  | S k => byte_of_Z ((v / 256 ^ Z.of_nat k) mod 256) :: be_encode k v
  end.

Definition be_unsigned (bs : pybytes) : Z :=
  fold_left (fun acc b => acc * 256 + Z_of_byte b) bs 0.

Definition be_signed (bs : pybytes) : Z :=
  let u := be_unsigned bs in
  let w := 8 * Z.of_nat (length bs) in
  if u <? 2 ^ (w - 1) then u else u - 2 ^ w.

Definition in_range (f : field) (v : Z) : bool :=
  match f with
  | Pad _ => true
  | U8 => (0 <=? v) && (v <? 2 ^ 8)
  | U16 => (0 <=? v) && (v <? 2 ^ 16)
  | U32 => (0 <=? v) && (v <? 2 ^ 32)
  | U64 => (0 <=? v) && (v <? 2 ^ 64)
  | I32 => (- 2 ^ 31 <=? v) && (v <? 2 ^ 31)
  | I64 => (- 2 ^ 63 <=? v) && (v <? 2 ^ 63)
  end.

(** [struct.pack(fmt, *vals)]: a value out of the range of its field, or
    a wrong number of values, raises [struct.error]. *)
Fixpoint pack (fmt : list field) (vals : list Z) : result pybytes :=
  match fmt with
  | [] => match vals with
          | [] => Ok []
          | _ => Raise (StructError "pack requires fewer arguments")
          end
  | Pad n :: fmt' =>
      rest ← pack fmt' vals; Ok (repeat Byte.x00 n ++ rest)
  | f :: fmt' =>
      match vals with
      | [] => Raise (StructError "pack requires more arguments")
      | v :: vals' =>
          if in_range f v
          then rest ← pack fmt' vals'; Ok (be_encode (size f) v ++ rest)
          else Raise (StructError "integer out of range")
      end
  end.

Fixpoint unpack_fields (fmt : list field) (data : pybytes) : list Z :=
  match fmt with
  | [] => []
  | f :: fmt' =>
      let chunk := firstn (size f) data in
      let rest := skipn (size f) data in
      match f with
      | Pad _ => unpack_fields fmt' rest
      | I32 | I64 => be_signed chunk :: unpack_fields fmt' rest
      | _ => be_unsigned chunk :: unpack_fields fmt' rest
      end
  end.

(** [struct.unpack(fmt, data)]: the string must have exactly the size of
    the format. *)
Definition unpack (fmt : list field) (data : pybytes) : result (list Z) :=
  if Nat.eqb (length data) (calcsize fmt)
  then Ok (unpack_fields fmt data)
  else Raise (StructError "unpack requires a string argument of the right length").

End Struct.

(** [data[a:b]] for indices that are not negative. *)
Definition slice (a b : Z) (data : pybytes) : pybytes :=
  firstn (Z.to_nat (b - a)) (skipn (Z.to_nat a) data).

(** [l[i]] for a tuple [l] that is long enough. *)
Definition item (l : list Z) (i : nat) : Z := nth i l 0.

(** ** payload.py *)

Module Payload.

Definition ENVELOPE_LENGTH : Z := 16.

(** The state of the base class [Payload]: [__utime], [__data] and
    [__valid_data]. *)
Record base := mk_base {
  b_utime : Z;
  b_data : option pybytes;
  b_valid_data : bool
}.

(** [Payload.__init__(utime, data, keep_data)]; [data] may be None. *)
Definition Payload_init (utime : Z) (data : option pybytes)
    (keep_data : bool) : base :=
  match data with
  | Some d => if keep_data then mk_base utime (Some d) true
              else mk_base utime None false
  | None => mk_base utime None false
  end.

Inductive hit_kind := EngineeringHitRecord | DeltaHitRecord.

(** [BaseHitRecord] and its two subclasses. *)
Record hit_record := mk_hit_record {
  hr_kind : hit_kind;
  hr_flags : Z;
  hr_chan_id : Z;
  hr_utime : Z;
  hr_data : pybytes
}.

Definition HIT_HEADER_LEN : Z := 10.
Definition TRIG_HEADER_LEN : Z := 24.

Definition BaseHitRecord_init (kind : hit_kind) (base_time : Z)
    (hdr : list Z) (data : pybytes) (offset : Z) : hit_record :=
  mk_hit_record kind (item hdr 2) (item hdr 2) (base_time + item hdr 3)
    (if item hdr 0 =? HIT_HEADER_LEN then []
     else slice (offset + 10) (offset + item hdr 0) data).

Definition hit_record_len (r : hit_record) : Z :=
  HIT_HEADER_LEN + Z.of_nat (length (hr_data r)).

Record trigger_record := mk_trigger_record {
  tr_type : Z;
  tr_config_id : Z;
  tr_source_id : Z;
  tr_start_time : Z;
  tr_end_time : Z;
  tr_hit_index : list Z
}.

(** The loop of [TriggerRecord.__init__] over [range(num)]. *)
Fixpoint load_hit_index (num : nat) (data : pybytes) (offset : Z)
    (acc : list Z) : result (list Z) :=
  match num with
  | O => Ok acc
  | S n =>
      idx ← Struct.unpack [Struct.U32] (slice offset (offset + 4) data);
      load_hit_index n data (offset + 4) (acc ++ [item idx 0])
  end.

Definition TriggerRecord_init (base_time : Z) (hdr : list Z)
    (data : pybytes) (offset : Z) : result trigger_record :=
  idxs ← load_hit_index (Z.to_nat (item hdr 5)) data offset [];
  Ok (mk_trigger_record (item hdr 0) (item hdr 1) (item hdr 2)
        (base_time + item hdr 3) (base_time + item hdr 4) idxs).

Definition trigger_record_len (r : trigger_record) : Z :=
  TRIG_HEADER_LEN + Z.of_nat (length (tr_hit_index r)) * 4.

(** The payload classes.  [BasePayload] is the class [Payload] itself,
    whose [TYPE_ID] is None. *)
Inductive payload :=
| BasePayload (b : base)
| UnknownPayload (type_id : Z) (b : base)
| DeltaCompressedHit (b : base)
    (mbid version pedestal domclk word0 word2 : Z)
| EventV5 (b : base) (stop_time year uid run subrun : Z)
    (hit_records : list hit_record) (trig_records : list trigger_record).

Definition base_of (p : payload) : base :=
  match p with
  | BasePayload b | UnknownPayload _ b
  | DeltaCompressedHit b _ _ _ _ _ _ | EventV5 b _ _ _ _ _ _ _ => b
  end.

Definition utime (p : payload) : Z := b_utime (base_of p).
Definition has_data (p : payload) : bool := b_valid_data (base_of p).

Definition DeltaCompressedHit_TYPE_ID : Z := 3.
Definition DeltaCompressedHit_MIN_LENGTH : Z := 54 - ENVELOPE_LENGTH.
Definition EventV5_TYPE_ID : Z := 21.
Definition EventV5_MIN_LENGTH : Z := 18.

(** [payload_type_id()]: None stands for the [NotImplementedError]
    object the base class returns. *)
Definition payload_type_id (p : payload) : option Z :=
  match p with
  | BasePayload _ => None
  | UnknownPayload type_id _ => Some type_id
  | DeltaCompressedHit _ _ _ _ _ _ _ => Some DeltaCompressedHit_TYPE_ID
  | EventV5 _ _ _ _ _ _ _ _ => Some EventV5_TYPE_ID
  end.

Definition discarded : pyexc :=
  PayloadException "Data was discarded; cannot return bytes" [].

(** The property [data_bytes]. *)
Definition data_bytes (p : payload) : result pybytes :=
  if negb (has_data p) then Raise discarded
  else match b_data (base_of p) with
       | Some d => Ok d
       | None => Raise (TypeError "data is None")
       end.

(** The property [bytes]: the envelope packed with [">2IQ"], then the
    data. *)
Definition bytes (p : payload) : result pybytes :=
  if negb (has_data p) then Raise discarded
  else match b_data (base_of p) with
       | None => Raise (TypeError "object of type NoneType has no len()")
       | Some d =>
           match payload_type_id p with
           | None => Raise (StructError "cannot convert argument to integer")
           | Some tid =>
               envelope ← Struct.pack [Struct.U32; Struct.U32; Struct.U64]
                            [Z.of_nat (length d) + ENVELOPE_LENGTH; tid;
                             utime p];
               Ok (envelope ++ d)
           end
       end.

Definition UnknownPayload_init (type_id utime : Z) (data : option pybytes)
    (keep_data : bool) : result payload :=
  Ok (UnknownPayload type_id (Payload_init utime data keep_data)).

Definition too_short (min_length : Z) (d : pybytes) : pyexc :=
  PayloadException "Expected at least %d data bytes, got %d"
    [PyInt min_length; PyInt (Z.of_nat (length d))].

Definition DeltaCompressedHit_init (mbid : Z) (data : option pybytes)
    (keep_data : bool) : result payload :=
  match data with
  | None => Raise (TypeError "object of type NoneType has no len()")
  | Some d =>
      if Z.of_nat (length d) <? DeltaCompressedHit_MIN_LENGTH
      then Raise (too_short DeltaCompressedHit_MIN_LENGTH d)
      else
        hdr ← Struct.unpack
                [Struct.Pad 8; Struct.U64; Struct.U16; Struct.U16;
                 Struct.U16; Struct.U64] (slice 0 30 d);
        if negb (item hdr 1 =? 1)
        then Raise (PayloadException
                      "Bad order-check %d for DeltaSenderHit (should be 1)"
                      [PyInt (item hdr 1)])
        else
          words ← Struct.unpack [Struct.U32; Struct.U32] (slice 30 38 d);
          Ok (DeltaCompressedHit (Payload_init (item hdr 0) data keep_data)
                mbid (item hdr 2) (item hdr 3) (item hdr 4)
                (item words 0) (item words 1))
  end.

(** The loop of [EventV5.__load_hit_records] over [range(num_recs)]. *)
Fixpoint load_hit_loop (num : nat) (base_time : Z) (data : pybytes)
    (offset : Z) (recs : list hit_record)
  : result (list hit_record * Z) :=
  match num with
  | O => Ok (recs, offset)
  | S n =>
      rechdr ← Struct.unpack
                 [Struct.U16; Struct.U8; Struct.U8; Struct.U16; Struct.U32]
                 (slice offset (offset + HIT_HEADER_LEN) data);
      rec ← (if item rechdr 1 =? 0
             then Ok (BaseHitRecord_init EngineeringHitRecord base_time
                        rechdr data (offset + HIT_HEADER_LEN))
             else if item rechdr 1 =? 1
             then Ok (BaseHitRecord_init DeltaHitRecord base_time
                        rechdr data (offset + HIT_HEADER_LEN))
             else Raise (PayloadException "Unknown hit record type #%d"
                           [PyInt (item rechdr 1)]));
      load_hit_loop n base_time data (offset + hit_record_len rec)
                    (recs ++ [rec])
  end.

Definition load_hit_records (base_time : Z) (data : pybytes) (offset : Z)
  : result (list hit_record * Z) :=
  n ← Struct.unpack [Struct.U32] (slice offset (offset + 4) data);
  load_hit_loop (Z.to_nat (item n 0)) base_time data (offset + 4) [].

Fixpoint load_trig_loop (num : nat) (base_time : Z) (data : pybytes)
    (offset : Z) (recs : list trigger_record)
  : result (list trigger_record * Z) :=
  match num with
  | O => Ok (recs, offset)
  | S n =>
      rechdr ← Struct.unpack (repeat Struct.I32 6)
                 (slice offset (offset + TRIG_HEADER_LEN) data);
      rec ← TriggerRecord_init base_time rechdr data
              (offset + TRIG_HEADER_LEN);
      load_trig_loop n base_time data (offset + trigger_record_len rec)
                     (recs ++ [rec])
  end.

Definition load_trig_records (base_time : Z) (data : pybytes) (offset : Z)
  : result (list trigger_record * Z) :=
  n ← Struct.unpack [Struct.U32] (slice offset (offset + 4) data);
  load_trig_loop (Z.to_nat (item n 0)) base_time data (offset + 4) [].

Definition EventV5_init (utime : Z) (data : option pybytes)
    (keep_data : bool) : result payload :=
  match data with
  | None => Raise (TypeError "object of type NoneType has no len()")
  | Some d =>
      if Z.of_nat (length d) <? EventV5_MIN_LENGTH
      then Raise (too_short EventV5_MIN_LENGTH d)
      else
        hdr ← Struct.unpack
                [Struct.U32; Struct.U16; Struct.U32; Struct.U32; Struct.U32]
                (slice 0 18 d);
        '(hits, offset) ← load_hit_records utime d 18;
        '(trigs, _) ← load_trig_records utime d offset;
        Ok (EventV5 (Payload_init utime data keep_data)
              (utime + item hdr 0) (item hdr 1) (item hdr 2) (item hdr 3)
              (item hdr 4) hits trigs)
  end.

(** [stream.read(n)] on a stream holding [stream]: the bytes read and the
    stream left. *)
Definition read (n : Z) (stream : pybytes) : pybytes * pybytes :=
  (firstn (Z.to_nat n) stream, skipn (Z.to_nat n) stream).

(** [PayloadReader.decode_payload(stream, keep_data)]: the payload, or
    None at the end of the stream, and the stream left. *)
Definition decode_payload (stream : pybytes) (keep_data : bool)
  : result (option payload * pybytes) :=
  let '(envelope, stream1) := read ENVELOPE_LENGTH stream in
  if Nat.eqb (length envelope) 0 then Ok (None, stream1)
  else
    env ← Struct.unpack [Struct.I32; Struct.I32; Struct.I64] envelope;
    let length := item env 0 in
    let type_id := item env 1 in
    let utime := item env 2 in
    let '(rawdata, stream2) :=
      if length <=? ENVELOPE_LENGTH then (None, stream1)
      else let '(d, s) := read (length - ENVELOPE_LENGTH) stream1 in
           (Some d, s) in
    pay ← (if type_id =? DeltaCompressedHit_TYPE_ID
           then DeltaCompressedHit_init utime rawdata keep_data
           else if type_id =? EventV5_TYPE_ID
           then EventV5_init utime rawdata keep_data
           else UnknownPayload_init type_id utime rawdata keep_data);
    Ok (Some pay, stream2).

(** The property [mbid] of a hit; None for the other classes. *)
Definition mbid (p : payload) : option Z :=
  match p with
  | DeltaCompressedHit _ m _ _ _ _ _ => Some m
  | _ => None
  end.

(** *** Payload.__cmp__ and Payload.source_name *)

(** [Payload.__cmp__(self, other)]: the envelope times compared. *)
Definition cmp (self other : payload) : Z :=
  if utime self <? utime other then -1
  else if utime self >? utime other then 1
  else 0.

(** The name the chain of tests on [comp_type] binds to [comp_name]; None
    when no test matches, which leaves the local unbound. *)
Definition builder_name (comp_type : Z) : option string :=
  if comp_type =? 4 then Some "inIceTrigger"
  else if comp_type =? 5 then Some "iceTopTrigger"
  else if comp_type =? 6 then Some "globalTrigger"
  else if comp_type =? 7 then Some "eventBuilder"
  else if comp_type =? 8 then Some "tcalBuilder"
  else if comp_type =? 9 then Some "moniBuilder"
  else if comp_type =? 10 then Some "amandaTrigger"
  else if comp_type =? 11 then Some "snBuilder"
  else if comp_type =? 14 then Some "secondaryBuilders"
  else if comp_type =? 15 then Some "trackEngine"
  else None.

(** [Payload.source_name(src_id)] for an integer [src_id]; [/] and [%]
    round down. *)
Definition source_name (src_id : Z) : result string :=
  let comp_type := src_id / 1000 in
  let comp_num := src_id mod 1000 in
  if comp_type =? 3 then Ok ("icetopHandler-" +:+ Str.of_Z comp_num)
  else if comp_type =? 12 then Ok ("stringHub-" +:+ Str.of_Z comp_num)
  else if comp_type =? 13 then Ok ("simHub-" +:+ Str.of_Z comp_num)
  else
    match builder_name comp_type with
    | None => Raise (UnboundLocalError "comp_name")
    | Some comp_name =>
        if negb (comp_num =? 0)
        then Raise (PayloadException "Unexpected component#%d for %s"
                      [PyInt comp_num; PyStr comp_name])
        else Ok comp_name
    end.

(** *** delta_codec *)

(** A computation with a bounded loop: None when the bound was reached
    before the loop ended. *)
Definition bounded (A : Type) : Type := option (result A).

(** The decoder: the bytes of [tape] not yet read, the bit register and
    the current word width [bpw] with its threshold [bth], both None until
    [decode] sets them. *)
Record delta_codec := mk_codec {
  tape : pybytes;
  valid_bits : Z;
  register : Z;
  bpw : option Z;
  bth : option Z
}.

Definition delta_codec_init (buf : pybytes) : delta_codec :=
  mk_codec buf 0 0 None None.

Definition set_width (c : delta_codec) (w t : Z) : delta_codec :=
  mk_codec (tape c) (valid_bits c) (register c) (Some w) (Some t).

Definition NEGATIVE_SHIFT : pyexc := ValueError "negative shift count".

(** The loop of [get_bits] that reads bytes while fewer than [w] bits are
    in the register; at the end of the tape [struct.unpack] fails on the
    empty string. *)
Fixpoint fill (w : Z) (tp : pybytes) (vb reg : Z)
  : result (pybytes * Z * Z) :=
  if vb <? w then
    match tp with
    | [] => Raise (StructError "unpack requires a string argument of length 1")
    | b :: tp' =>
        if vb <? 0 then Raise NEGATIVE_SHIFT
        else fill w tp' (vb + 8) (Z.lor reg (Z.shiftl (Struct.Z_of_byte b) vb))
    end
  else Ok (tp, vb, reg).

(** [get_bits()]: the next [bpw] bits as a signed word; the value
    [1 << (bpw - 1)] stays positive. *)
Definition get_bits (c : delta_codec) : result (Z * delta_codec) :=
  match bpw c with
  | None =>
      Raise (TypeError "unsupported operand type(s) for <<: 'int' and 'NoneType'")
  | Some w =>
      '(tp, vb, reg) ← fill w (tape c) (valid_bits c) (register c);
      if w <? 1 then Raise NEGATIVE_SHIFT
      else
        let val := Z.land reg (Z.shiftl 1 w - 1) in
        let val := if val >? Z.shiftl 1 (w - 1) then val - Z.shiftl 1 w
                   else val in
        Ok (val, mk_codec tp (vb - w) (Z.shiftr reg w) (bpw c) (bth c))
  end.

Definition bad_bpw (w : Z) : pyexc :=
  ValueError ("Bad BPW value " +:+ Str.of_Z w).

Definition NO_BPW : pyexc :=
  TypeError "%d format: a number is required, not NoneType".

Definition shift_up (c : delta_codec) : result delta_codec :=
  match bpw c with
  | None => Raise NO_BPW
  | Some w =>
      if w =? 1 then Ok (set_width c 2 1)
      else if w =? 2 then Ok (set_width c 3 2)
      else if w =? 3 then Ok (set_width c 6 4)
      else if w =? 6 then Ok (set_width c 11 32)
      else Raise (bad_bpw w)
  end.

Definition shift_down (c : delta_codec) : result delta_codec :=
  match bpw c with
  | None => Raise NO_BPW
  | Some w =>
      if w =? 2 then Ok (set_width c 1 0)
      else if w =? 3 then Ok (set_width c 2 1)
      else if w =? 6 then Ok (set_width c 3 2)
      else if w =? 11 then Ok (set_width c 6 4)
      else Raise (bad_bpw w)
  end.

(** The inner loop of [decode]: words are read, the width going up, until
    one is not the escape value [1 << (bpw - 1)].  [fuel] bounds the
    number of times the loop is entered again. *)
Fixpoint read_word (fuel : nat) (c : delta_codec)
  : bounded (Z * delta_codec) :=
  match get_bits c with
  | Raise e => Some (Raise e)
  | Ok (wrd, c1) =>
      match bpw c1 with
      | None => Some (Raise NO_BPW)
      | Some w =>
          if negb (wrd =? Z.shiftl 1 (w - 1)) then Some (Ok (wrd, c1))
          else
            match shift_up c1 with
            | Raise e => Some (Raise e)
            | Ok c2 =>
                match fuel with
                | O => None
                | S fuel' => read_word fuel' c2
                end
            end
      end
  end.

(** Four widths lie above the narrowest one. *)
Definition WIDTH_STEPS : nat := 4.

(** [abs(wrd) < self.bth]; nothing is below None. *)
Definition below_threshold (wrd : Z) (c : delta_codec) : bool :=
  match bth c with
  | Some t => Z.abs wrd <? t
  | None => false
  end.

(** The loop of [decode] over [range(length)]. *)
Fixpoint decode_loop (n : nat) (c : delta_codec) (last : Z) (out : list Z)
  : bounded (list Z * delta_codec) :=
  match n with
  | O => Some (Ok (out, c))
  | S n' =>
      match read_word WIDTH_STEPS c with
      | None => None
      | Some (Raise e) => Some (Raise e)
      | Some (Ok (wrd, c1)) =>
          match (if below_threshold wrd c1 then shift_down c1 else Ok c1) with
          | Raise e => Some (Raise e)
          | Ok c2 => decode_loop n' c2 (last + wrd) (out ++ [last + wrd])
          end
      end
  end.

(** [decode(length)]: the running sums of [length] words, and the decoder
    after them. *)
Definition decode (length : Z) (c : delta_codec)
  : bounded (list Z * delta_codec) :=
  decode_loop (Z.to_nat length) (set_width c 3 2) 0 [].

(** *** DeltaCompressedHit: fields and waveforms *)

(** The attributes of a hit. *)
Record hit := mk_hit {
  h_base : base;
  h_mbid : Z;
  h_version : Z;
  h_pedestal : Z;
  h_domclk : Z;
  h_word0 : Z;
  h_word2 : Z
}.

Definition as_hit (p : payload) : option hit :=
  match p with
  | DeltaCompressedHit b m v pe dc w0 w2 => Some (mk_hit b m v pe dc w0 w2)
  | _ => None
  end.

Definition of_hit (h : hit) : payload :=
  DeltaCompressedHit (h_base h) (h_mbid h) (h_version h) (h_pedestal h)
    (h_domclk h) (h_word0 h) (h_word2 h).

Definition atwd_channels (h : hit) : Z :=
  Z.shiftr (Z.land (h_word0 h) 0x3000) 12.

Definition atwd_chip (h : hit) : Z := Z.land (Z.shiftr (h_word0 h) 11) 1.

Definition a_or_b (h : hit) : string :=
  if atwd_chip h =? 0 then "A" else "B".

Definition chargestamp (h : hit) : Z * Z * Z * Z :=
  let w2 := h_word2 h in
  if negb (Z.land (h_pedestal h) 2 =? 0)
  then (Z.land (Z.shiftr w2 17) 3, Z.land w2 0x1ffff, 0, 0)
  else
    let lsh := if negb (Z.land w2 0x80000000 =? 0) then 1 else 0 in
    (Z.land (Z.shiftr w2 27) 0xf,
     Z.shiftl (Z.land (Z.shiftr w2 18) 0x1ff) lsh,
     Z.shiftl (Z.land (Z.shiftr w2 9) 0x1ff) lsh,
     Z.shiftl (Z.land w2 0x1ff) lsh).

Definition has_atwd (h : hit) : bool := negb (Z.land (h_word0 h) 0x4000 =? 0).
Definition has_fadc (h : hit) : bool := negb (Z.land (h_word0 h) 0x8000 =? 0).
Definition hit_size (h : hit) : Z := Z.land (h_word0 h) 0x7ff.
Definition lc (h : hit) : Z := Z.land (Z.shiftr (h_word0 h) 16) 3.
Definition mb (h : hit) : Z := Z.land (Z.shiftr (h_word0 h) 30) 1.
Definition trigmask (h : hit) : Z := Z.land (Z.shiftr (h_word0 h) 18) 0xfff.
Definition word (h : hit) (num : Z) : Z :=
  if num =? 0 then h_word0 h else h_word2 h.

(** [__decoded], [__fadc] and [__atwd]: the waveforms a hit keeps once
    they are decoded. *)
Record waveforms := mk_waveforms {
  decoded : bool;
  w_fadc : option (list Z);
  w_atwd : option (list (list Z))
}.

Definition no_waveforms : waveforms := mk_waveforms false None None.

(** The loop that appends one decoded channel after the other to
    [__atwd]; on an error the channels appended so far stay. *)
Fixpoint decode_channels (n : nat) (c : delta_codec) (ws : waveforms)
  : option (result unit * waveforms) :=
  match n with
  | O => Some (Ok tt, ws)
  | S n' =>
      match decode 128 c with
      | None => None
      | Some (Raise e) => Some (Raise e, ws)
      | Some (Ok (out, c1)) =>
          decode_channels n' c1
            (mk_waveforms (decoded ws) (w_fadc ws)
               (Some (default [] (w_atwd ws) ++ [out])))
      end
  end.

(** [__decode_waveforms()]: the result and the waveforms kept after the
    call. *)
Definition decode_waveforms (h : hit) (ws : waveforms)
  : option (result unit * waveforms) :=
  if decoded ws then Some (Ok tt, ws)
  else
    match data_bytes (of_hit h) with
    | Raise e => Some (Raise e, ws)
    | Ok d =>
        let codec := delta_codec_init (skipn 38 d) in
        match (if has_fadc h
               then match decode 256 codec with
                    | None => None
                    | Some (Raise e) => Some (Raise e, ws)
                    | Some (Ok (out, c1)) =>
                        Some (Ok c1, mk_waveforms (decoded ws) (Some out)
                                       (w_atwd ws))
                    end
               else Some (Ok codec, ws)) with
        | None => None
        | Some (Raise e, ws1) => Some (Raise e, ws1)
        | Some (Ok c1, ws1) =>
            match (if has_atwd h
                   then decode_channels (Z.to_nat (atwd_channels h + 1)) c1
                          (mk_waveforms (decoded ws1) (w_fadc ws1) (Some []))
                   else Some (Ok tt, ws1)) with
            | None => None
            | Some (Raise e, ws2) => Some (Raise e, ws2)
            | Some (Ok _, ws2) =>
                Some (Ok tt, mk_waveforms true (w_fadc ws2) (w_atwd ws2))
            end
        end
    end.

Definition NOT_SUBSCRIPTABLE : pyexc :=
  TypeError "'NoneType' object has no attribute '__getitem__'".

(** The property [fadc]: a copy of the decoded values. *)
Definition fadc (h : hit) (ws : waveforms)
  : option (result (list Z) * waveforms) :=
  if negb (has_fadc h)
  then Some (Raise (PayloadException "No available fADC" []), ws)
  else
    match (if negb (decoded ws) then decode_waveforms h ws
           else Some (Ok tt, ws)) with
    | None => None
    | Some (Raise e, ws1) => Some (Raise e, ws1)
    | Some (Ok _, ws1) =>
        match w_fadc ws1 with
        | Some l => Some (Ok l, ws1)
        | None => Some (Raise NOT_SUBSCRIPTABLE, ws1)
        end
    end.

(** [l[i]] for a list: a negative index counts from the end. *)
Definition index {A} (l : list A) (i : Z) : result A :=
  let n := Z.of_nat (length l) in
  let j := if i <? 0 then i + n else i in
  if (0 <=? j) && (j <? n)
  then match nth_error l (Z.to_nat j) with
       | Some x => Ok x
       | None => Raise (IndexError "list index out of range")
       end
  else Raise (IndexError "list index out of range").

(** [atwd(channel)]. *)
Definition atwd (h : hit) (channel : Z) (ws : waveforms)
  : option (result (list Z) * waveforms) :=
  if negb (has_atwd h)
  then Some (Raise (PayloadException "No available ATWD channels" []), ws)
  else
    match (if negb (decoded ws) then decode_waveforms h ws
           else Some (Ok tt, ws)) with
    | None => None
    | Some (Raise e, ws1) => Some (Raise e, ws1)
    | Some (Ok _, ws1) =>
        match w_atwd ws1 with
        | Some l => Some (index l channel, ws1)
        | None => Some (Raise NOT_SUBSCRIPTABLE, ws1)
        end
    end.

(** *** PayloadReader *)

(** The reader: the open stream (None once closed), [keep_data] and the
    count of payloads read. *)
Record reader := mk_reader {
  fin : option pybytes;
  keep_data : bool;
  num_read : Z
}.

(** A reader on a stream that was just opened. *)
Definition reader_of (stream : pybytes) (keep : bool) : reader :=
  mk_reader (Some stream) keep 0.

Definition close (r : reader) : reader :=
  mk_reader None (keep_data r) (num_read r).

Definition nrec (r : reader) : Z := num_read r.

(** The stream after the reads of [decode_payload], whether the payload
    could be built or not. *)
Definition stream_after (stream : pybytes) : pybytes :=
  let '(envelope, stream1) := read ENVELOPE_LENGTH stream in
  if Nat.eqb (length envelope) 0 then stream1
  else
    match Struct.unpack [Struct.I32; Struct.I32; Struct.I64] envelope with
    | Raise _ => stream1
    | Ok env =>
        if item env 0 <=? ENVELOPE_LENGTH then stream1
        else snd (read (item env 0 - ENVELOPE_LENGTH) stream1)
    end.

(** [next()] on an open reader: the count goes up only when
    [decode_payload] returns. *)
Definition next_open (stream : pybytes) (r : reader)
  : result (option payload) * reader :=
  match decode_payload stream (keep_data r) with
  | Raise e =>
      (Raise e, mk_reader (Some (stream_after stream)) (keep_data r)
                  (num_read r))
  | Ok (pay, stream') =>
      (Ok pay, mk_reader (Some stream') (keep_data r) (num_read r + 1))
  end.

(** How a call of [next()] ends: as [decode_payload] does, or, on a closed
    reader, with AttributeError. *)
Inductive next_result :=
| Next (r : result (option payload))
| AttributeError (msg : string).

Definition next (r : reader) : next_result * reader :=
  match fin r with
  | None => (AttributeError "'NoneType' object has no attribute 'read'", r)
  | Some stream =>
      let '(res, r') := next_open stream r in (Next res, r')
  end.

(** The generator [__iter__()] run to its end: the payloads it yields, how
    it ends, and the reader then.  [fuel] bounds the number of payloads. *)
Fixpoint iter_loop (fuel : nat) (r : reader)
  : option (list payload * result unit * reader) :=
  match fin r with
  | None => Some ([], Ok tt, r)
  | Some stream =>
      match next_open stream r with
      | (Raise e, r') => Some ([], Raise e, r')
      | (Ok None, r') => Some ([], Ok tt, r')
      | (Ok (Some pay), r') =>
          match fuel with
          | O => None
          | S fuel' =>
              match iter_loop fuel' r' with
              | None => None
              | Some (pays, res, r'') => Some (pay :: pays, res, r'')
              end
          end
      end
  end.

(** No stream holds more payloads than bytes. *)
Definition iter (r : reader) : option (list payload * result unit * reader) :=
  iter_loop (length (default [] (fin r))) r.

(** The loop of [main] over one reader: the payloads printed. *)
Fixpoint dump_loop (fuel : nat) (max_payloads : option Z) (r : reader)
  : option (list payload * result unit * reader) :=
  match fin r with
  | None => Some ([], Ok tt, r)
  | Some stream =>
      match next_open stream r with
      | (Raise e, r') => Some ([], Raise e, r')
      | (Ok None, r') => Some ([], Ok tt, r')
      | (Ok (Some pay), r') =>
          if match max_payloads with
             | Some m => m <=? nrec r'
             | None => false
             end
          then Some ([], Ok tt, r')
          else
            match fuel with
            | O => None
            | S fuel' =>
                match dump_loop fuel' max_payloads r' with
                | None => None
                | Some (pays, res, r'') => Some (pay :: pays, res, r'')
                end
            end
      end
  end.

Definition dump (max_payloads : option Z) (r : reader)
  : option (list payload * result unit * reader) :=
  dump_loop (length (default [] (fin r))) max_payloads r.

End Payload.

(** ** The Sender's request monitor

    RequestMonitor.py, HsSender.py and HsMessage.py are not in the tree;
    HsSenderTest.py and IntegrationTest.py drive them.  The definitions of
    this module follow sections 3, 4.3 and 8 of the specification, and the
    tests where they decide what the specification leaves open or says
    otherwise; the texts of the messages are those HsSenderTest.py
    expects. *)

Module RequestMonitor.

Inductive msgtype := INITIAL | STARTED | WORKING | DONE | FAILED.

Definition msgtype_name (t : msgtype) : string :=
  match t with
  | INITIAL => "INITIAL" | STARTED => "STARTED" | WORKING => "WORKING"
  | DONE => "DONE" | FAILED => "FAILED"
  end.

Definition msgtype_of_string (s : string) : option msgtype :=
  if String.eqb s "INITIAL" then Some INITIAL
  else if String.eqb s "STARTED" then Some STARTED
  else if String.eqb s "WORKING" then Some WORKING
  else if String.eqb s "DONE" then Some DONE
  else if String.eqb s "FAILED" then Some FAILED
  else None.

(** The states of a hub-leg that the transition table of section 4.3 has
    rows for.  (QUEUED is the status announced for a request, not a row.) *)
Inductive leg_state := LegInitial | LegInProgress | LegDone | LegFailed.

#[global] Instance leg_state_eq_dec : EqDecision leg_state.
Proof. solve_decision. Defined.

Definition is_terminal (s : leg_state) : bool :=
  match s with LegDone | LegFailed => true | _ => false end.

(** A report message that passed the schema check. *)
Record report := mk_report {
  r_msgtype : msgtype;
  r_request_id : string;
  r_host : string;
  r_username : pyval;
  r_prefix : pyval;
  r_start_ticks : option Z;
  r_stop_ticks : option Z;
  r_copy_dir : pyval;
  r_destination_dir : pyval;
  r_hubs : list string;
  r_version : pyval
}.

(** What is wrong with a message that is not taken; [NoMessage] is the
    None a socket without input gives. *)
Inductive violation :=
| NoMessage
| NotDictionary
| NoRequestId
| MissingField (name : string)
| BadMessage.

Definition has_key (d : gmap string pyval) (k : string) : bool :=
  bool_decide (is_Some (d !! k)).

Definition field (d : gmap string pyval) (k : string) : pyval :=
  default PyNone (d !! k).

Definition int_field (d : gmap string pyval) (k : string)
  : option (option Z) :=
  match d !! k with
  | None => Some None
  | Some (PyInt z) => Some (Some z)
  | Some _ => None
  end.

(** The hubs a message names: none for None, the names of a list of
    strings; anything else is no list of hubs. *)
Fixpoint strings_of (l : list pyval) : option (list string) :=
  match l with
  | [] => Some []
  | PyStr s :: rest =>
      match strings_of rest with
      | Some names => Some (s :: names)
      | None => None
      end
  | _ :: _ => None
  end.

Definition hubs_field (d : gmap string pyval) : option (list string) :=
  match d !! "hubs" with
  | None | Some PyNone => Some []
  | Some (PyList l) => strings_of l
  | Some _ => None
  end.

(** Modelled from the spec: the schema check of HsMessage/HsSender
    (section 4.3, step 1, and scenario 4), with what the messages of
    HsSenderTest.py add to it.  None is no message
    (test_main_loop_no_msg).  A message must be a mapping with
    [request_id] and, unless it is a WORKING message, with its start and
    its stop, for which the keys [start_time] and [stop_time] of the older
    format do as well as [start_ticks] and [stop_ticks]
    (test_main_loop_unknown_msg, test_main_loop_no_request_id); then
    [msgtype] must be one of the five kinds, the ids strings, the ticks
    integers and [hubs], when given, a list of names. *)
Definition schema_check (raw : pyval) : violation + report :=
  match raw with
  | PyNone => inl NoMessage
  | PyDict d =>
      if negb (has_key d "request_id") then inl NoRequestId
      else
        let working :=
          match d !! "msgtype" with
          | Some (PyStr s) => String.eqb s "WORKING"
          | _ => false
          end in
        if negb working &&
           negb (has_key d "start_ticks" || has_key d "start_time")
        then inl (MissingField "start_ticks")
        else if negb working &&
                negb (has_key d "stop_ticks" || has_key d "stop_time")
        then inl (MissingField "stop_ticks")
        else
          match d !! "msgtype", d !! "request_id", d !! "host",
                int_field d "start_ticks", int_field d "stop_ticks" with
          | Some (PyStr t), Some (PyStr rid), Some (PyStr host),
            Some start, Some stop =>
              match msgtype_of_string t, hubs_field d with
              | Some mt, Some hubs =>
                  inr (mk_report mt rid host (field d "username")
                         (field d "prefix") start stop (field d "copy_dir")
                         (field d "destination_dir") hubs
                         (field d "version"))
              | _, _ => inl BadMessage
              end
          | _, _, _, _, _ => inl BadMessage
          end
  | _ => inl NotDictionary
  end.

Inductive level := WARN | ERROR.

(** A log record: level, format and the arguments of the format. *)
Record log_record := mk_log {
  log_level : level;
  log_fmt : string;
  log_args : list string
}.

(** The value of a status JSON (section 6). *)
Record status_msg := mk_status {
  sm_request_id : string;
  sm_username : pyval;
  sm_prefix : pyval;
  sm_start_tick : Z;
  sm_stop_tick : Z;
  sm_destination_dir : pyval;
  sm_status : string;
  sm_success : option string;
  sm_failed : option string
}.

(** What the serializer sends out while it handles one event: a log
    record, a status for the notification sink, the e-mail of a new
    request, the delivered directories of the hosts handed to packaging,
    or an exception raised to the caller of the main loop. *)
Inductive output :=
| Log (l : log_record)
| Status (s : status_msg)
| Email (request_id : string) (sn_alert : bool)
| Package (request_id : string) (hosts : list string)
| Raised (e : pyexc).

(** The words for a violation. *)
Definition violation_text (v : violation) : string :=
  match v with
  | NoMessage => ""
  | NotDictionary => "Received %s(%s), not dictionary"
  | NoRequestId => "No request ID found in %s"
  | MissingField name => "Dictionary is missing " +:+ name
  | BadMessage => "Received bad message %s"
  end.

(** Modelled from the spec: how the main loop of HsSender reports a
    violation (section 4.3, step 1), as HsSenderTest.py expects it: the
    text of a message that is no dictionary, has no request id or misses
    its start or stop in an HsException of the main loop, with nothing
    logged; a bad message in the log; and nothing at all for no
    message. *)
Definition violation_outputs (raw : pyval) (v : violation) : list output :=
  match v with
  | NoMessage => []
  | BadMessage => [Log (mk_log ERROR (violation_text v) [])]
  | _ => [Raised (HsException (violation_text v) [raw])]
  end.

(** The durable record of a request (section 3). *)
Record RequestRecord := mk_record {
  prefix : pyval;
  username : pyval;
  start_tick : Z;
  stop_tick : Z;
  destination_dir : pyval;
  hub_legs : gmap string leg_state;
  expiry_deadline : Z;
  created_at : Z
}.

(** The state the serializer owns: the records by request id, and the ids
    of the requests it has finished and deleted (messages for those are
    late, section 4.3, idempotence and ordering). *)
Record state := mk_state {
  records : gmap string RequestRecord;
  finished : gset string
}.

Definition initial_state : state := mk_state ∅ ∅.

Inductive event :=
| Report (arrival_time : Z) (raw : pyval)
| ExpiryTick (now : Z).

(** *** Hub numbers and the success and failed fields *)

Definition digit_value (c : ascii) : N := N.of_nat (nat_of_ascii c - 48).

(** The number a hub name ends in: ["ichub01"] gives 1, ["ichub86"] 86;
    a name that ends in no digit gives 0. *)
Definition hub_number (host : string) : N :=
  fold_left (fun acc c => if Str.is_digit c then (acc * 10 + digit_value c)%N
                          else 0%N)
            (list_ascii_of_string host) 0%N.

Definition join_numbers (ns : list N) : string :=
  String.concat "," (map Str.of_N (merge_sort N.le ns)).

Definition hosts_in (s : leg_state) (legs : gmap string leg_state)
  : list string :=
  map fst (List.filter (fun kv => bool_decide (snd kv = s)) (map_to_list legs)).

Definition hub_field (s : leg_state) (legs : gmap string leg_state) : string :=
  join_numbers (map hub_number (hosts_in s legs)).

Section Monitor.

(** [HsMessage.CURRENT_VERSION] and [RequestMonitor.EXPIRE_SECONDS]. *)
Variable CURRENT_VERSION : Z.
Variable EXPIRE_SECONDS : Z.

(** Section 4.3, step 2: the version is there and not older than the
    current one. *)
Definition version_ok (m : report) : bool :=
  match r_version m with
  | PyInt v => CURRENT_VERSION <=? v
  | _ => false
  end.

Definition leg_of (r : RequestRecord) (host : string) : leg_state :=
  default LegInitial (hub_legs r !! host).

Definition set_leg (r : RequestRecord) (host : string) (s : leg_state)
  : RequestRecord :=
  mk_record (prefix r) (username r) (start_tick r) (stop_tick r)
    (destination_dir r) (<[host := s]> (hub_legs r))
    (expiry_deadline r) (created_at r).

Definition touch (r : RequestRecord) (now : Z) : RequestRecord :=
  mk_record (prefix r) (username r) (start_tick r) (stop_tick r)
    (destination_dir r) (hub_legs r) (now + EXPIRE_SECONDS) (created_at r).

(** No hub-leg has left INITIAL yet. *)
Definition all_initial (r : RequestRecord) : bool :=
  bool_decide (map_Forall (fun _ s => s = LegInitial) (hub_legs r)).

(** There are hub-legs, and every one is DONE or FAILED. *)
Definition all_terminal (r : RequestRecord) : bool :=
  negb (bool_decide (hub_legs r = ∅)) &&
  bool_decide (map_Forall (fun _ s => is_terminal s = true) (hub_legs r)).

Definition status_of (rid : string) (r : RequestRecord) (status : string)
    (success failed : option string) : status_msg :=
  mk_status rid (username r) (prefix r) (start_tick r) (stop_tick r)
    (destination_dir r) status success failed.

Definition record_of (m : report) (now : Z)
    (legs : gmap string leg_state) : RequestRecord :=
  mk_record (r_prefix m) (r_username m) (default 0 (r_start_ticks m))
    (default 0 (r_stop_ticks m)) (r_destination_dir m) legs
    (now + EXPIRE_SECONDS) now.

Definition warn (fmt : string) (args : list string) : output :=
  Log (mk_log WARN fmt args).

Definition msg_args (m : report) : list string :=
  [msgtype_name (r_msgtype m); r_host m; r_request_id m].

(** The IN PROGRESS status, sent when the first hub-leg of the request
    leaves INITIAL. *)
Definition in_progress (rid : string) (r : RequestRecord) : list output :=
  if all_initial r
  then [Status (status_of rid r HsUtil.STATUS_IN_PROGRESS None None)]
  else [].

(** Modelled from the spec: the transition table of section 4.3, step 4,
    for a record that exists; the row is the state of the leg of the
    sending host, INITIAL for a host not seen yet.  IN PROGRESS is
    announced the first time a leg of the request leaves INITIAL, as the
    sentence under the table says, except when the leg does so by a DONE:
    test_main_loop_no_init_just_success expects SUCCESS as the only status
    of a request whose one message is a DONE. *)
Definition transition (m : report) (now : Z) (r : RequestRecord)
  : RequestRecord * list output :=
  let host := r_host m in
  let rid := r_request_id m in
  match r_msgtype m, leg_of r host with
  | INITIAL, LegInitial => (r, [])
  | INITIAL, LegInProgress =>
      (r, [warn "Duplicate %s message from %s for Req#%s" (msg_args m)])
  | INITIAL, _ =>
      (r, [warn "Late %s message from %s for Req#%s" (msg_args m)])
  | STARTED, LegInitial => (set_leg r host LegInProgress, in_progress rid r)
  | STARTED, LegInProgress =>
      (r, [warn "Duplicate %s message from %s for Req#%s" (msg_args m)])
  | STARTED, _ =>
      (r, [warn "Late %s message from %s for Req#%s" (msg_args m)])
  | WORKING, LegInitial => (set_leg r host LegInProgress, in_progress rid r)
  | WORKING, LegInProgress => (touch r now, [])
  | WORKING, _ => (r, [])
  | DONE, LegInitial =>
      (set_leg r host LegDone,
       [warn "Saw %s message for request %s host %s without a START message"
             [msgtype_name (r_msgtype m); rid; host]])
  | DONE, LegInProgress => (set_leg r host LegDone, [])
  | DONE, _ => (r, [])
  | FAILED, LegInitial =>
      (set_leg r host LegFailed,
       warn "Saw %s message for request %s host %s without a START message"
            [msgtype_name (r_msgtype m); rid; host]
       :: in_progress rid r)
  | FAILED, LegInProgress => (set_leg r host LegFailed, [])
  | FAILED, _ => (r, [])
  end.

(** Modelled from the spec: the aggregate status of RequestMonitor for a
    request whose legs are all terminal (section 4.3, step 5): SUCCESS
    when all are DONE, FAIL when none is, PARTIAL otherwise. *)
Definition final_status (rid : string) (r : RequestRecord) : status_msg :=
  let legs := hub_legs r in
  match hosts_in LegDone legs, hosts_in LegFailed legs with
  | [], _ =>
      status_of rid r HsUtil.STATUS_FAIL None (Some (hub_field LegFailed legs))
  | _, [] =>
      status_of rid r HsUtil.STATUS_SUCCESS (Some (hub_field LegDone legs)) None
  | _, _ =>
      status_of rid r HsUtil.STATUS_PARTIAL (Some (hub_field LegDone legs))
        (Some (hub_field LegFailed legs))
  end.

(** Modelled from the spec: the completion side effects of HsSender
    (section 4.3, step 5, and section 4.4): the final status, then the
    packaging of what the DONE legs delivered, which is what
    [check_files] of HsSenderTest.py looks for. *)
Definition completion (rid : string) (r : RequestRecord) : list output :=
  Status (final_status rid r) ::
  match hosts_in LegDone (hub_legs r) with
  | [] => []
  | hosts => [Package rid hosts]
  end.

(** Modelled from the spec: the completion check of RequestMonitor
    (section 4.3, step 5: "if every known hub_leg is terminal").  The
    record is stored after a transition, or the request is finished when
    it has hub-legs and every one the record knows is terminal.  The legs
    a record knows are those of the hubs its INITIAL named and of the
    hubs heard of since. *)
Definition settle (rid : string) (r : RequestRecord) (st : state)
    (outs : list output) : state * list output :=
  if all_terminal r
  then (mk_state (delete rid (records st)) ({[rid]} ∪ finished st),
        outs ++ completion rid r)
  else (mk_state (<[rid := r]> (records st)) (finished st), outs).

Definition apply_report (m : report) (now : Z) (r : RequestRecord)
    (st : state) (pre : list output) : state * list output :=
  let '(r1, outs) := transition m now r in
  settle (r_request_id m) r1 st (pre ++ outs).

Definition is_snalert (p : pyval) : bool :=
  match p with PyStr s => String.eqb s "SNALERT" | _ => false end.

(** The hub-legs a request starts with: one in INITIAL for each hub its
    INITIAL message names. *)
Definition announced_legs (hubs : list string) : gmap string leg_state :=
  list_to_map (map (fun h => (h, LegInitial)) hubs).

(** Modelled from the spec: admission and routing of one report message
    (section 4.3, steps 1 to 5).  The INITIAL message comes from the
    Publisher, which is no hub (host mypublisher in IntegrationTest.py,
    whose request ends with the numbers of ichub01 and ichub66 alone): the
    hub-legs of a new request are those of the hubs the message names,
    and the others come with the first message of their hub. *)
Definition process (now : Z) (raw : pyval) (st : state)
  : state * list output :=
  match schema_check raw with
  | inl v => (st, violation_outputs raw v)
  | inr m =>
      let rid := r_request_id m in
      if negb (version_ok m)
      then (st, [warn "Rejecting %s message from %s for Req#%s: bad version"
                      (msg_args m)])
      else if bool_decide (rid ∈ finished st)
      then (st, [warn "Late %s message from %s for Req#%s (request is done)"
                      (msg_args m)])
      else
        match records st !! rid with
        | Some r => apply_report m now r st []
        | None =>
            match r_msgtype m with
            | INITIAL =>
                let r := record_of m now (announced_legs (r_hubs m)) in
                (mk_state (<[rid := r]> (records st)) (finished st),
                 [Status (status_of rid r HsUtil.STATUS_QUEUED None None);
                  Email rid (is_snalert (r_prefix m))])
            | WORKING =>
                (st, [warn ("Received unexpected %s message from %s for" +:+
                            " Req#%s (no active request)") (msg_args m)])
            | _ =>
                apply_report m now (record_of m now ∅) st
                  [warn ("Received unexpected %s message from %s for" +:+
                         " Req#%s (no active request)") (msg_args m);
                   warn "Request %s was not initialized (received %s from %s)"
                        [rid; msgtype_name (r_msgtype m); r_host m]]
            end
        end
  end.

(** *** Expiry *)

Definition expired (now : Z) (r : RequestRecord) : bool :=
  expiry_deadline r <? now.

Definition force_failed (r : RequestRecord) : RequestRecord :=
  mk_record (prefix r) (username r) (start_tick r) (stop_tick r)
    (destination_dir r)
    ((fun s => if is_terminal s then s else LegFailed) <$> hub_legs r)
    (expiry_deadline r) (created_at r).

Definition expire_outputs (kv : string * RequestRecord) : list output :=
  warn "Req#%s timed out" [fst kv] :: completion (fst kv) (force_failed (snd kv)).

(** Modelled from the spec: the expiry scan (section 4.3, expiry).  Every
    record past its deadline has its open legs failed and is completed. *)
Definition expire (now : Z) (st : state) : state * list output :=
  let old := filter (fun kv => expired now (snd kv) = true) (records st) in
  (mk_state (filter (fun kv => expired now (snd kv) = false) (records st))
            (dom old ∪ finished st),
   flat_map expire_outputs (map_to_list old)).

Definition step (ev : event) (st : state) : state * list output :=
  match ev with
  | Report now raw => process now raw st
  | ExpiryTick now => expire now st
  end.

(** The serializer handles the queued events one at a time. *)
Fixpoint run (evs : list event) (st : state) : state * list output :=
  match evs with
  | [] => (st, [])
  | ev :: rest =>
      let '(st1, out1) := step ev st in
      let '(st2, out2) := run rest st1 in
      (st2, out1 ++ out2)
  end.

End Monitor.

(** *** Reading the outputs *)

Definition statuses (outs : list output) : list status_msg :=
  omap (fun o => match o with Status s => Some s | _ => None end) outs.

Definition logs (outs : list output) : list log_record :=
  omap (fun o => match o with Log l => Some l | _ => None end) outs.


(** The status messages with status [status] sent for request [rid]. *)
Definition statuses_for (rid status : string) (outs : list output)
  : list status_msg :=
  List.filter (fun s => String.eqb (sm_request_id s) rid &&
                        String.eqb (sm_status s) status) (statuses outs).


(** [needle] occurs in [hay]. *)
Definition occurs (needle hay : string) : bool :=
  match String.index 0 needle hay with Some _ => true | None => false end.

Definition logged (needle : string) (outs : list output) : Prop :=
  exists l, In l (logs outs) /\ occurs needle (log_fmt l) = true.



End RequestMonitor.

(** ** The Sender's packaging (HsSender.spade_pickup_data)

    HsSender.py and HsBase.py are not in the tree.  HsSenderTest.py calls
    [spade_pickup_data] and, in its class [FailableSender], overrides the
    file operations it runs: [write_tarfile], [move_file], [write_sem] and
    [write_meta_xml]. *)

Module HsSender.

Definition TAR_SUFFIX : string := ".tar".
Definition SEM_SUFFIX : string := ".sem".
Definition META_SUFFIX : string := ".meta.xml".

Definition path := list string.

(** The file operations a sender runs on its world [W]; each gives how it
    ended and the world after it. *)
Class SenderOps (W : Type) := {
  write_tarfile : path -> string -> string -> W -> result unit * W;
  move_file : path -> path -> W -> result unit * W;
  write_sem : path -> string -> W -> result string * W;
  write_meta_xml :
    path -> string -> option Z -> option Z -> W -> result string * W
}.

(** *** FailableSender of HsSenderTest.py *)

Record FailableSender := mk_failable {
  fail_move_file : bool;
  fail_touch_file : bool;
  fail_tar_file : Z;
  moved_files : bool
}.

(** [FailableSender.__init__]; the switches are off. *)
Definition FailableSender_init : FailableSender :=
  mk_failable false false 0 false.

Definition fail_create_sem_file (s : FailableSender) : FailableSender :=
  mk_failable (fail_move_file s) true (fail_tar_file s) (moved_files s).

(** [self.__fail_tar_file = True]: True counts as 1 in the test of
    [write_tarfile]. *)
Definition fail_create_tar_file (s : FailableSender) : FailableSender :=
  mk_failable (fail_move_file s) (fail_touch_file s) 1 (moved_files s).

Definition set_fail_move_file (s : FailableSender) : FailableSender :=
  mk_failable true (fail_touch_file s) (fail_tar_file s) (moved_files s).

#[global] Instance FailableSender_ops : SenderOps FailableSender := {
  write_tarfile _ _ _ s :=
    if 0 <? fail_tar_file s
    then (Raise (HsException "Fake Tar Error" []),
          mk_failable (fail_move_file s) (fail_touch_file s)
            (fail_tar_file s - 1) (moved_files s))
    else (Ok tt, s);
  move_file _ _ s :=
    if fail_move_file s then (Raise (HsException "Fake Move Error" []), s)
    else (Ok tt, s);
  write_sem _ basename s :=
    if fail_touch_file s then (Raise (HsException "Fake Touch Error" []), s)
    else (Ok (basename +:+ SEM_SUFFIX), s);
  write_meta_xml _ basename _ _ s :=
    if fail_touch_file s then (Raise (HsException "Fake Touch Error" []), s)
    else (Ok (basename +:+ META_SUFFIX), s)
}.

(** *** A sender on a disk *)

(** A file holds data; a tar archive holds members, each a path inside the
    archive and the data of the file. *)
Inductive node :=
| File (data : string)
| Tar (members : list (path * string)).

Abbreviation disk := (gmap path node).

(** The members of an archive of [sourcedir/sourcefile], named from
    [sourcedir] on. *)
Definition tar_members (sourcedir : path) (sourcefile : string) (d : disk)
  : list (path * string) :=
  omap (fun kv : path * node =>
          match snd kv with
          | File data =>
              if bool_decide ((sourcedir ++ [sourcefile]) `prefix_of` fst kv)
              then Some (drop (length sourcedir) (fst kv), data)
              else None
          | Tar _ => None
          end)
       (map_to_list d).

Definition basename (p : path) : string := List.last p "".

(** A sender with a disk and the switches of FailableSender. *)
Record DiskSender := mk_disk_sender {
  files : disk;
  switches : FailableSender
}.

Definition lift_switch {A} (r : result A * FailableSender) (d : disk)
    (effect : A -> disk -> disk) : result A * DiskSender :=
  match fst r with
  | Ok a => (Ok a, mk_disk_sender (effect a d) (snd r))
  | Raise e => (Raise e, mk_disk_sender d (snd r))
  end.

(** Modelled from the spec: the file operations of HsBase (section 4.4):
    the archive is written beside the delivered directory, moving takes a
    file into a directory under its own name, the semaphore or metadata
    file is created in the directory given.  An operation fails when the
    switch of FailableSender for it is on, and moving a file that is not
    there fails. *)
#[global] Instance DiskSender_ops : SenderOps DiskSender := {
  write_tarfile sourcedir sourcefile tarname s :=
    lift_switch (write_tarfile sourcedir sourcefile tarname (switches s))
      (files s)
      (fun _ d => <[sourcedir ++ [tarname] :=
                      Tar (tar_members sourcedir sourcefile d)]> d);
  move_file src dst s :=
    match files s !! src with
    | None => (Raise (HsException "Cannot move %s" [PyStr (basename src)]), s)
    | Some n =>
        lift_switch (move_file src dst (switches s)) (files s)
          (fun _ d => <[dst ++ [basename src] := n]> (delete src d))
    end;
  write_sem spadedir base s :=
    lift_switch (write_sem spadedir base (switches s)) (files s)
      (fun name d => <[spadedir ++ [name] := File ""]> d);
  write_meta_xml spadedir base start_ticks stop_ticks s :=
    lift_switch (write_meta_xml spadedir base start_ticks stop_ticks
                   (switches s)) (files s)
      (fun name d => <[spadedir ++ [name] := File "<DIF_Plus/>"]> d)
}.

(** *** spade_pickup_data *)

Definition standard_prefix (prefix : string) : bool :=
  String.eqb prefix "SNALERT" || String.eqb prefix "HESE" ||
  String.eqb prefix "ANON".

(** [str(e)] for the exceptions the operations raise. *)
Definition exc_text (e : pyexc) : string :=
  match e with
  | HsException fmt _ | PayloadException fmt _ => fmt
  | TypeError s | ValueError s | IndexError s | OverflowError s
  | UnboundLocalError s | StructError s | SyntaxError s | RuntimeError s => s
  end.

Definition MANUAL_SPADE : string :=
  "Please put the data manually in the SPADE directory." +:+
  " Use HsSpader.py, for example.".

Definition failure_log (e : pyexc) : list RequestMonitor.log_record :=
  [RequestMonitor.mk_log RequestMonitor.ERROR (exc_text e) [];
   RequestMonitor.mk_log RequestMonitor.ERROR MANUAL_SPADE []].

Definition spade_basename (data_dir prefix : string) : string :=
  if standard_prefix prefix then "HS_" +:+ data_dir else data_dir.

Section Spade.

Context {W : Type} {ops : SenderOps W}.

(** [HS_SPADE_DIR] and [WRITE_META_XML] of the sender. *)
Variable HS_SPADE_DIR : path.
Variable WRITE_META_XML : bool.

(** Modelled from the spec: [spade_pickup_data(hs_basedir, data_dir,
    prefix, start_ticks, stop_ticks)] (section 4.4 and the packaging error
    of section 7).  The archive of the delivered directory is written and
    moved to the SPADE directory, then the semaphore or metadata file is
    created there, so that it appears after the archive.  The first step
    that fails ends the call: the error and the instruction for the
    operator are logged and None is returned.  Nothing is removed.  The
    result is the pair of names, the log and the world after the call. *)
Definition spade_pickup_data (hs_basedir : path) (data_dir prefix : string)
    (start_ticks stop_ticks : option Z) (w : W)
  : option (string * string) * list RequestMonitor.log_record * W :=
  let base := spade_basename data_dir prefix in
  let tarname := base +:+ TAR_SUFFIX in
  match write_tarfile hs_basedir data_dir tarname w with
  | (Raise e, w1) => (None, failure_log e, w1)
  | (Ok _, w1) =>
      match move_file (hs_basedir ++ [tarname]) HS_SPADE_DIR w1 with
      | (Raise e, w2) => (None, failure_log e, w2)
      | (Ok _, w2) =>
          match (if WRITE_META_XML
                 then write_meta_xml HS_SPADE_DIR base start_ticks stop_ticks
                 else write_sem HS_SPADE_DIR base) w2 with
          | (Raise e, w3) => (None, failure_log e, w3)
          | (Ok semname, w3) => (Some (tarname, semname), [], w3)
          end
      end
  end.

End Spade.

End HsSender.

(** ** HsSenderTest.py: the checks of MockRequestBuilder *)

Module HsSenderTest.

(** How a check ends: it returns, or raises TestException, kept as the
    format and its arguments. *)
Inductive checked :=
| Passed
| TestException (fmt : string) (args : list pyval).

(** The order of [str]: byte by byte, a proper prefix first. *)
Definition str_le (a b : string) : Prop := String.leb a b = true.

#[global] Instance str_le_dec : RelDecision str_le.
Proof. intros a b. unfold str_le. apply _. Defined.

(** [flist.sort()]. *)
Definition sort (flist : list string) : list string := merge_sort str_le flist.

(** [range(firstfile, firstfile + numfiles)]. *)
Definition file_numbers (firstfile numfiles : Z) : list Z :=
  map (fun i => firstfile + Z.of_nat i) (seq 0 (Z.to_nat numfiles)).

Definition hitspool_name (fnum : Z) : string := "HitSpool-" +:+ Str.of_Z fnum.

(** The loop over the file numbers and the test after it; the list is the
    one the caller passed, so what is left of it is returned too. *)
Fixpoint check_loop (fnums : list Z) (firstfile numfiles : Z)
    (flist : list string) : checked * list string :=
  match fnums with
  | [] =>
      if negb (Nat.eqb (length flist) 0)
      then (TestException "%d extra files were copied (%s)"
              [PyInt (Z.of_nat (length flist)); PyList (map PyStr flist)],
            flist)
      else (Passed, flist)
  | fnum :: rest =>
      let fname := hitspool_name fnum in
      match flist with
      | [] =>
          (TestException "Not all files were copied (found %d of %d)"
             [PyInt (fnum - firstfile); PyInt numfiles], flist)
      | first :: flist' =>
          if negb (String.eqb fname first)
          then (TestException
                  ("Expected file #%d to be " +:+ dq +:+ "%s" +:+ dq +:+
                   " not " +:+ dq +:+ "%s" +:+ dq)
                  [PyInt (fnum - firstfile); PyStr fname; PyStr first],
                flist)
          else check_loop rest firstfile numfiles flist'
      end
  end.

(** [MockRequestBuilder.check_hitspool_file_list(flist, firstfile,
    numfiles)] for a list of strings. *)
Definition check_hitspool_file_list (flist : list string)
    (firstfile numfiles : Z) : checked * list string :=
  check_loop (file_numbers firstfile numfiles) firstfile numfiles (sort flist).

End HsSenderTest.

(** * Specification predicates and test data *)

Import RequestMonitor.
Import HsSender.

(** What the specification promises about the pair returned for [s]. *)
Definition rsync_split_claimed (s host path : string) : Prop :=
  (host = "" /\ path = s) \/
  (host <> "" /\ Str.contains "/" host = false /\ host +:+ ":" +:+ path = s).

(** What the function guarantees: the host part may be empty. *)
Definition rsync_split_actual (s host path : string) : Prop :=
  (host = "" /\ path = s) \/
  (Str.contains "/" host = false /\ Str.contains ":" host = false /\
   host +:+ ":" +:+ path = s).

Definition jan1_2018 : datetime := mk_datetime 2018 1 1 0 0 0 0.
Definition jul20_2018_1us : datetime := mk_datetime 2018 7 20 0 0 0 1.

(** A time argument the caller may pass: a DAQTime, or None together with
    the status REQUEST ERROR. *)
Definition time_arg_ok (status t : pyval) : Prop :=
  match t with
  | PyDAQTime _ => True
  | PyNone => status = PyStr HsUtil.STATUS_REQUEST_ERROR
  | _ => False
  end.

(** The text sent for it: the UTC time, or the empty string for None. *)
Definition time_field (t : pyval) : string :=
  match t with
  | PyDAQTime utc => Datetime.str utc
  | _ => ""
  end.

Definition optional_field (v : pyval) : option pyval :=
  if HsUtil.is_none v then None else Some v.

(** The message and its value, field by field. *)
Definition live_status_message (utcnow : datetime)
    (req_id username prefix start_time stop_time copydir status
     success failed : pyval) (msg : pyval) : Prop :=
  exists (m value : gmap string pyval),
    msg = PyDict m /\
    m !! "service" = Some (PyStr "hitspool") /\
    m !! "varname" = Some (PyStr "hsrequest_info") /\
    m !! "prio" = Some (PyInt 1) /\
    m !! "time" = Some (PyStr (Datetime.str utcnow)) /\
    m !! "value" = Some (PyDict value) /\
    value !! "request_id" = Some req_id /\
    value !! "username" = Some username /\
    value !! "prefix" = Some prefix /\
    value !! "start_time" = Some (PyStr (time_field start_time)) /\
    value !! "stop_time" = Some (PyStr (time_field stop_time)) /\
    value !! "destination_dir" = Some copydir /\
    value !! "update_time" = Some (PyStr (Datetime.str utcnow)) /\
    value !! "status" = Some status /\
    value !! "success" = optional_field success /\
    value !! "failed" = optional_field failed.






(** The envelope written by [bytes]. *)
Definition envelope_of (len tid utime : Z) : pybytes :=
  Struct.be_encode 4 len ++ Struct.be_encode 4 tid ++ Struct.be_encode 8 utime.

(** Data that survives the envelope: not empty, and short enough for the
    signed length field. *)
Definition sized (data : pybytes) : Prop :=
  (0 < length data)%nat /\ Z.of_nat (length data) + 16 < 2 ^ 31.

(** The round trip of the claim for a payload [p] holding [data]: [bytes]
    is a 16-byte envelope, whose fields are the total length, the type id
    and the time of [p], followed by [data]; decoding it consumes the
    string and gives a payload with that type id, time and data. *)
Definition roundtrips (p : Payload.payload) (data : pybytes) : Prop :=
  exists env tid,
    Payload.payload_type_id p = Some tid /\
    Payload.data_bytes p = Ok data /\
    Payload.bytes p = Ok (env ++ data) /\
    length env = 16%nat /\
    Struct.unpack [Struct.U32; Struct.U32; Struct.U64] env
    = Ok [Z.of_nat (length data) + 16; tid; Payload.utime p] /\
    exists p',
      Payload.decode_payload (env ++ data) true = Ok (Some p', []) /\
      Payload.payload_type_id p' = Some tid /\
      Payload.utime p' = Payload.utime p /\
      Payload.data_bytes p' = Ok data.

(** Sample payload data: a hit whose header holds time 1000 and order
    check 1, and an event without records. *)
Definition hit_data : pybytes :=
  repeat Byte.x00 8 ++ Struct.be_encode 8 1000 ++ Struct.be_encode 2 1 ++
  Struct.be_encode 2 2 ++ Struct.be_encode 2 0 ++ Struct.be_encode 8 77 ++
  Struct.be_encode 4 0 ++ Struct.be_encode 4 0.

Definition event_data : pybytes := repeat Byte.x00 26.

Definition sample_hit : Payload.payload :=
  Payload.DeltaCompressedHit (Payload.mk_base 1000 (Some hit_data) true)
    20015998343868 2 0 77 0 0.

Definition sample_event : Payload.payload :=
  Payload.EventV5 (Payload.mk_base 5 (Some event_data) true) 5 0 0 0 0 [] [].

(** The record a report is applied to, with the log written before: the
    stored record, or a synthetic one for a STARTED, DONE or FAILED that
    finds none. *)
Definition pre_record (ex now : Z) (m : report) (st : state)
  : option (RequestRecord * list output) :=
  match records st !! r_request_id m with
  | Some r => Some (r, [])
  | None =>
      match r_msgtype m with
      | INITIAL | WORKING => None
      | _ =>
          Some (record_of ex m now ∅,
                [warn ("Received unexpected %s message from %s for" +:+
                       " Req#%s (no active request)") (msg_args m);
                 warn "Request %s was not initialized (received %s from %s)"
                      [r_request_id m; msgtype_name (r_msgtype m); r_host m]])
      end
  end.

(** A report that passes the schema and version checks for a request that
    is not finished. *)
Definition admitted (cv : Z) (raw : pyval) (m : report) (st : state) : Prop :=
  schema_check raw = inr m /\ version_ok cv m = true /\
  r_request_id m ∉ finished st.

(** The messages that can take a hub-leg out of INITIAL and announce
    it: all those that move a leg, but DONE. *)
Definition announces (m : report) : bool :=
  match r_msgtype m with STARTED | WORKING | FAILED => true | _ => false end.

Definition old_records (now : Z) (st : state) : gmap string RequestRecord :=
  filter (fun kv => expired now (snd kv) = true) (records st).

(** The monitor has heard of the request. *)
Definition known (rid : string) (st : state) : Prop :=
  rid ∈ finished st \/ is_Some (records st !! rid).


(** The request is over and its record deleted. *)
Definition done (rid : string) (st : state) : Prop :=
  rid ∈ finished st /\ records st !! rid = None.








(** The message [MockRequestBuilder.add_reporter_request] queues. *)
Definition reporter_request (msgtype req_id : string) (username : pyval)
    (start_ticks stop_ticks : Z) (host : string) (hsdir destdir : pyval)
    (version : Z) : pyval :=
  PyDict (list_to_map
    [("msgtype", PyStr msgtype); ("request_id", PyStr req_id);
     ("username", username); ("start_ticks", PyInt start_ticks);
     ("stop_ticks", PyInt stop_ticks); ("copy_dir", hsdir);
     ("destination_dir", destdir); ("prefix", PyNone); ("extract", PyNone);
     ("host", PyStr host); ("version", PyInt version)]).

(** The values the tests use; 2 stands for the current version and 15 for
    the seconds to expiry. *)
Definition test_version : Z := 2.
Definition test_expire : Z := 15.
Definition test_start : Z := 98765432100000.
Definition test_stop : Z := 98899889980000.

Definition test_msg (msgtype req_id host : string) : pyval :=
  reporter_request msgtype req_id PyNone test_start test_stop host
    (PyStr ("/hs/SNALERT_12345678_987654_" +:+ host))
    (PyStr ("/UserCopy/SNALERT_12345678_987654_" +:+ host)) test_version.

Definition test_report (mt : msgtype) (req_id host : string) : report :=
  mk_report mt req_id host PyNone PyNone (Some test_start) (Some test_stop)
    (PyStr ("/hs/SNALERT_12345678_987654_" +:+ host))
    (PyStr ("/UserCopy/SNALERT_12345678_987654_" +:+ host))
    [] (PyInt test_version).

(** The messages of [__init_sender] in IntegrationTest.py: the INITIAL of
    the publisher and the STARTED and DONE of a worker. *)
Definition integration_msg (msgtype host : string) (copy_dir : pyval)
  : pyval :=
  PyDict (list_to_map
    [("request_id", PyStr "FAKE_ID"); ("username", PyStr "test_pdaq");
     ("prefix", PyStr "SNALERT"); ("start_ticks", PyInt test_start);
     ("stop_ticks", PyInt test_stop); ("destination_dir", PyStr "/copy");
     ("msgtype", PyStr msgtype); ("extract", PyBool false);
     ("host", PyStr host); ("hubs", PyNone); ("version", PyInt test_version);
     ("copy_dir", copy_dir)]).

Definition integration_initial : pyval :=
  integration_msg "INITIAL" "mypublisher" PyNone.

Definition integration_started (host : string) : pyval :=
  integration_msg "STARTED" host PyNone.

Definition integration_done (host : string) : pyval :=
  integration_msg "DONE" host
    (PyStr ("/copy/SNALERT_20180101_000000_" +:+ host)).

(** An INITIAL message that names its hubs, as the request of scenario 1
    of the specification does. *)
Definition announced_initial (req_id : string) (hubs : list string) : pyval :=
  PyDict (<["hubs" := PyList (map PyStr hubs)]>
            (list_to_map
               [("msgtype", PyStr "INITIAL"); ("request_id", PyStr req_id);
                ("username", PyStr "u"); ("start_ticks", PyInt test_start);
                ("stop_ticks", PyInt test_stop); ("copy_dir", PyNone);
                ("destination_dir", PyStr "/copy"); ("prefix", PyStr "SNALERT");
                ("extract", PyNone); ("host", PyStr "mypublisher");
                ("version", PyInt test_version)])).

(** The messages of test_main_loop_no_request_id,
    test_main_loop_incomplete_msg, test_main_loop_unknown_msg and
    test_main_loop_bad_hubs. *)
Definition no_request_id_msg : pyval :=
  PyDict (list_to_map
    [("msgtype", PyStr "rsync_sum"); ("start_time", PyNone);
     ("stop_time", PyNone)]).

Definition incomplete_msg : pyval :=
  PyDict (list_to_map
    [("msgtype", PyStr "rsync_sum"); ("request_id", PyStr "incomplete")]).

Definition unknown_msg : pyval :=
  PyDict (list_to_map
    [("msgtype", PyStr "xxx"); ("request_id", PyNone); ("username", PyNone);
     ("start_time", PyNone); ("stop_time", PyNone); ("copy_dir", PyNone);
     ("destination_dir", PyNone); ("prefix", PyNone); ("extract", PyNone);
     ("host", PyNone); ("version", PyNone)]).

Definition bad_hubs_msg : pyval :=
  PyDict (list_to_map
    [("msgtype", PyStr "INITIAL"); ("request_id", PyStr "BadHubs");
     ("username", PyStr "abc"); ("start_ticks", PyInt 0);
     ("stop_ticks", PyInt 10000000000); ("copy_dir", PyNone);
     ("destination_dir", PyNone); ("prefix", PyNone); ("extract", PyNone);
     ("host", PyNone); ("hubs", PyStr "not_a_hub");
     ("version", PyInt test_version)]).

Definition test_run (evs : list event) : state * list output :=
  run test_version test_expire evs initial_state.

(** The statuses of a run, as (request, status, success, failed). *)
Definition shown (outs : list output)
  : list (string * string * option string * option string) :=
  map (fun s => (sm_request_id s, sm_status s, sm_success s, sm_failed s))
      (statuses outs).






(** A step of the packaging raises [e] and leaves the world [w']: writing
    the archive, or moving it once it is written, or creating the
    semaphore or metadata file once it is moved. *)
Definition fails_with {W : Type} {ops : SenderOps W} (spade : path)
    (meta : bool) (hs : path) (data_dir prefix : string)
    (start stop : option Z) (w : W) (e : pyexc) (w' : W) : Prop :=
  let base := spade_basename data_dir prefix in
  let tarname := base +:+ TAR_SUFFIX in
  let semaphore :=
    if meta then write_meta_xml spade base start stop
    else write_sem spade base in
  write_tarfile hs data_dir tarname w = (Raise e, w') \/
  (exists u w1,
     write_tarfile hs data_dir tarname w = (Ok u, w1) /\
     move_file (hs ++ [tarname]) spade w1 = (Raise e, w')) \/
  (exists u u' w1 w2,
     write_tarfile hs data_dir tarname w = (Ok u, w1) /\
     move_file (hs ++ [tarname]) spade w1 = (Ok u', w2) /\
     semaphore w2 = (Raise e, w')).

(** The two records a failed packaging logs: the text of the error, then
    the instruction for the operator. *)
Definition failure_records (text : string) : list log_record :=
  [mk_log ERROR text [];
   mk_log ERROR
     ("Please put the data manually in the SPADE directory." +:+
      " Use HsSpader.py, for example.") []].

Definition switches_off (s : FailableSender) : Prop :=
  fail_move_file s = false /\ fail_touch_file s = false /\ fail_tar_file s <= 0.

(** The delivered directory of the tests and a disk that holds it. *)
Definition request_dir (category timetag host : string) : string :=
  category +:+ "_" +:+ timetag +:+ "_" +:+ host.

Definition test_dir : string := request_dir "SNALERT" "12345678_987654" "ichub07".

Definition test_disk : disk :=
  <[ ["copy"; test_dir; "HitSpool-11"] := File "h11" ]> (
  <[ ["copy"; test_dir; "HitSpool-12"] := File "h12" ]> (
  <[ ["copy"; test_dir; "HitSpool-13"] := File "h13" ]> ∅)).

(** One entry of [notifies] per address, in the order of the addresses,
    each with the address, the text and the header. *)
Definition notifies_for (header message : pyval) (addresses : list pyval)
    (notifies : list pyval) : Prop :=
  length notifies = length addresses /\
  forall (i : nat) addr,
    addresses !! i = Some addr ->
    exists n,
      notifies !! i = Some (PyDict n) /\
      n !! "receiver" = Some addr /\
      n !! "notifies_txt" = Some message /\
      n !! "notifies_header" = Some header.

(** A time argument that is neither None nor a DAQTime. *)
Definition foreign_time (t : pyval) : Prop :=
  match t with
  | PyNone | PyDAQTime _ => False
  | _ => True
  end.

(** The word widths of the decoder with their thresholds. *)
Definition width_ok (c : Payload.delta_codec) : Prop :=
  In (Payload.bpw c, Payload.bth c)
     [(Some 1, Some 0); (Some 2, Some 1); (Some 3, Some 2); (Some 6, Some 4);
      (Some 11, Some 32)].

(** The decoder with [extra] appended to its tape. *)
Definition extend (c : Payload.delta_codec) (extra : pybytes)
  : Payload.delta_codec :=
  Payload.mk_codec (Payload.tape c ++ extra) (Payload.valid_bits c)
    (Payload.register c) (Payload.bpw c) (Payload.bth c).

(** Each value is within 1023 of the one before it, the first of [prev]. *)
Fixpoint small_steps (prev : Z) (l : list Z) : Prop :=
  match l with
  | [] => True
  | x :: l' => Z.abs (x - prev) <= 1023 /\ small_steps x l'
  end.

(** The errors of a decoder that runs off its tape or is told to widen
    its widest word. *)
Definition codec_error (e : pyexc) : Prop :=
  e = StructError "unpack requires a string argument of length 1" \/
  e = Payload.bad_bpw 11.

(** The number of widths above the current one. *)
Definition widths_above (w : option Z) : nat :=
  match w with
  | Some 1 => 4
  | Some 2 => 3
  | Some 3 => 2
  | Some 6 => 1
  | _ => 0
  end.

(** The bits of the widths from the current one up. *)
Definition bits_above (w : option Z) : Z :=
  match w with
  | Some 1 => 23
  | Some 2 => 22
  | Some 3 => 20
  | Some 6 => 17
  | Some 11 => 11
  | _ => 0
  end.

(** A hit with the fADC flag and one with the ATWD flag and two channels,
    over 38 bytes of header and a tape of zero bytes. *)
Definition waveform_hit (word0 : Z) : Payload.hit :=
  Payload.mk_hit
    (Payload.mk_base 1000 (Some (repeat Byte.x00 38 ++ repeat Byte.x00 80))
       true)
    5 2 0 77 word0 0.

Definition fadc_hit : Payload.hit := waveform_hit 0x8000.
Definition atwd_hit : Payload.hit := waveform_hit 0x5000.

(** The error of [struct.unpack] on a string of the wrong length. *)
Definition SHORT_STRING : pyexc :=
  StructError "unpack requires a string argument of the right length".

(** What [BaseHitRecord.__init__] stores: the flags byte twice, as flags
    and as channel id, and as time the base time plus the 16-bit field
    that follows. *)
Definition hit_record_ok (base_time : Z) (r : Payload.hit_record) : Prop :=
  Payload.hr_chan_id r = Payload.hr_flags r /\
  0 <= Payload.hr_flags r < 2 ^ 8 /\
  base_time <= Payload.hr_utime r < base_time + 2 ^ 16.

(** The hit indices of all trigger records. *)
Definition index_count (trigs : list Payload.trigger_record) : nat :=
  fold_right (fun t n => (length (Payload.tr_hit_index t) + n)%nat) 0%nat trigs.

(** The data of an event with one delta hit record (flags 7, next field
    5) and no trigger record. *)
Definition event_with_hit : pybytes :=
  repeat Byte.x00 18 ++
  [Byte.x00; Byte.x00; Byte.x00; Byte.x01;
   Byte.x00; Byte.x0a; Byte.x01; Byte.x07; Byte.x00; Byte.x05;
   Byte.x00; Byte.x00; Byte.x00; Byte.x09;
   Byte.x00; Byte.x00; Byte.x00; Byte.x00].

(** The data of an event of the year 2018 that stops 16 ticks after it
    starts, with one hit record and one trigger record that has one hit
    index. *)
Definition event_with_trigger : pybytes :=
  [Byte.x00; Byte.x00; Byte.x00; Byte.x10; Byte.x07; Byte.xe2;
   Byte.x00; Byte.x00; Byte.x00; Byte.x01;
   Byte.x00; Byte.x00; Byte.x00; Byte.x02;
   Byte.x00; Byte.x00; Byte.x00; Byte.x00] ++
  [Byte.x00; Byte.x00; Byte.x00; Byte.x01;
   Byte.x00; Byte.x0a; Byte.x01; Byte.x07; Byte.x00; Byte.x05;
   Byte.x00; Byte.x00; Byte.x00; Byte.x09] ++
  [Byte.x00; Byte.x00; Byte.x00; Byte.x01;
   Byte.x00; Byte.x00; Byte.x00; Byte.x01;
   Byte.x00; Byte.x00; Byte.x00; Byte.x02;
   Byte.x00; Byte.x00; Byte.x00; Byte.x03;
   Byte.x00; Byte.x00; Byte.x00; Byte.x04;
   Byte.x00; Byte.x00; Byte.x00; Byte.x06;
   Byte.x00; Byte.x00; Byte.x00; Byte.x01;
   Byte.x00; Byte.x00; Byte.x00; Byte.x00].

(** The bytes of the sample event and of the sample hit, and the hit as
    it is decoded from them. *)
Definition sample_frames : list pybytes :=
  [envelope_of 42 21 5 ++ event_data; envelope_of 54 3 1000 ++ hit_data].

Definition decoded_hit : Payload.payload :=
  Payload.DeltaCompressedHit (Payload.mk_base 1000 (Some hit_data) true)
    1000 2 0 77 0 0.

(** The float [f] is the integer [n], held exactly: zero, or the sign,
    the 53-bit mantissa and the exponent of [n]. *)
Definition holds (f : PyFloat.float) (n : Z) : Prop :=
  match f with
  | S754_zero _ => n = 0
  | S754_finite s m e =>
      n <> 0 /\ s = (n <? 0) /\ e = Z.log2 (Z.abs n) - 52 /\ e <= 0 /\
      Z.pos m = Z.abs n * 2 ^ (- e)
  | _ => False
  end.


(** A hit whose [word2] has bit 31 set and the fields 1, 5, 3 and 1. *)
Definition stamped_hit : Payload.hit :=
  Payload.mk_hit (Payload.mk_base 1000 (Some hit_data) true)
    5 2 0 77 0 2283013633.

(** * Theorems *)

(** ** Strings *)

Lemma find_neg_iff c s : Str.find c s < 0 <-> Str.contains c s = false.
Proof.
  induction s as [|a s IH]; simpl.
  - split; [reflexivity | lia].
  - destruct (Ascii.eqb a c); simpl.
    + split; [lia | discriminate].
    + destruct (Z.ltb_spec (Str.find c s) 0) as [Hlt|Hge].
      * split; [intros _; apply IH; exact Hlt | lia].
      * split; [lia|]. intros Hc. apply IH in Hc. lia.
Qed.

Lemma find_nonneg_or_minus1 c s : Str.find c s = -1 \/ 0 <= Str.find c s.
Proof.
  induction s as [|a s IH]; simpl; [left; reflexivity|].
  destruct (Ascii.eqb a c); [right; lia|].
  destruct (Z.ltb_spec (Str.find c s) 0); [left; reflexivity | right; lia].
Qed.

Lemma cut_Some c s h t :
  Str.cut c s = Some (h, t) ->
  s = h +:+ String c t /\ Str.contains c h = false.
Proof.
  revert h t. induction s as [|a s IH]; simpl; intros h t H; [discriminate|].
  destruct (Ascii.eqb_spec a c) as [->|Hne].
  - inversion H; subst. split; reflexivity.
  - destruct (Str.cut c s) as [[h' t']|] eqn:E; [|discriminate].
    inversion H; subst. destruct (IH h' t eq_refl) as [-> Hc].
    split; [reflexivity|]. simpl.
    destruct (Ascii.eqb_spec a c); [contradiction | exact Hc].
Qed.

Lemma cut_None c s : Str.cut c s = None <-> Str.contains c s = false.
Proof.
  induction s as [|a s IH]; simpl; [split; reflexivity|].
  destruct (Ascii.eqb a c); simpl; [split; discriminate|].
  destruct (Str.cut c s) as [[h t]|].
  - split; [discriminate|]. intros H. apply IH in H. discriminate.
  - split; [intros _; apply IH; reflexivity | reflexivity].
Qed.

Lemma cut_app c h t :
  Str.contains c h = false -> Str.cut c (h +:+ String c t) = Some (h, t).
Proof.
  induction h as [|a h IH]; simpl; intros Hc.
  - rewrite Ascii.eqb_refl. reflexivity.
  - apply orb_false_iff in Hc as [Ha Hh]. rewrite Ha, (IH Hh). reflexivity.
Qed.

(** ** HsUtil.split_rsync_host_and_path *)

Lemma split_rsync_no_colon s :
  Str.contains ":" s = false ->
  HsUtil.split_rsync_host_and_path (PyStr s) = Ok ("", s).
Proof.
  intros H. unfold HsUtil.split_rsync_host_and_path, Str.split1.
  apply cut_None in H. rewrite H. reflexivity.
Qed.

Lemma split_rsync_at_colon h t :
  Str.contains ":" h = false ->
  HsUtil.split_rsync_host_and_path (PyStr (h +:+ ":" +:+ t)) =
  Ok (if Str.contains "/" h then ("", h +:+ ":" +:+ t) else (h, t)).
Proof.
  intros H. unfold HsUtil.split_rsync_host_and_path, Str.split1.
  change (":" +:+ t) with (String ":" t).
  rewrite (cut_app _ _ _ H).
  destruct (Str.contains "/" h) eqn:Hs.
  - destruct (Z.ltb_spec (Str.find "/" h) 0) as [Hlt|_]; [|reflexivity].
    apply find_neg_iff in Hlt. congruence.
  - apply find_neg_iff in Hs. apply Z.ltb_lt in Hs. rewrite Hs. reflexivity.
Qed.

(** C9 (as amended): for a string the result is either [("", s)] or a host
    without slash and colon, possibly empty, with [host:path] equal to [s];
    the split happens exactly when the text before the first colon has no
    slash; any other object raises HsException. *)
Theorem split_rsync_host_and_path_spec (v : pyval) :
  match v with
  | PyStr s =>
      exists host path,
        HsUtil.split_rsync_host_and_path v = Ok (host, path) /\
        rsync_split_actual s host path /\
        (Str.contains ":" s = false -> (host, path) = ("", s)) /\
        (forall h t, s = h +:+ ":" +:+ t -> Str.contains ":" h = false ->
           (host, path) = if Str.contains "/" h then ("", s) else (h, t))
  | _ => raises_HsException (HsUtil.split_rsync_host_and_path v)
  end.
Proof.
  destruct v as [| | |s| | | |]; try exact eq_refl.
  destruct (Str.cut ":" s) as [[h t]|] eqn:Hcut.
  - destruct (cut_Some _ _ _ _ Hcut) as [Hs Hh].
    change (String ":" t) with (":" +:+ t) in Hs.
    pose proof (split_rsync_at_colon h t Hh) as Hres. rewrite <- Hs in Hres.
    exists (if Str.contains "/" h then "" else h),
           (if Str.contains "/" h then s else t).
    split; [rewrite Hres; destruct (Str.contains "/" h); reflexivity|].
    split; [|split].
    + destruct (Str.contains "/" h) eqn:Hsl.
      * left. split; reflexivity.
      * right. repeat split; auto.
    + intros Hc. apply cut_None in Hc. congruence.
    + intros h' t' Hs' Hh'. rewrite Hs' in Hcut.
      change (":" +:+ t') with (String ":" t') in Hcut.
      rewrite (cut_app _ _ _ Hh') in Hcut. inversion Hcut; subst h' t'.
      destruct (Str.contains "/" h); reflexivity.
  - pose proof (proj1 (cut_None _ _) Hcut) as Hc.
    exists "", s. split; [apply split_rsync_no_colon; exact Hc|].
    split; [left; split; reflexivity|]. split; [reflexivity|].
    intros h t -> Hh. change (":" +:+ t) with (String ":" t) in Hcut.
    rewrite (cut_app _ _ _ Hh) in Hcut. discriminate.
Qed.

(** C9 as stated fails: for [":foo"] the host is empty and the path is
    ["foo"], which is not the argument. *)
Lemma split_rsync_leading_colon :
  exists host path,
    HsUtil.split_rsync_host_and_path (PyStr ":foo") = Ok (host, path) /\
    ~ rsync_split_claimed ":foo" host path.
Proof.
  exists "", "foo". split; [reflexivity|].
  intros [[_ Hp]|[Hh _]]; [discriminate | apply Hh; reflexivity].
Qed.

(** ** HsUtil.get_daq_ticks *)

Example get_daq_ticks_one_second :
  HsUtil.get_daq_ticks jan1_2018 (mk_datetime 2018 1 1 0 0 1 0) false
  = Ok 10000000000.
Proof. vm_compute. reflexivity. Qed.

Example datetime_sub_200_days :
  Datetime.sub jul20_2018_1us jan1_2018 = Datetime.mk_timedelta 200 0 1.
Proof. vm_compute. reflexivity. Qed.

(** C8: 200 days and one microsecond after the start of the year the float
    product is not representable; the function returns a value 16 ticks
    below the interval. *)
Theorem get_daq_ticks_rounds :
  Datetime.valid jan1_2018 = true /\
  Datetime.valid jul20_2018_1us = true /\
  HsUtil.exact_ticks jan1_2018 jul20_2018_1us false = 172800000000010000 /\
  HsUtil.get_daq_ticks jan1_2018 jul20_2018_1us false
  = Ok 172800000000009984.
Proof. vm_compute. repeat split; reflexivity. Qed.

(** ** HsUtil.send_live_status *)

Lemma is_none_true v : HsUtil.is_none v = true <-> v = PyNone.
Proof. destruct v; simpl; split; congruence. Qed.

Lemma is_none_false v : HsUtil.is_none v = false <-> v <> PyNone.
Proof. destruct v; simpl; split; congruence. Qed.

Lemma time_to_utc_str_ok which var t status :
  time_arg_ok status t ->
  HsUtil.time_to_utc_str which var t status = Ok (time_field t).
Proof.
  destruct t; simpl; try contradiction; [|reflexivity].
  intros ->. reflexivity.
Qed.

Lemma lookup_set_unless_none key v (d : gmap string pyval) k :
  HsUtil.set_unless_none key v d !! k =
  if decide (key = k) then
    match optional_field v with Some x => Some x | None => d !! k end
  else d !! k.
Proof.
  unfold HsUtil.set_unless_none, optional_field.
  destruct (HsUtil.is_none v); case_decide; subst; simplify_map_eq; done.
Qed.

(** C7: with status, request id and destination set and each time a DAQTime
    (or None under REQUEST ERROR), exactly one message is appended to the
    socket, with the fixed service, varname and prio and the value fields
    of the arguments; success and failed are there exactly when given.
    With status, request id or destination None the call raises
    HsException and the socket is as before. *)
Theorem send_live_status_spec utcnow sock
    req_id username prefix start_time stop_time copydir status success failed :
  (status <> PyNone -> req_id <> PyNone -> copydir <> PyNone ->
   time_arg_ok status start_time -> time_arg_ok status stop_time ->
   exists msg,
     HsUtil.send_live_status utcnow sock req_id username prefix start_time
       stop_time copydir status success failed = (sock ++ [msg], Ok tt) /\
     live_status_message utcnow req_id username prefix start_time stop_time
       copydir status success failed msg) /\
  (status = PyNone \/ req_id = PyNone \/ copydir = PyNone ->
   exists fmt args,
     HsUtil.send_live_status utcnow sock req_id username prefix start_time
       stop_time copydir status success failed
     = (sock, Raise (HsException fmt args))).
Proof.
  split.
  - intros Hs Hr Hc Hstart Hstop.
    apply is_none_false in Hs, Hr, Hc.
    unfold HsUtil.send_live_status. rewrite Hs, Hr, Hc.
    rewrite (time_to_utc_str_ok _ _ _ _ Hstart),
            (time_to_utc_str_ok _ _ _ _ Hstop).
    eexists. split; [reflexivity|].
    unfold live_status_message, HsUtil.i3json.
    eexists _, _. split; [reflexivity|].
    repeat (split; [by simplify_map_eq|]).
    repeat split;
      rewrite !lookup_set_unless_none; unfold HsUtil.status_value;
      repeat case_decide; try congruence;
      try (destruct (optional_field _); by simplify_map_eq);
      by simplify_map_eq.
  - unfold HsUtil.send_live_status.
    destruct (HsUtil.is_none status) eqn:Es; [eauto|].
    destruct (HsUtil.is_none req_id) eqn:Er; [eauto|].
    destruct (HsUtil.is_none copydir) eqn:Ec; [eauto|].
    apply is_none_false in Es, Er, Ec. intros [?|[?|?]]; contradiction.
Qed.

Lemma send_live_status_witness :
  (exists msg,
     HsUtil.send_live_status jan1_2018 [] (PyStr "r1") (PyStr "u")
       (PyStr "SNALERT") (PyDAQTime jan1_2018) (PyDAQTime jul20_2018_1us)
       (PyStr "/tmp/copy") (PyStr HsUtil.STATUS_SUCCESS) (PyStr "1,66") PyNone
     = ([] ++ [msg], Ok tt) /\
     live_status_message jan1_2018 (PyStr "r1") (PyStr "u") (PyStr "SNALERT")
       (PyDAQTime jan1_2018) (PyDAQTime jul20_2018_1us) (PyStr "/tmp/copy")
       (PyStr HsUtil.STATUS_SUCCESS) (PyStr "1,66") PyNone msg) /\
  (exists fmt args,
     HsUtil.send_live_status jan1_2018 [] PyNone (PyStr "u") PyNone
       PyNone PyNone (PyStr "/tmp/copy") (PyStr HsUtil.STATUS_REQUEST_ERROR)
       PyNone PyNone
     = ([], Raise (HsException fmt args))).
Proof.
  split.
  - apply (proj1 (send_live_status_spec jan1_2018 [] (PyStr "r1") (PyStr "u")
       (PyStr "SNALERT") (PyDAQTime jan1_2018) (PyDAQTime jul20_2018_1us)
       (PyStr "/tmp/copy") (PyStr HsUtil.STATUS_SUCCESS) (PyStr "1,66")
       PyNone)); [discriminate | discriminate | discriminate | exact I | exact I].
  - apply (proj2 (send_live_status_spec jan1_2018 [] PyNone (PyStr "u") PyNone
       PyNone PyNone (PyStr "/tmp/copy") (PyStr HsUtil.STATUS_REQUEST_ERROR)
       PyNone PyNone)).
    right; left; reflexivity.
Defined.

(** ** HsUtil.dict_to_object *)


















(** ** struct: packing and unpacking agree *)

Lemma Z_of_byte_of_Z z : 0 <= z < 256 -> Struct.Z_of_byte (Struct.byte_of_Z z) = z.
Proof.
  intros Hz. unfold Struct.Z_of_byte, Struct.byte_of_Z.
  destruct (Byte.of_N (Z.to_N z)) as [b|] eqn:E.
  - apply Byte.to_of_N in E. rewrite E. lia.
  - apply Byte.of_N_None_iff in E. lia.
Qed.

Lemma be_encode_length n v : length (Struct.be_encode n v) = n.
Proof. induction n; simpl; congruence. Qed.

Lemma be_fold_acc (bs : pybytes) acc :
  fold_left (fun a b => a * 256 + Struct.Z_of_byte b) bs acc =
  acc * 256 ^ Z.of_nat (length bs) + Struct.be_unsigned bs.
Proof.
  unfold Struct.be_unsigned. revert acc.
  induction bs as [|b bs IH]; intros acc; simpl fold_left.
  - simpl. lia.
  - rewrite (IH (acc * 256 + _)), (IH (0 * 256 + _)).
    change (length (b :: bs)) with (S (length bs)).
    rewrite Nat2Z.inj_succ, Z.pow_succ_r by lia. ring.
Qed.

Lemma be_unsigned_encode_mod n v :
  Struct.be_unsigned (Struct.be_encode n v) = v mod 256 ^ Z.of_nat n.
Proof.
  induction n as [|k IH].
  - simpl. rewrite Z.mod_1_r. reflexivity.
  - simpl Struct.be_encode. unfold Struct.be_unsigned. simpl fold_left.
    rewrite be_fold_acc, IH, be_encode_length.
    rewrite Z_of_byte_of_Z by (apply Z.mod_pos_bound; lia).
    rewrite Nat2Z.inj_succ, Z.pow_succ_r by lia.
    rewrite (Z.mul_comm 256), Z.rem_mul_r by lia. ring.
Qed.

Lemma be_unsigned_encode n v :
  0 <= v < 256 ^ Z.of_nat n -> Struct.be_unsigned (Struct.be_encode n v) = v.
Proof. intros H. rewrite be_unsigned_encode_mod. apply Z.mod_small, H. Qed.

Lemma be_signed_encode n v :
  (0 < n)%nat -> 0 <= v < 2 ^ (8 * Z.of_nat n - 1) ->
  Struct.be_signed (Struct.be_encode n v) = v.
Proof.
  intros Hn Hv. unfold Struct.be_signed. rewrite be_encode_length.
  assert (256 ^ Z.of_nat n = 2 * 2 ^ (8 * Z.of_nat n - 1)) as Hp.
  { change 256 with (2 ^ 8). rewrite <- Z.pow_mul_r by lia.
    rewrite <- Z.pow_succ_r by lia. f_equal. lia. }
  rewrite be_unsigned_encode by lia.
  destruct (Z.ltb_spec v (2 ^ (8 * Z.of_nat n - 1))); [reflexivity | lia].
Qed.

Lemma firstn_app_exact {A} n (l1 l2 : list A) :
  length l1 = n -> firstn n (l1 ++ l2) = l1.
Proof.
  intros <-. rewrite firstn_app, Nat.sub_diag, firstn_all. simpl.
  apply app_nil_r.
Qed.

Lemma skipn_app_exact {A} n (l1 l2 : list A) :
  length l1 = n -> skipn n (l1 ++ l2) = l2.
Proof.
  intros <-. rewrite skipn_app, Nat.sub_diag, skipn_all. reflexivity.
Qed.

Lemma envelope_of_length len tid utime : length (envelope_of len tid utime) = 16%nat.
Proof.
  unfold envelope_of. rewrite !length_app, !be_encode_length. reflexivity.
Qed.

Lemma pack_envelope len tid utime :
  0 <= len < 2 ^ 32 -> 0 <= tid < 2 ^ 32 -> 0 <= utime < 2 ^ 64 ->
  Struct.pack [Struct.U32; Struct.U32; Struct.U64] [len; tid; utime]
  = Ok (envelope_of len tid utime).
Proof.
  intros Hl Ht Hu. unfold envelope_of. cbn [Struct.pack].
  assert (Struct.in_range Struct.U32 len = true) as ->
    by (unfold Struct.in_range; lia).
  assert (Struct.in_range Struct.U32 tid = true) as ->
    by (unfold Struct.in_range; lia).
  assert (Struct.in_range Struct.U64 utime = true) as ->
    by (unfold Struct.in_range; lia).
  unfold mbind, result_bind, bind. cbn [Struct.size].
  rewrite app_nil_r. reflexivity.
Qed.

Lemma unpack_envelope_unsigned len tid utime :
  0 <= len < 2 ^ 32 -> 0 <= tid < 2 ^ 32 -> 0 <= utime < 2 ^ 64 ->
  Struct.unpack [Struct.U32; Struct.U32; Struct.U64] (envelope_of len tid utime)
  = Ok [len; tid; utime].
Proof.
  intros Hl Ht Hu. unfold Struct.unpack.
  rewrite envelope_of_length. simpl Nat.eqb. cbv iota.
  unfold envelope_of. cbn [Struct.unpack_fields Struct.size].
  rewrite !skipn_app_exact by apply be_encode_length.
  rewrite !firstn_app_exact by apply be_encode_length.
  rewrite firstn_all2 by (rewrite be_encode_length; lia).
  rewrite !be_unsigned_encode by (simpl; lia). reflexivity.
Qed.

Lemma unpack_envelope_signed len tid utime :
  0 <= len < 2 ^ 31 -> 0 <= tid < 2 ^ 31 -> 0 <= utime < 2 ^ 63 ->
  Struct.unpack [Struct.I32; Struct.I32; Struct.I64] (envelope_of len tid utime)
  = Ok [len; tid; utime].
Proof.
  intros Hl Ht Hu. unfold Struct.unpack.
  rewrite envelope_of_length. simpl Nat.eqb. cbv iota.
  unfold envelope_of. cbn [Struct.unpack_fields Struct.size].
  rewrite !skipn_app_exact by apply be_encode_length.
  rewrite !firstn_app_exact by apply be_encode_length.
  rewrite firstn_all2 by (rewrite be_encode_length; lia).
  rewrite !be_signed_encode by (simpl; lia). reflexivity.
Qed.

Lemma Z_of_byte_bound b : 0 <= Struct.Z_of_byte b < 256.
Proof.
  unfold Struct.Z_of_byte. pose proof (Byte.to_N_bounded b). lia.
Qed.

Lemma be_unsigned_bound (bs : pybytes) :
  0 <= Struct.be_unsigned bs < 256 ^ Z.of_nat (length bs).
Proof.
  induction bs as [|b bs IH].
  - unfold Struct.be_unsigned. simpl. lia.
  - unfold Struct.be_unsigned. simpl fold_left. rewrite be_fold_acc.
    change (length (b :: bs)) with (S (length bs)).
    rewrite Nat2Z.inj_succ, Z.pow_succ_r by lia.
    pose proof (Z_of_byte_bound b). nia.
Qed.

Lemma be_unsigned_bound_le (bs : pybytes) n :
  (length bs <= n)%nat -> 0 <= Struct.be_unsigned bs < 256 ^ Z.of_nat n.
Proof.
  intros Hn. pose proof (be_unsigned_bound bs) as [H0 H1]. split; [lia|].
  eapply Z.lt_le_trans; [exact H1|]. apply Z.pow_le_mono_r; lia.
Qed.

Lemma unpack_envelope_mixed len tid utime :
  0 <= len < 2 ^ 31 -> 0 <= tid < 2 ^ 31 ->
  Struct.unpack [Struct.I32; Struct.I32; Struct.I64] (envelope_of len tid utime)
  = Ok [len; tid; Struct.be_signed (Struct.be_encode 8 utime)].
Proof.
  intros Hl Ht. unfold Struct.unpack.
  rewrite envelope_of_length. simpl Nat.eqb. cbv iota.
  unfold envelope_of. cbn [Struct.unpack_fields Struct.size].
  rewrite !skipn_app_exact by apply be_encode_length.
  rewrite !firstn_app_exact by apply be_encode_length.
  rewrite firstn_all2 by (rewrite be_encode_length; lia).
  rewrite !be_signed_encode by (simpl; lia). reflexivity.
Qed.

(** ** payload.py: envelopes and decoding *)

Lemma read_envelope env data :
  length env = 16%nat -> Payload.read Payload.ENVELOPE_LENGTH (env ++ data) = (env, data).
Proof.
  intros H. unfold Payload.read, Payload.ENVELOPE_LENGTH.
  change (Z.to_nat 16) with 16%nat.
  rewrite firstn_app_exact, skipn_app_exact by assumption. reflexivity.
Qed.

Lemma read_all (data : pybytes) :
  Payload.read (Z.of_nat (length data) + 16 - Payload.ENVELOPE_LENGTH) data
  = (data, []).
Proof.
  unfold Payload.read, Payload.ENVELOPE_LENGTH.
  replace (Z.to_nat (Z.of_nat (length data) + 16 - 16)) with (length data) by lia.
  rewrite firstn_all, skipn_all. reflexivity.
Qed.

(** Decoding an envelope followed by its data hands the type id, the
    (signed) time field and the data to the class constructors. *)
Lemma decode_envelope (data : pybytes) tid utime :
  sized data -> 0 <= tid < 2 ^ 31 ->
  Payload.decode_payload
    (envelope_of (Z.of_nat (length data) + 16) tid utime ++ data) true
  = (let field := Struct.be_signed (Struct.be_encode 8 utime) in
     pay ← (if tid =? Payload.DeltaCompressedHit_TYPE_ID
            then Payload.DeltaCompressedHit_init field (Some data) true
            else if tid =? Payload.EventV5_TYPE_ID
            then Payload.EventV5_init field (Some data) true
            else Payload.UnknownPayload_init tid field (Some data) true);
     Ok (Some pay, [])).
Proof.
  intros [Hpos Hlen] Htid. unfold Payload.decode_payload.
  rewrite read_envelope by apply envelope_of_length.
  rewrite envelope_of_length. simpl Nat.eqb. cbv iota.
  rewrite unpack_envelope_mixed by lia.
  unfold mbind at 1, result_bind at 1, bind at 1. unfold item. simpl nth.
  assert ((Z.of_nat (length data) + 16 <=? Payload.ENVELOPE_LENGTH) = false)
    as -> by (unfold Payload.ENVELOPE_LENGTH; lia).
  rewrite read_all. reflexivity.
Qed.

Lemma bytes_kept p (data : pybytes) tid :
  Payload.base_of p = Payload.mk_base (Payload.utime p) (Some data) true ->
  Payload.payload_type_id p = Some tid ->
  0 <= tid < 2 ^ 32 -> 0 <= Payload.utime p < 2 ^ 64 ->
  Z.of_nat (length data) + 16 < 2 ^ 32 ->
  Payload.data_bytes p = Ok data /\
  Payload.bytes p
  = Ok (envelope_of (Z.of_nat (length data) + 16) tid (Payload.utime p) ++ data).
Proof.
  intros Hb Ht Htid Hu Hlen.
  unfold Payload.data_bytes, Payload.bytes, Payload.has_data.
  rewrite Hb, Ht. cbn [Payload.b_valid_data Payload.b_data negb].
  split; [reflexivity|]. unfold Payload.utime. rewrite Hb.
  cbn [Payload.b_utime]. unfold Payload.ENVELOPE_LENGTH.
  rewrite pack_envelope by lia. reflexivity.
Qed.

Lemma roundtrips_intro p p' (data : pybytes) tid :
  sized data ->
  Payload.base_of p = Payload.mk_base (Payload.utime p) (Some data) true ->
  Payload.payload_type_id p = Some tid ->
  0 <= tid < 2 ^ 31 -> 0 <= Payload.utime p < 2 ^ 64 ->
  Payload.decode_payload
    (envelope_of (Z.of_nat (length data) + 16) tid (Payload.utime p) ++ data)
    true = Ok (Some p', []) ->
  Payload.payload_type_id p' = Some tid ->
  Payload.utime p' = Payload.utime p ->
  Payload.data_bytes p' = Ok data ->
  roundtrips p data.
Proof.
  intros [Hpos Hlen] Hb Ht Htid Hu Hdec Ht' Hu' Hd'.
  destruct (bytes_kept p data tid Hb Ht) as [Hdb Hbytes]; try lia.
  exists (envelope_of (Z.of_nat (length data) + 16) tid (Payload.utime p)), tid.
  split; [exact Ht|]. split; [exact Hdb|]. split; [exact Hbytes|].
  split; [apply envelope_of_length|].
  split; [apply unpack_envelope_unsigned; lia|].
  exists p'. auto.
Qed.

Lemma unknown_roundtrips tid utime (data : pybytes) p :
  tid <> Payload.DeltaCompressedHit_TYPE_ID -> tid <> Payload.EventV5_TYPE_ID ->
  0 <= tid < 2 ^ 31 -> 0 <= utime < 2 ^ 63 -> sized data ->
  Payload.UnknownPayload_init tid utime (Some data) true = Ok p ->
  roundtrips p data.
Proof.
  intros H3 H21 Htid Hu Hs [= <-].
  apply (roundtrips_intro _ (Payload.UnknownPayload tid
           (Payload.mk_base utime (Some data) true)) data tid);
    try reflexivity; try assumption;
    [unfold Payload.utime; simpl; lia|].
  rewrite decode_envelope by assumption. cbv zeta.
  apply Z.eqb_neq in H3, H21. rewrite H3, H21.
  unfold Payload.utime. simpl Payload.b_utime.
  rewrite be_signed_encode by (simpl; lia). reflexivity.
Qed.

(** What a successful [DeltaCompressedHit.__init__] has built: the time is
    the unsigned field read from the data, and the mainboard id is stored
    as given, whatever it is. *)
Lemma DeltaCompressedHit_init_Ok mbid (d : pybytes) keep p :
  Payload.DeltaCompressedHit_init mbid (Some d) keep = Ok p ->
  exists u v pe dc w0 w2,
    p = Payload.DeltaCompressedHit (Payload.Payload_init u (Some d) keep)
          mbid v pe dc w0 w2 /\
    0 <= u < 2 ^ 64 /\
    forall mbid',
      Payload.DeltaCompressedHit_init mbid' (Some d) keep
      = Ok (Payload.DeltaCompressedHit (Payload.Payload_init u (Some d) keep)
              mbid' v pe dc w0 w2).
Proof.
  unfold Payload.DeltaCompressedHit_init.
  destruct (Z.of_nat (length d) <? Payload.DeltaCompressedHit_MIN_LENGTH);
    [discriminate|].
  destruct (Struct.unpack _ (slice 0 30 d)) as [hdr|e] eqn:Eh; [|discriminate].
  unfold mbind, result_bind, bind. cbv beta iota.
  destruct (negb (item hdr 1 =? 1)); [discriminate|].
  destruct (Struct.unpack _ (slice 30 38 d)) as [words|e] eqn:Ew;
    [|discriminate].
  intros [= <-].
  eexists _, _, _, _, _, _. split; [reflexivity|]. split; [|reflexivity].
  unfold Struct.unpack in Eh.
  destruct (Nat.eqb _ _) in Eh; [|discriminate]. injection Eh as <-.
  cbn [Struct.unpack_fields Struct.size item nth].
  change (2 ^ 64) with (256 ^ Z.of_nat 8).
  apply be_unsigned_bound_le. apply firstn_le_length.
Qed.

Lemma hit_roundtrips mbid (data : pybytes) p :
  sized data ->
  Payload.DeltaCompressedHit_init mbid (Some data) true = Ok p ->
  roundtrips p data.
Proof.
  intros Hs Hinit.
  destruct (DeltaCompressedHit_init_Ok _ _ _ _ Hinit)
    as (u & v & pe & dc & w0 & w2 & -> & Hu & Hany).
  set (p := Payload.DeltaCompressedHit _ mbid v pe dc w0 w2).
  apply (roundtrips_intro p
           (Payload.DeltaCompressedHit
              (Payload.Payload_init u (Some data) true)
              (Struct.be_signed (Struct.be_encode 8 (Payload.utime p)))
              v pe dc w0 w2)
           data Payload.DeltaCompressedHit_TYPE_ID);
    try reflexivity; try assumption.
  - unfold Payload.DeltaCompressedHit_TYPE_ID. lia.
  - rewrite decode_envelope
      by (try assumption; unfold Payload.DeltaCompressedHit_TYPE_ID; lia).
    cbv zeta. rewrite Z.eqb_refl, Hany. reflexivity.
Qed.

Lemma EventV5_init_Ok utime (d : pybytes) keep p :
  Payload.EventV5_init utime (Some d) keep = Ok p ->
  Payload.base_of p = Payload.Payload_init utime (Some d) keep /\
  Payload.payload_type_id p = Some Payload.EventV5_TYPE_ID.
Proof.
  unfold Payload.EventV5_init.
  destruct (Z.of_nat (length d) <? Payload.EventV5_MIN_LENGTH); [discriminate|].
  destruct (Struct.unpack _ (slice 0 18 d)) as [hdr|e]; [|discriminate].
  unfold mbind at 1, result_bind at 1, bind at 1.
  destruct (Payload.load_hit_records utime d 18) as [[hits off]|e];
    [|discriminate].
  unfold mbind at 1, result_bind at 1, bind at 1.
  destruct (Payload.load_trig_records utime d off) as [[trigs off']|e];
    [|discriminate].
  unfold mbind, result_bind, bind. intros [= <-]. split; reflexivity.
Qed.

Lemma event_roundtrips utime (data : pybytes) p :
  0 <= utime < 2 ^ 63 -> sized data ->
  Payload.EventV5_init utime (Some data) true = Ok p ->
  roundtrips p data.
Proof.
  intros Hu Hs Hinit. destruct (EventV5_init_Ok _ _ _ _ Hinit) as [Hb Ht].
  assert (Payload.utime p = utime) as Hut
    by (unfold Payload.utime; rewrite Hb; reflexivity).
  assert (Payload.data_bytes p = Ok data) as Hd.
  { unfold Payload.data_bytes, Payload.has_data. rewrite Hb. reflexivity. }
  apply (roundtrips_intro p p data Payload.EventV5_TYPE_ID);
    try assumption; try reflexivity.
  - rewrite Hb, Hut. reflexivity.
  - unfold Payload.EventV5_TYPE_ID. lia.
  - lia.
  - rewrite decode_envelope
      by (try assumption; unfold Payload.EventV5_TYPE_ID; lia).
    cbv zeta. rewrite Hut, be_signed_encode by (simpl; lia).
    change (Payload.EventV5_TYPE_ID =? Payload.DeltaCompressedHit_TYPE_ID)
      with false.
    rewrite Z.eqb_refl, Hinit. reflexivity.
Qed.

(** A payload whose data was not kept gives no bytes. *)
Lemma discarded_no_bytes p :
  Payload.has_data p = false ->
  Payload.bytes p = Raise Payload.discarded /\
  Payload.data_bytes p = Raise Payload.discarded.
Proof.
  intros H. unfold Payload.bytes, Payload.data_bytes. rewrite H.
  split; reflexivity.
Qed.

Lemma init_without_data_discards :
  (forall tid utime data p,
     Payload.UnknownPayload_init tid utime data false = Ok p ->
     Payload.has_data p = false) /\
  (forall mbid data p,
     Payload.DeltaCompressedHit_init mbid data false = Ok p ->
     Payload.has_data p = false) /\
  (forall utime data p,
     Payload.EventV5_init utime data false = Ok p ->
     Payload.has_data p = false).
Proof.
  split; [|split].
  - intros tid utime data p [= <-]. destruct data; reflexivity.
  - intros mbid [d|] p H; [|discriminate].
    destruct (DeltaCompressedHit_init_Ok _ _ _ _ H)
      as (u & v & pe & dc & w0 & w2 & -> & _). reflexivity.
  - intros utime [d|] p H; [|discriminate].
    destruct (EventV5_init_Ok _ _ _ _ H) as [Hb _].
    unfold Payload.has_data. rewrite Hb. reflexivity.
Qed.

(** C10 (as amended): a payload of one of the three classes built with
    keep_data=True from data that is not empty, with a total length, a type
    id and (where the constructor takes it) a time that fit the signed
    fields of the reader, round-trips through [bytes] and
    [decode_payload] in type id, time and data; built with keep_data=False
    it raises PayloadException from [bytes]. *)
Theorem payload_bytes_roundtrip :
  (forall tid utime data p,
     tid <> Payload.DeltaCompressedHit_TYPE_ID ->
     tid <> Payload.EventV5_TYPE_ID ->
     0 <= tid < 2 ^ 31 -> 0 <= utime < 2 ^ 63 -> sized data ->
     Payload.UnknownPayload_init tid utime (Some data) true = Ok p ->
     roundtrips p data) /\
  (forall mbid data p,
     sized data ->
     Payload.DeltaCompressedHit_init mbid (Some data) true = Ok p ->
     roundtrips p data) /\
  (forall utime data p,
     0 <= utime < 2 ^ 63 -> sized data ->
     Payload.EventV5_init utime (Some data) true = Ok p ->
     roundtrips p data) /\
  (forall p,
     (exists tid utime data,
        Payload.UnknownPayload_init tid utime data false = Ok p) \/
     (exists mbid data,
        Payload.DeltaCompressedHit_init mbid data false = Ok p) \/
     (exists utime data, Payload.EventV5_init utime data false = Ok p) ->
     Payload.bytes p = Raise Payload.discarded /\
     is_PayloadException Payload.discarded = true).
Proof.
  split; [exact unknown_roundtrips|]. split; [exact hit_roundtrips|].
  split; [exact event_roundtrips|].
  intros p H. split; [|reflexivity]. apply discarded_no_bytes.
  destruct init_without_data_discards as (Hu & Hh & He).
  destruct H as [(tid & utime & data & H)|[(mbid & data & H)|(utime & data & H)]];
    eauto.
Qed.

Lemma sized_small (data : pybytes) :
  (0 < length data)%nat -> (length data < 1000)%nat -> sized data.
Proof. intros H0 H1. split; [exact H0 | lia]. Qed.

Lemma payload_bytes_roundtrip_witness :
  roundtrips (Payload.UnknownPayload 7 (Payload.mk_base 5 (Some [Byte.x01]) true))
             [Byte.x01] /\
  roundtrips sample_hit hit_data /\
  roundtrips sample_event event_data /\
  Payload.bytes (Payload.UnknownPayload 7 (Payload.mk_base 5 None false))
  = Raise Payload.discarded.
Proof.
  destruct payload_bytes_roundtrip as (Hu & Hh & He & Hd).
  split; [|split; [|split]].
  - apply (Hu 7 5 [Byte.x01]); try discriminate; try reflexivity;
      [lia | lia | apply sized_small; simpl; lia].
  - apply (Hh 20015998343868 hit_data);
      [apply sized_small; simpl; lia | reflexivity].
  - apply (He 5 event_data);
      [lia | apply sized_small; simpl; lia | reflexivity].
  - apply (Hd (Payload.UnknownPayload 7 (Payload.mk_base 5 None false))).
    left. exists 7, 5, (Some [Byte.x01]). reflexivity.
Defined.

(** C10 as stated fails for empty data: the envelope says 16 bytes, the
    reader then takes the payload to have no data at all. *)
Lemma empty_payload_loses_data :
  exists p env p',
    Payload.UnknownPayload_init 7 5 (Some []) true = Ok p /\
    Payload.data_bytes p = Ok [] /\
    Payload.bytes p = Ok env /\
    Payload.decode_payload env true = Ok (Some p', []) /\
    Payload.data_bytes p' = Raise Payload.discarded.
Proof.
  eexists _, _, _. split; [reflexivity|]. split; [reflexivity|].
  split; [vm_compute; reflexivity|]. split; vm_compute; reflexivity.
Qed.

(** The envelope of a hit holds the time of the hit where the reader
    expects its mainboard id: the decoded hit has the time as its id. *)
Lemma hit_envelope_holds_time mbid (data : pybytes) p :
  sized data ->
  Payload.DeltaCompressedHit_init mbid (Some data) true = Ok p ->
  exists env p',
    Payload.bytes p = Ok (env ++ data) /\
    Payload.decode_payload (env ++ data) true = Ok (Some p', []) /\
    Payload.mbid p = Some mbid /\
    Payload.mbid p'
    = Some (Struct.be_signed (Struct.be_encode 8 (Payload.utime p))).
Proof.
  intros Hs Hinit.
  destruct (DeltaCompressedHit_init_Ok _ _ _ _ Hinit)
    as (u & v & pe & dc & w0 & w2 & -> & Hu & Hany).
  set (p := Payload.DeltaCompressedHit _ mbid v pe dc w0 w2).
  destruct Hs as [Hpos Hlen].
  assert (Payload.bytes p
          = Ok (envelope_of (Z.of_nat (length data) + 16)
                  Payload.DeltaCompressedHit_TYPE_ID (Payload.utime p) ++ data))
    as Hb.
  { apply bytes_kept; try reflexivity; try assumption;
      try (unfold Payload.DeltaCompressedHit_TYPE_ID; lia); lia. }
  eexists _, _. split; [exact Hb|].
  rewrite decode_envelope
    by (try split; try assumption; unfold Payload.DeltaCompressedHit_TYPE_ID; lia).
  cbv zeta. rewrite Z.eqb_refl, Hany.
  split; [reflexivity|]. split; reflexivity.
Qed.

Example sample_hit_mbid_lost :
  exists env p',
    Payload.DeltaCompressedHit_init 20015998343868 (Some hit_data) true
    = Ok sample_hit /\
    Payload.bytes sample_hit = Ok env /\
    Payload.decode_payload env true = Ok (Some p', []) /\
    Payload.mbid sample_hit = Some 20015998343868 /\
    Payload.mbid p' = Some 1000.
Proof.
  eexists _, _. split; [reflexivity|]. split; [vm_compute; reflexivity|].
  split; [vm_compute; reflexivity|]. split; reflexivity.
Qed.

(** ** The request monitor *)

Section MonitorFacts.

Variables cv ex : Z.

Lemma statuses_app (a b : list output) :
  statuses (a ++ b) = statuses a ++ statuses b.
Proof. apply omap_app. Qed.

Lemma statuses_for_app rid status (a b : list output) :
  statuses_for rid status (a ++ b)
  = statuses_for rid status a ++ statuses_for rid status b.
Proof. unfold statuses_for. rewrite statuses_app. apply List.filter_app. Qed.


Lemma logs_app (a b : list output) : logs (a ++ b) = logs a ++ logs b.
Proof. apply omap_app. Qed.

Lemma process_violation now raw st v :
  schema_check raw = inl v ->
  process cv ex now raw st = (st, violation_outputs raw v).
Proof. intros H. unfold process. rewrite H. reflexivity. Qed.

Lemma violation_no_status raw v : statuses (violation_outputs raw v) = [].
Proof. destruct v; reflexivity. Qed.

(** Outputs without a status hold none for a request. *)
Lemma no_status_for rid status (outs : list output) :
  statuses outs = [] -> statuses_for rid status outs = [].
Proof. unfold statuses_for. intros ->. reflexivity. Qed.


Lemma process_admitted now raw m st r pre :
  admitted cv raw m st ->
  pre_record ex now m st = Some (r, pre) ->
  process cv ex now raw st = apply_report ex m now r st pre.
Proof.
  intros (Hs & Hv & Hf) Hpre. unfold process. rewrite Hs, Hv. simpl negb.
  cbv iota. rewrite bool_decide_eq_false_2 by exact Hf.
  unfold pre_record in Hpre.
  destruct (records st !! r_request_id m) as [r0|].
  - inversion Hpre; subst. reflexivity.
  - destruct (r_msgtype m); inversion Hpre; subst; reflexivity.
Qed.

(** How one report is handled: dropped without a status, admitted as the
    INITIAL of a new request, or applied to a record. *)
Lemma process_cases now raw st :
  (exists outs,
     process cv ex now raw st = (st, outs) /\ statuses outs = []) \/
  (exists m,
     admitted cv raw m st /\ records st !! r_request_id m = None /\
     r_msgtype m = INITIAL /\
     let r := record_of ex m now (announced_legs (r_hubs m)) in
     process cv ex now raw st
     = (mk_state (<[r_request_id m := r]> (records st)) (finished st),
        [Status (status_of (r_request_id m) r HsUtil.STATUS_QUEUED None None);
         Email (r_request_id m) (is_snalert (r_prefix m))])) \/
  (exists m r pre,
     admitted cv raw m st /\ pre_record ex now m st = Some (r, pre) /\
     process cv ex now raw st = apply_report ex m now r st pre).
Proof.
  destruct (schema_check raw) as [v|m] eqn:Hs.
  { left. eexists. split; [apply process_violation; exact Hs|].
    apply violation_no_status. }
  unfold process. rewrite Hs.
  destruct (version_ok cv m) eqn:Hv;
    [|left; eexists; split; reflexivity].
  simpl negb. cbv iota.
  destruct (bool_decide (r_request_id m ∈ finished st)) eqn:Hf;
    [left; eexists; split; reflexivity|].
  apply bool_decide_eq_false in Hf.
  assert (admitted cv raw m st) as Hadm by (repeat split; assumption).
  destruct (records st !! r_request_id m) as [r|] eqn:Hr.
  - right; right. exists m, r, []. split; [assumption|].
    split; [|reflexivity]. unfold pre_record. rewrite Hr. reflexivity.
  - destruct (r_msgtype m) eqn:Ht.
    + right; left. exists m. repeat split; assumption.
    + right; right. eexists m, _, _. split; [assumption|].
      split; [|reflexivity]. unfold pre_record. rewrite Hr, Ht. reflexivity.
    + left. eexists. split; reflexivity.
    + right; right. eexists m, _, _. split; [assumption|].
      split; [|reflexivity]. unfold pre_record. rewrite Hr, Ht. reflexivity.
    + right; right. eexists m, _, _. split; [assumption|].
      split; [|reflexivity]. unfold pre_record. rewrite Hr, Ht. reflexivity.
Qed.

Lemma pre_record_statuses now m st r pre :
  pre_record ex now m st = Some (r, pre) -> statuses pre = [].
Proof.
  unfold pre_record. destruct (records st !! r_request_id m).
  - intros [= <- <-]. reflexivity.
  - destruct (r_msgtype m); intros [= <- <-]; reflexivity.
Qed.

(** *** Transitions *)

(** With every leg in INITIAL, so is the leg of any host. *)
Lemma all_initial_leg r host : all_initial r = true -> leg_of r host = LegInitial.
Proof.
  intros Ha. apply bool_decide_eq_true in Ha. unfold leg_of.
  destruct (hub_legs r !! host) as [s|] eqn:E; [|reflexivity].
  simpl. exact (map_Forall_lookup_1 _ _ _ _ Ha E).
Qed.

(** The only status a transition sends is IN PROGRESS, and it sends it for
    a STARTED, WORKING or FAILED that finds every leg in INITIAL. *)
Lemma transition_statuses m now r :
  statuses (snd (transition ex m now r))
  = if announces m && all_initial r
    then [status_of (r_request_id m) r HsUtil.STATUS_IN_PROGRESS None None]
    else [].
Proof.
  unfold transition, announces, in_progress.
  destruct (all_initial r) eqn:Ha.
  - rewrite (all_initial_leg r (r_host m) Ha).
    destruct (r_msgtype m); reflexivity.
  - rewrite andb_false_r.
    destruct (r_msgtype m); destruct (leg_of r (r_host m)); reflexivity.
Qed.

Lemma all_initial_set_leg r host s :
  s <> LegInitial -> all_initial (set_leg r host s) = false.
Proof.
  intros Hs. apply bool_decide_eq_false. intros H.
  unfold set_leg in H. cbn [hub_legs] in H.
  apply map_Forall_insert_1_1 in H. contradiction.
Qed.

Lemma all_initial_false_set_leg r host s :
  s <> LegInitial -> all_initial r = false ->
  all_initial (set_leg r host s) = false.
Proof. intros Hs _. apply all_initial_set_leg. exact Hs. Qed.



(** *** Completion *)

Lemma final_status_cases rid r :
  exists status succ fail,
    final_status rid r = status_of rid r status succ fail /\
    (status = HsUtil.STATUS_SUCCESS \/ status = HsUtil.STATUS_FAIL \/
     status = HsUtil.STATUS_PARTIAL).
Proof.
  unfold final_status.
  destruct (hosts_in LegDone (hub_legs r)), (hosts_in LegFailed (hub_legs r));
    eexists _, _, _; split; try reflexivity; auto.
Qed.



Lemma final_status_not status rid r :
  status = HsUtil.STATUS_QUEUED \/ status = HsUtil.STATUS_IN_PROGRESS ->
  String.eqb (sm_status (final_status rid r)) status = false.
Proof.
  destruct (final_status_cases rid r) as (s & a & b & -> & [-> | [-> | ->]]);
    intros [-> | ->]; reflexivity.
Qed.

Lemma completion_statuses rid r :
  statuses (completion rid r) = [final_status rid r].
Proof.
  unfold completion. destruct (hosts_in LegDone (hub_legs r)); reflexivity.
Qed.

Lemma settle_state rid r st outs :
  fst (settle rid r st outs)
  = if all_terminal r
    then mk_state (delete rid (records st)) ({[rid]} ∪ finished st)
    else mk_state (<[rid := r]> (records st)) (finished st).
Proof. unfold settle. destruct (all_terminal r); reflexivity. Qed.

Lemma settle_statuses rid r st outs :
  statuses (snd (settle rid r st outs))
  = statuses outs ++ if all_terminal r then [final_status rid r] else [].
Proof.
  unfold settle. destruct (all_terminal r); simpl.
  - rewrite statuses_app, completion_statuses. reflexivity.
  - rewrite app_nil_r. reflexivity.
Qed.

Lemma apply_report_state m now r st pre :
  fst (apply_report ex m now r st pre)
  = let r1 := fst (transition ex m now r) in
    if all_terminal r1
    then mk_state (delete (r_request_id m) (records st))
                  ({[r_request_id m]} ∪ finished st)
    else mk_state (<[r_request_id m := r1]> (records st)) (finished st).
Proof.
  unfold apply_report. destruct (transition ex m now r) as [r1 outs].
  apply settle_state.
Qed.

Lemma apply_report_statuses m now r st pre :
  statuses pre = [] ->
  statuses (snd (apply_report ex m now r st pre))
  = (if announces m && all_initial r
     then [status_of (r_request_id m) r HsUtil.STATUS_IN_PROGRESS None None]
     else []) ++
    (let r1 := fst (transition ex m now r) in
     if all_terminal r1 then [final_status (r_request_id m) r1] else []).
Proof.
  intros Hpre. unfold apply_report.
  pose proof (transition_statuses m now r) as Ht.
  destruct (transition ex m now r) as [r1 outs]. simpl in Ht |- *.
  rewrite settle_statuses, statuses_app, Hpre, Ht. reflexivity.
Qed.

Lemma apply_report_logs m now r st pre l :
  In l (logs pre) -> In l (logs (snd (apply_report ex m now r st pre))).
Proof.
  intros Hin. unfold apply_report.
  destruct (transition ex m now r) as [r1 outs]. unfold settle.
  destruct (all_terminal r1); simpl; rewrite !logs_app, ?in_app_iff; auto.
Qed.

(** *** Filters on single statuses *)



(** *** The expiry scan *)

Lemma expire_statuses_list (l : list (string * RequestRecord)) :
  statuses (flat_map expire_outputs l)
  = map (fun kv => final_status (fst kv) (force_failed (snd kv))) l.
Proof.
  induction l as [|kv l IH]; [reflexivity|].
  cbn [flat_map]. rewrite statuses_app, IH. unfold expire_outputs.
  change (statuses (warn _ _ :: ?c)) with (statuses c).
  rewrite completion_statuses. reflexivity.
Qed.

Lemma expire_statuses now st :
  statuses (snd (expire now st))
  = map (fun kv => final_status (fst kv) (force_failed (snd kv)))
        (map_to_list (old_records now st)).
Proof. apply expire_statuses_list. Qed.

Lemma expire_records_lookup now st rid :
  records (fst (expire now st)) !! rid
  = match records st !! rid with
    | Some r => if expired now r then None else Some r
    | None => None
    end.
Proof.
  cbn [expire fst records].
  destruct (records st !! rid) as [r|] eqn:Hr.
  - destruct (expired now r) eqn:He.
    + apply map_lookup_filter_None. right. intros x Hx. simpl.
      rewrite Hr in Hx. inversion Hx; subst. congruence.
    + apply map_lookup_filter_Some. split; [exact Hr | exact He].
  - apply map_lookup_filter_None. left. exact Hr.
Qed.

Lemma expire_finished now st rid :
  rid ∈ finished (fst (expire now st)) <->
  rid ∈ finished st \/
  exists r, records st !! rid = Some r /\ expired now r = true.
Proof.
  cbn [expire fst finished]. rewrite elem_of_union, elem_of_dom.
  split.
  - intros [[r Hr]|Hf]; [|left; exact Hf].
    apply map_lookup_filter_Some in Hr as [Hr He]. right. eauto.
  - intros [Hf|(r & Hr & He)]; [right; exact Hf|].
    left. exists r. apply map_lookup_filter_Some. split; assumption.
Qed.



Lemma expire_no_status rid status now st :
  status = HsUtil.STATUS_QUEUED \/ status = HsUtil.STATUS_IN_PROGRESS ->
  statuses_for rid status (snd (expire now st)) = [].
Proof.
  intros Hs. unfold statuses_for. rewrite expire_statuses.
  induction (map_to_list (old_records now st)) as [|kv l IH]; [reflexivity|].
  cbn [map List.filter].
  rewrite (final_status_not _ _ _ Hs), andb_false_r. exact IH.
Qed.

(** *** What a request has gone through *)

Lemma settled_lookup rid rid' r1 st (b : bool) :
  let st' := if b
             then mk_state (delete rid' (records st)) ({[rid']} ∪ finished st)
             else mk_state (<[rid' := r1]> (records st)) (finished st) in
  (rid ∈ finished st -> rid ∈ finished st') /\
  (rid <> rid' ->
   records st' !! rid = records st !! rid /\
   (rid ∈ finished st' <-> rid ∈ finished st)) /\
  (rid = rid' ->
   if b then rid ∈ finished st' /\ records st' !! rid = None
   else records st' !! rid = Some r1 /\
        (rid ∈ finished st' <-> rid ∈ finished st)).
Proof.
  destruct b; cbn zeta; cbn [records finished].
  - split; [intros H; apply elem_of_union; right; exact H|]. split.
    + intros Hne. rewrite lookup_delete_ne by congruence.
      split; [reflexivity|]. rewrite elem_of_union, elem_of_singleton. tauto.
    + intros ->. rewrite lookup_delete_eq.
      split; [|reflexivity]. apply elem_of_union. left.
      apply elem_of_singleton. reflexivity.
  - split; [tauto|]. split.
    + intros Hne. rewrite lookup_insert_ne by congruence. tauto.
    + intros ->. rewrite lookup_insert_eq. tauto.
Qed.

Lemma process_known rid now raw st :
  known rid st ->
  known rid (fst (process cv ex now raw st)) /\
  statuses_for rid HsUtil.STATUS_QUEUED (snd (process cv ex now raw st)) = [].
Proof.
  intros Hk.
  destruct (process_cases now raw st)
    as [(outs & -> & Hno)|[(m & Hadm & Hr & Ht & Hp)
                          |(m & r & pre & Hadm & Hpre & ->)]].
  - split; [exact Hk | apply no_status_for, Hno].
  - cbn zeta in Hp. rewrite Hp. clear Hp.
    destruct Hadm as (_ & _ & Hf).
    assert (r_request_id m <> rid) as Hne.
    { intros <-. destruct Hk as [Hk|[x Hx]]; [contradiction | congruence]. }
    split.
    + destruct Hk as [Hk|Hk]; [left; exact Hk|]. right. cbn [fst records].
      rewrite lookup_insert_ne by exact Hne. exact Hk.
    + unfold statuses_for. simpl.
      apply String.eqb_neq in Hne. rewrite Hne. reflexivity.
  - split.
    + rewrite apply_report_state. cbn zeta.
      set (r1 := fst (transition ex m now r)).
      destruct (settled_lookup rid (r_request_id m) r1 st (all_terminal r1))
        as (Hfin & Hother & Hsame).
      destruct (decide (rid = r_request_id m)) as [Heq|Hne].
      * specialize (Hsame Heq). destruct (all_terminal r1).
        -- left. tauto.
        -- right. destruct Hsame as [-> _]. eauto.
      * destruct (Hother Hne) as [Hrec Hf]. destruct Hk as [Hk|Hk].
        -- left. apply Hfin, Hk.
        -- right. rewrite Hrec. exact Hk.
    + unfold statuses_for.
      rewrite apply_report_statuses by (eapply pre_record_statuses, Hpre).
      rewrite List.filter_app.
      destruct (announces m && all_initial r);
        cbn zeta; destruct (all_terminal _);
        cbn [List.filter status_of sm_request_id sm_status app];
        rewrite ?andb_false_r;
        try (rewrite (final_status_not HsUtil.STATUS_QUEUED) by (left; reflexivity));
        rewrite ?andb_false_r; reflexivity.
Qed.

Lemma expire_known rid now st :
  known rid st ->
  known rid (fst (expire now st)) /\
  statuses_for rid HsUtil.STATUS_QUEUED (snd (expire now st)) = [].
Proof.
  intros Hk. split; [|apply expire_no_status; left; reflexivity].
  unfold known. rewrite expire_finished, expire_records_lookup.
  destruct Hk as [Hk|[r Hr]]; [left; left; exact Hk|].
  rewrite Hr. destruct (expired now r) eqn:He; [left; right|right]; eauto.
Qed.

Lemma step_known rid ev st :
  known rid st ->
  known rid (fst (step cv ex ev st)) /\
  statuses_for rid HsUtil.STATUS_QUEUED (snd (step cv ex ev st)) = [].
Proof.
  destruct ev; [apply process_known | apply expire_known].
Qed.

(** A request the monitor has heard of is never announced as QUEUED. *)
Lemma run_known_no_queued rid evs st :
  known rid st ->
  statuses_for rid HsUtil.STATUS_QUEUED (snd (run cv ex evs st)) = [].
Proof.
  revert st. induction evs as [|ev evs IH]; intros st Hk; [reflexivity|].
  cbn [run]. destruct (step_known rid ev st Hk) as [Hk1 Hq1].
  destruct (step cv ex ev st) as [st1 out1]. cbn [fst snd] in *.
  specialize (IH st1 Hk1). destruct (run cv ex evs st1) as [st2 out2].
  cbn [snd] in *. rewrite statuses_for_app, Hq1, IH. reflexivity.
Qed.

(** *** IN PROGRESS is announced at most once *)








(** *** One final status per request *)





(** *** Hub numbers *)

Lemma hosts_in_all s (legs : gmap string leg_state) :
  map_Forall (fun _ x => x = s) legs ->
  hosts_in s legs = (map_to_list legs).*1 /\
  forall s', s' <> s -> hosts_in s' legs = [].
Proof.
  intros Hall. unfold hosts_in.
  assert (Forall (fun kv => snd kv = s) (map_to_list legs)) as Hl.
  { apply Forall_forall. intros [k x] Hin.
    apply elem_of_map_to_list in Hin. exact (Hall k x Hin). }
  induction Hl as [|[k x] l Hx Hl IH]; [split; reflexivity|].
  simpl in Hx. subst x. destruct IH as [IH1 IH2]. split.
  - cbn [List.filter snd]. rewrite bool_decide_eq_true_2 by reflexivity.
    cbn [map fst fmap list_fmap]. f_equal. exact IH1.
  - intros s' Hs'. cbn [List.filter snd].
    rewrite bool_decide_eq_false_2 by congruence. apply IH2, Hs'.
Qed.

(** With every leg DONE the final status is SUCCESS, with the numbers of
    all hubs in the success field and no failed field. *)
Lemma final_status_all_done rid r :
  hub_legs r <> ∅ ->
  map_Forall (fun _ s => s = LegDone) (hub_legs r) ->
  final_status rid r
  = status_of rid r HsUtil.STATUS_SUCCESS
      (Some (join_numbers (map hub_number ((map_to_list (hub_legs r)).*1))))
      None.
Proof.
  intros Hne Hall. destruct (hosts_in_all _ _ Hall) as [Hd Ho].
  unfold final_status, hub_field.
  rewrite (Ho LegFailed) by discriminate. rewrite Hd.
  destruct (map_to_list (hub_legs r)) as [|kv l] eqn:E; [|reflexivity].
  apply map_to_list_empty_iff in E. contradiction.
Qed.

Lemma all_terminal_true r :
  all_terminal r = true <->
  hub_legs r <> ∅ /\ map_Forall (fun _ s => is_terminal s = true) (hub_legs r).
Proof.
  unfold all_terminal.
  rewrite andb_true_iff, negb_true_iff, bool_decide_eq_false,
    bool_decide_eq_true.
  reflexivity.
Qed.

(** A leg that is not terminal keeps the request open. *)
Lemma all_terminal_open r host s :
  hub_legs r !! host = Some s -> is_terminal s = false ->
  all_terminal r = false.
Proof.
  intros Hl Hs. destruct (all_terminal r) eqn:E; [|reflexivity].
  apply all_terminal_true in E as [_ E]. specialize (E host s Hl).
  simpl in E. congruence.
Qed.

Lemma all_done_terminal r :
  hub_legs r <> ∅ ->
  map_Forall (fun _ s => s = LegDone) (hub_legs r) -> all_terminal r = true.
Proof.
  intros Hne H. apply all_terminal_true. split; [exact Hne|].
  intros k s Hk. rewrite (H k s Hk). reflexivity.
Qed.



(** *** A request with a single hub *)

Lemma single_hub_final rid r host :
  hub_legs r = {[host := LegDone]} ->
  final_status rid r
  = status_of rid r HsUtil.STATUS_SUCCESS
      (Some (Str.of_N (hub_number host))) None.
Proof.
  intros Hl. rewrite final_status_all_done.
  - rewrite Hl, map_to_list_singleton. reflexivity.
  - rewrite Hl. apply insert_non_empty.
  - rewrite Hl. intros k s Hk. apply lookup_singleton_Some in Hk as [_ <-].
    reflexivity.
Qed.

(** What completion sends when every leg is DONE: the final status, then
    the hosts handed to packaging. *)
Lemma completion_all_done rid r :
  hub_legs r <> ∅ ->
  map_Forall (fun _ s => s = LegDone) (hub_legs r) ->
  completion rid r
  = [Status (final_status rid r);
     Package rid ((map_to_list (hub_legs r)).*1)] /\
  hosts_in LegDone (hub_legs r) = (map_to_list (hub_legs r)).*1.
Proof.
  intros Hne Hall. destruct (hosts_in_all _ _ Hall) as [Hd _].
  split; [|exact Hd]. unfold completion. rewrite Hd.
  destruct (map_to_list (hub_legs r)) as [|kv l] eqn:E; [|reflexivity].
  apply map_to_list_empty_iff in E. contradiction.
Qed.

Lemma transition_done m now r :
  r_msgtype m = DONE -> is_terminal (leg_of r (r_host m)) = false ->
  transition ex m now r
  = (set_leg r (r_host m) LegDone,
     match leg_of r (r_host m) with
     | LegInitial =>
         [warn "Saw %s message for request %s host %s without a START message"
               [msgtype_name DONE; r_request_id m; r_host m]]
     | _ => []
     end).
Proof.
  intros Ht Hl. unfold transition. rewrite Ht.
  destruct (leg_of r (r_host m)); try discriminate; reflexivity.
Qed.

Lemma transition_started m now r :
  r_msgtype m = STARTED -> leg_of r (r_host m) = LegInitial ->
  fst (transition ex m now r) = set_leg r (r_host m) LegInProgress.
Proof. intros Ht Hl. unfold transition. rewrite Ht, Hl. reflexivity. Qed.

(** The outputs of an applied report that ends the request. *)
Lemma apply_report_ends m now r st pre :
  all_terminal (fst (transition ex m now r)) = true ->
  apply_report ex m now r st pre
  = (mk_state (delete (r_request_id m) (records st))
              ({[r_request_id m]} ∪ finished st),
     (pre ++ snd (transition ex m now r)) ++
     completion (r_request_id m) (fst (transition ex m now r))).
Proof.
  unfold apply_report. destruct (transition ex m now r) as [r1 outs].
  cbn [fst snd]. intros Hat. unfold settle. rewrite Hat. reflexivity.
Qed.

(** A DONE that leaves the request with the one leg of its host, DONE,
    ends it: the final status is SUCCESS with the number of that host, and
    what the host delivered is handed to packaging. *)
Lemma single_hub_done now raw m st r pre :
  admitted cv raw m st -> pre_record ex now m st = Some (r, pre) ->
  r_msgtype m = DONE -> is_terminal (leg_of r (r_host m)) = false ->
  <[r_host m := LegDone]> (hub_legs r) = {[r_host m := LegDone]} ->
  process cv ex now raw st
  = (mk_state (delete (r_request_id m) (records st))
              ({[r_request_id m]} ∪ finished st),
     (pre ++ snd (transition ex m now r)) ++
     [Status (status_of (r_request_id m) (set_leg r (r_host m) LegDone)
                HsUtil.STATUS_SUCCESS
                (Some (Str.of_N (hub_number (r_host m)))) None);
      Package (r_request_id m) [r_host m]]).
Proof.
  intros Hadm Hpre Ht Hl Hlegs.
  rewrite (process_admitted now raw m st r pre Hadm Hpre).
  pose proof (transition_done m now r Ht Hl) as Htr.
  assert (hub_legs (fst (transition ex m now r)) = {[r_host m := LegDone]})
    as Hr1 by (rewrite Htr; exact Hlegs).
  assert (hub_legs (fst (transition ex m now r)) <> ∅) as Hne
    by (rewrite Hr1; apply insert_non_empty).
  assert (map_Forall (fun _ s => s = LegDone)
            (hub_legs (fst (transition ex m now r)))) as Hall.
  { rewrite Hr1. intros k s Hk. apply lookup_singleton_Some in Hk as [_ <-].
    reflexivity. }
  rewrite apply_report_ends by (apply all_done_terminal; assumption).
  destruct (completion_all_done (r_request_id m) _ Hne Hall) as [-> _].
  rewrite (single_hub_final _ _ _ Hr1), Hr1, map_to_list_singleton.
  rewrite Htr. reflexivity.
Qed.

Lemma done_settled rid (st : state) :
  done rid (mk_state (delete rid (records st)) ({[rid]} ∪ finished st)).
Proof.
  split; cbn [finished records].
  - apply elem_of_union. left. apply elem_of_singleton. reflexivity.
  - apply lookup_delete_eq.
Qed.

Lemma logged_pre needle m now r st pre :
  logged needle pre -> logged needle (snd (apply_report ex m now r st pre)).
Proof.
  intros (l & Hin & Ho). exists l. split; [|exact Ho].
  apply apply_report_logs, Hin.
Qed.

Lemma logged_head needle l (rest : list output) :
  occurs needle (log_fmt l) = true -> logged needle (Log l :: rest).
Proof. intros H. exists l. split; [left; reflexivity | exact H]. Qed.

Lemma logged_tail needle o (rest : list output) :
  logged needle rest -> logged needle (o :: rest).
Proof.
  intros (l & Hin & H). exists l. split; [|exact H].
  destruct o; simpl; auto.
Qed.

(** *** Hubs the record knows, in any order *)












(** *** The claims about the monitor *)

(** C1: a STARTED or DONE for a request the monitor has not heard of logs
    "no active request" and "was not initialized" and is applied to a
    synthetic record; QUEUED is never announced for that request; after a
    STARTED the record holds the leg of the sender, and a DONE of the same
    host then completes the request; the DONE (that one or the first
    message itself) completes it in the normal way: the final status,
    SUCCESS with the number of the host and no failed hub, and then the
    packaging of what the host delivered.  The number is "1" for
    ichub01. *)
Theorem synthetic_request now raw m st :
  admitted cv raw m st ->
  records st !! r_request_id m = None ->
  r_msgtype m = STARTED \/ r_msgtype m = DONE ->
  let rid := r_request_id m in
  let st1 := fst (process cv ex now raw st) in
  let out := snd (process cv ex now raw st) in
  let completed :=
    [Status (status_of rid (record_of ex m now ∅) HsUtil.STATUS_SUCCESS
               (Some (Str.of_N (hub_number (r_host m)))) None);
     Package rid [r_host m]] in
  logged "no active request" out /\
  logged "was not initialized" out /\
  (forall evs,
     statuses_for rid HsUtil.STATUS_QUEUED
       (snd (run cv ex (Report now raw :: evs) st)) = []) /\
  (r_msgtype m = STARTED ->
   records st1 !! rid
   = Some (set_leg (record_of ex m now ∅) (r_host m) LegInProgress) /\
   forall now2 raw2 m2,
     admitted cv raw2 m2 st1 -> r_request_id m2 = rid ->
     r_host m2 = r_host m -> r_msgtype m2 = DONE ->
     snd (process cv ex now2 raw2 st1) = completed /\
     done rid (fst (process cv ex now2 raw2 st1))) /\
  (r_msgtype m = DONE ->
   out
   = [warn ("Received unexpected %s message from %s for" +:+
            " Req#%s (no active request)") (msg_args m);
      warn "Request %s was not initialized (received %s from %s)"
           [rid; msgtype_name DONE; r_host m];
      warn "Saw %s message for request %s host %s without a START message"
           [msgtype_name DONE; rid; r_host m]] ++ completed /\
   done rid st1) /\
  Str.of_N (hub_number "ichub01") = "1".
Proof.
  intros Hadm Hrec Hty. cbn zeta.
  assert (exists pre,
            pre_record ex now m st = Some (record_of ex m now ∅, pre) /\
            logged "no active request" pre /\
            logged "was not initialized" pre) as (pre & Hpre & Hl1 & Hl2).
  { unfold pre_record. rewrite Hrec.
    destruct Hty as [-> | ->]; eexists; (split; [reflexivity|]); split;
      first [ apply logged_head; reflexivity
            | apply logged_tail, logged_head; reflexivity ]. }
  pose proof (process_admitted now raw m st _ pre Hadm Hpre) as Hproc.
  assert (leg_of (record_of ex m now ∅) (r_host m) = LegInitial) as Hleg
    by (unfold leg_of; cbn [hub_legs record_of]; rewrite lookup_empty;
        reflexivity).
  split; [rewrite Hproc; apply logged_pre, Hl1|].
  split; [rewrite Hproc; apply logged_pre, Hl2|].
  assert (known (r_request_id m) (fst (process cv ex now raw st))) as Hknown.
  { rewrite Hproc, apply_report_state. cbn zeta.
    destruct (all_terminal _); [left|right]; cbn [finished records].
    - apply elem_of_union. left. apply elem_of_singleton. reflexivity.
    - rewrite lookup_insert_eq. eauto. }
  split.
  { intros evs. cbn [run step].
    destruct (process cv ex now raw st) as [st1 out1] eqn:Ep.
    cbn [fst] in Hknown.
    pose proof (run_known_no_queued _ evs st1 Hknown) as Hq.
    destruct (run cv ex evs st1) as [st2 out2]. cbn [snd] in *.
    rewrite statuses_for_app, Hq, app_nil_r.
    assert (out1 = snd (apply_report ex m now (record_of ex m now ∅) st pre))
      as -> by (rewrite <- Hproc; reflexivity).
    unfold statuses_for.
    rewrite apply_report_statuses by (eapply pre_record_statuses, Hpre).
    rewrite List.filter_app.
    destruct (announces m && all_initial _); cbn zeta;
      destruct (all_terminal _);
      cbn [List.filter status_of sm_request_id sm_status app];
      rewrite ?andb_false_r;
      try (rewrite (final_status_not HsUtil.STATUS_QUEUED)
             by (left; reflexivity));
      rewrite ?andb_false_r; reflexivity. }
  split; [|split; [|reflexivity]].
  - intros Ht.
    assert (records (fst (process cv ex now raw st)) !! r_request_id m
            = Some (set_leg (record_of ex m now ∅) (r_host m) LegInProgress))
      as Hst1.
    { rewrite Hproc, apply_report_state. cbn zeta.
      rewrite (transition_started m now _ Ht Hleg).
      rewrite (all_terminal_open _ (r_host m) LegInProgress);
        [cbn [records]; apply lookup_insert_eq | | reflexivity].
      unfold set_leg. cbn [hub_legs]. apply lookup_insert_eq. }
    split; [exact Hst1|].
    intros now2 raw2 m2 Hadm2 Hrid2 Hhost2 Ht2.
    assert (pre_record ex now2 m2 (fst (process cv ex now raw st))
            = Some (set_leg (record_of ex m now ∅) (r_host m) LegInProgress,
                    [])) as Hpre2
      by (unfold pre_record; rewrite Hrid2, Hst1; reflexivity).
    assert (leg_of (set_leg (record_of ex m now ∅) (r_host m) LegInProgress)
              (r_host m2) = LegInProgress) as Hleg2.
    { rewrite Hhost2. unfold leg_of, set_leg. cbn [hub_legs].
      rewrite lookup_insert_eq. reflexivity. }
    rewrite (single_hub_done now2 raw2 m2 _ _ [] Hadm2 Hpre2 Ht2).
    + rewrite (transition_done m2 now2 _ Ht2) by (rewrite Hleg2; reflexivity).
      rewrite Hleg2, Hrid2, Hhost2. cbn [fst snd app].
      split; [reflexivity | apply done_settled].
    + rewrite Hleg2. reflexivity.
    + rewrite Hhost2. unfold set_leg, record_of. cbn [hub_legs].
      rewrite insert_insert_eq, insert_empty. reflexivity.
  - intros Ht.
    assert (pre
            = [warn ("Received unexpected %s message from %s for" +:+
                     " Req#%s (no active request)") (msg_args m);
               warn "Request %s was not initialized (received %s from %s)"
                    [r_request_id m; msgtype_name DONE; r_host m]]) as ->.
    { unfold pre_record in Hpre. rewrite Hrec, Ht in Hpre.
      inversion Hpre. reflexivity. }
    rewrite (single_hub_done now raw m st _ _ Hadm Hpre Ht).
    + rewrite (transition_done m now _ Ht) by (rewrite Hleg; reflexivity).
      rewrite Hleg. cbn [fst snd app].
      split; [reflexivity | apply done_settled].
    + rewrite Hleg. reflexivity.
    + cbn [hub_legs record_of]. apply insert_empty.
Qed.




(** *** Messages that are not taken *)



(** *** dict_to_object and the schema check *)





End MonitorFacts.

(** ** The scenarios of HsSenderTest.py and IntegrationTest.py *)

(** test_main_loop_no_init_just_success: the three log records, SUCCESS
    as the only status, and the directory of ichub01 handed to
    packaging. *)
Example no_init_just_success :
  let out := snd (test_run [Report 0 (test_msg "DONE" "MnLoopNIJS" "ichub01")]) in
  map log_fmt (logs out)
  = ["Received unexpected %s message from %s for Req#%s (no active request)";
     "Request %s was not initialized (received %s from %s)";
     "Saw %s message for request %s host %s without a START message"] /\
  shown out = [("MnLoopNIJS", "SUCCESS", Some "1", None)] /\
  In (Package "MnLoopNIJS" ["ichub01"]) out.
Proof. vm_compute. repeat split. auto 6. Qed.

(** test_main_loop_multi_request *)
Example multi_request :
  let out := snd (test_run
    [Report 0 (test_msg "INITIAL" "MnLoopMReq" "ichub01");
     Report 1 (test_msg "STARTED" "MnLoopMReq" "ichub01");
     Report 2 (test_msg "STARTED" "MnLoopMReq" "ichub86");
     Report 3 (test_msg "DONE" "MnLoopMReq" "ichub01");
     Report 4 (test_msg "DONE" "MnLoopMReq" "ichub86")]) in
  shown out
  = [("MnLoopMReq", "QUEUED", None, None);
     ("MnLoopMReq", "IN PROGRESS", None, None);
     ("MnLoopMReq", "SUCCESS", Some "1,86", None)] /\
  logs out = [] /\
  exists hosts,
    hosts ≡ₚ ["ichub01"; "ichub86"] /\ In (Package "MnLoopMReq" hosts) out.
Proof.
  vm_compute. split; [reflexivity|]. split; [reflexivity|].
  eexists. split; [|right; right; right; right; left; reflexivity].
  first [reflexivity | apply perm_swap].
Qed.

(** The messages of [__init_sender] in IntegrationTest.py, whose INITIAL
    comes from the publisher: QUEUED, IN PROGRESS once, and SUCCESS with
    the numbers of the two hubs. *)
Example integration_statuses :
  shown (snd (test_run
    [Report 0 integration_initial;
     Report 1 (integration_started "ichub66");
     Report 2 (integration_started "ichub01");
     Report 3 (integration_done "ichub66");
     Report 4 (integration_done "ichub01")]))
  = [("FAKE_ID", "QUEUED", None, None);
     ("FAKE_ID", "IN PROGRESS", None, None);
     ("FAKE_ID", "SUCCESS", Some "1,66", None)].
Proof. vm_compute. reflexivity. Qed.

(** Scenario 1 of the specification: the request names its two hubs, and
    the outcome is the same when one hub is done before the other
    starts. *)
Example happy_path_two_hubs :
  shown (snd (test_run
    [Report 0 (announced_initial "r1" ["ichub01"; "ichub66"]);
     Report 1 (test_msg "STARTED" "r1" "ichub01");
     Report 2 (test_msg "DONE" "r1" "ichub01");
     Report 3 (test_msg "STARTED" "r1" "ichub66");
     Report 4 (test_msg "DONE" "r1" "ichub66")]))
  = [("r1", "QUEUED", None, None);
     ("r1", "IN PROGRESS", None, None);
     ("r1", "SUCCESS", Some "1,66", None)].
Proof. vm_compute. reflexivity. Qed.

(** Step 5 of section 4.3 counts the legs the record knows.  A hub that
    the INITIAL does not name and that is first heard of when the legs of
    the others are DONE comes late: its messages are logged and change
    nothing. *)
Example unannounced_hub_is_late :
  let out := snd (test_run
    [Report 0 integration_initial;
     Report 1 (integration_started "ichub01");
     Report 2 (integration_done "ichub01");
     Report 3 (integration_started "ichub66");
     Report 4 (integration_done "ichub66")]) in
  shown out
  = [("FAKE_ID", "QUEUED", None, None);
     ("FAKE_ID", "IN PROGRESS", None, None);
     ("FAKE_ID", "SUCCESS", Some "1", None)] /\
  map log_fmt (logs out)
  = ["Late %s message from %s for Req#%s (request is done)";
     "Late %s message from %s for Req#%s (request is done)"].
Proof. vm_compute. split; reflexivity. Qed.

(** Scenario 3: a STARTED for a request that was never announced, then
    the DONE of the same hub. *)
Example orphan_started :
  shown (snd (test_run
    [Report 0 (test_msg "STARTED" "orphan" "ichub01");
     Report 1 (test_msg "DONE" "orphan" "ichub01")]))
  = [("orphan", "IN PROGRESS", None, None);
     ("orphan", "SUCCESS", Some "1", None)].
Proof. vm_compute. reflexivity. Qed.

(** Scenarios 5 and 6 of the specification: expiry with one leg open, and
    a DONE for a request that is over. *)
Example expiry_partial :
  shown (snd (test_run
    [Report 0 (announced_initial "r5" ["ichub01"; "ichub66"]);
     Report 1 (test_msg "DONE" "r5" "ichub01");
     ExpiryTick 100;
     Report 101 (test_msg "DONE" "r5" "ichub66")]))
  = [("r5", "QUEUED", None, None);
     ("r5", "PARTIAL", Some "1", Some "66")].
Proof. vm_compute. reflexivity. Qed.

(** test_main_loop_no_msg, test_main_loop_str_msg,
    test_main_loop_no_request_id, test_main_loop_incomplete_msg,
    test_main_loop_unknown_msg and test_main_loop_bad_hubs: what reaches
    the log or the caller, and the state, which stays as it was. *)
Example rejected_messages :
  process test_version test_expire 0 PyNone initial_state
  = (initial_state, []) /\
  process test_version test_expire 0 (PyStr "abc") initial_state
  = (initial_state,
     [Raised (HsException "Received %s(%s), not dictionary" [PyStr "abc"])]) /\
  process test_version test_expire 0 no_request_id_msg initial_state
  = (initial_state,
     [Raised (HsException "No request ID found in %s" [no_request_id_msg])]) /\
  process test_version test_expire 0 incomplete_msg initial_state
  = (initial_state,
     [Raised (HsException "Dictionary is missing start_ticks"
                [incomplete_msg])]) /\
  process test_version test_expire 0 unknown_msg initial_state
  = (initial_state, [Log (mk_log ERROR "Received bad message %s" [])]) /\
  process test_version test_expire 0 bad_hubs_msg initial_state
  = (initial_state, [Log (mk_log ERROR "Received bad message %s" [])]).
Proof. repeat split; vm_compute; reflexivity. Qed.

Lemma decide_True (P : Prop) `{Decision P} : bool_decide P = true -> P.
Proof. apply bool_decide_eq_true. Qed.

Lemma synthetic_request_witness :
  (let raw := test_msg "DONE" "MnLoopNIJS" "ichub01" in
   let out := snd (process test_version test_expire 0 raw initial_state) in
   logged "no active request" out /\
   logged "was not initialized" out /\
   (forall evs,
      statuses_for "MnLoopNIJS" HsUtil.STATUS_QUEUED
        (snd (run test_version test_expire (Report 0 raw :: evs)
                initial_state))
      = []) /\
   (exists pre s,
      out = pre ++ [Status s; Package "MnLoopNIJS" ["ichub01"]] /\
      statuses pre = [] /\
      sm_request_id s = "MnLoopNIJS" /\
      sm_status s = HsUtil.STATUS_SUCCESS /\
      sm_success s = Some "1" /\ sm_failed s = None) /\
   done "MnLoopNIJS"
     (fst (process test_version test_expire 0 raw initial_state))) /\
  (let st1 := fst (process test_version test_expire 0
                     (test_msg "STARTED" "orphan" "ichub01") initial_state) in
   let out2 := snd (process test_version test_expire 1
                      (test_msg "DONE" "orphan" "ichub01") st1) in
   (exists s,
      out2 = [Status s; Package "orphan" ["ichub01"]] /\
      sm_request_id s = "orphan" /\
      sm_status s = HsUtil.STATUS_SUCCESS /\
      sm_success s = Some "1" /\ sm_failed s = None) /\
   done "orphan"
     (fst (process test_version test_expire 1
             (test_msg "DONE" "orphan" "ichub01") st1))).
Proof.
  cbn zeta. split.
  - destruct (synthetic_request test_version test_expire 0
                (test_msg "DONE" "MnLoopNIJS" "ichub01")
                (test_report DONE "MnLoopNIJS" "ichub01") initial_state)
      as (H1 & H2 & H3 & _ & H5 & _).
    + split; [vm_compute; reflexivity|].
      split; [reflexivity | apply not_elem_of_empty].
    + apply lookup_empty.
    + right. reflexivity.
    + split; [exact H1|]. split; [exact H2|]. split; [exact H3|].
      destruct (H5 eq_refl) as [Hout Hdone]. split; [|exact Hdone].
      eexists _, _. split; [exact Hout|]. repeat split.
  - destruct (synthetic_request test_version test_expire 0
                (test_msg "STARTED" "orphan" "ichub01")
                (test_report STARTED "orphan" "ichub01") initial_state)
      as (_ & _ & _ & H4 & _).
    + split; [vm_compute; reflexivity|].
      split; [reflexivity | apply not_elem_of_empty].
    + apply lookup_empty.
    + left. reflexivity.
    + destruct (H4 eq_refl) as [_ Hnext].
      destruct (Hnext 1 (test_msg "DONE" "orphan" "ichub01")
                  (test_report DONE "orphan" "ichub01"))
        as [Hout Hdone]; try reflexivity.
      * split; [vm_compute; reflexivity|]. split; [reflexivity|].
        apply (decide_True _). vm_compute. reflexivity.
      * split; [|exact Hdone]. eexists. split; [exact Hout|]. repeat split.
Defined.






(** ** Packaging: HsSender.spade_pickup_data *)

Lemma string_length_append (a b : string) :
  String.length (a +:+ b) = (String.length a + String.length b)%nat.
Proof.
  induction a as [|c a IH]; [reflexivity|].
  change (String c a +:+ b) with (String c (a +:+ b)).
  change (String.length (String c (a +:+ b)))
    with (S (String.length (a +:+ b))).
  rewrite IH. reflexivity.
Qed.

Lemma string_append_inj (a x y : string) : a +:+ x = a +:+ y -> x = y.
Proof. induction a as [|c a IH]; simpl; [tauto|]. intros [= H]. auto. Qed.

(** No name the call gives a file is the name of the delivered
    directory. *)
Lemma spade_name_fresh data_dir prefix suffix :
  (0 < String.length suffix)%nat ->
  spade_basename data_dir prefix +:+ suffix <> data_dir.
Proof.
  intros Hs Heq. apply (f_equal String.length) in Heq.
  rewrite string_length_append in Heq. unfold spade_basename in Heq.
  destruct (standard_prefix prefix);
    rewrite ?string_length_append in Heq; simpl in Heq; lia.
Qed.

(** A file of the delivered directory is not a file placed under another
    name in its parent or in the SPADE directory. *)
Lemma source_not_sibling (hs : path) data_dir name p :
  name <> data_dir -> (hs ++ [data_dir]) `prefix_of` p -> p <> hs ++ [name].
Proof.
  intros Hne [k ->] Heq. rewrite <- app_assoc in Heq.
  apply app_inv_head in Heq. simpl in Heq. congruence.
Qed.

Lemma source_not_in_spade (hs spade : path) data_dir name p :
  name <> data_dir -> ~ (hs ++ [data_dir]) `prefix_of` spade ->
  (hs ++ [data_dir]) `prefix_of` p -> p <> spade ++ [name].
Proof.
  intros Hne Hout [k ->] Heq.
  destruct k as [|x k _] using rev_ind.
  - rewrite app_nil_r in Heq. apply app_inj_tail in Heq as [_ Heq].
    congruence.
  - rewrite app_assoc in Heq. apply app_inj_tail in Heq as [Heq _].
    apply Hout. exists k. symmetry. exact Heq.
Qed.

(** *** The operations on a disk *)

Lemma disk_write_tarfile sourcedir sourcefile tarname s :
  let r := write_tarfile sourcedir sourcefile tarname s in
  switches (snd r) = snd (write_tarfile sourcedir sourcefile tarname (switches s)) /\
  match fst r with
  | Ok _ => files (snd r)
            = <[sourcedir ++ [tarname] :=
                  Tar (tar_members sourcedir sourcefile (files s))]> (files s)
  | Raise _ => files (snd r) = files s
  end.
Proof.
  cbn. unfold lift_switch. cbn. destruct (0 <? fail_tar_file (switches s));
    cbn; split; reflexivity.
Qed.

Lemma disk_move_file src dst s :
  let r := move_file src dst s in
  match fst r with
  | Ok _ => exists n, files s !! src = Some n /\
                      files (snd r) = <[dst ++ [basename src] := n]>
                                        (delete src (files s))
  | Raise _ => files (snd r) = files s
  end.
Proof.
  cbn. destruct (files s !! src) as [n|] eqn:E; [|reflexivity].
  unfold lift_switch. cbn. destruct (fail_move_file (switches s)); cbn;
    [reflexivity | eauto].
Qed.

Lemma disk_write_semaphore (meta : bool) spadedir base start stop s :
  let r := (if meta then write_meta_xml spadedir base start stop
            else write_sem spadedir base) s in
  match fst r with
  | Ok name =>
      name = base +:+ (if meta then META_SUFFIX else SEM_SUFFIX) /\
      exists x, files (snd r) = <[spadedir ++ [name] := File x]> (files s)
  | Raise _ => files (snd r) = files s
  end.
Proof.
  destruct meta; cbn; unfold lift_switch; cbn;
    destruct (fail_touch_file (switches s)); cbn; eauto.
Qed.

Lemma basename_snoc (p : path) name : basename (p ++ [name]) = name.
Proof. unfold basename. apply last_last. Qed.

(** *** Failures *)

Section SpadeFacts.

Context {W : Type} {ops : SenderOps W}.
Variable spade : path.
Variable meta : bool.

(** The first step that raises ends the call with None and the two log
    records. *)
Lemma spade_pickup_data_fails hs data_dir prefix start stop (w : W) :
  let base := spade_basename data_dir prefix in
  let tarname := base +:+ TAR_SUFFIX in
  let semaphore :=
    if meta then write_meta_xml spade base start stop
    else write_sem spade base in
  (forall e w1,
     write_tarfile hs data_dir tarname w = (Raise e, w1) ->
     spade_pickup_data spade meta hs data_dir prefix start stop w
     = (None, failure_log e, w1)) /\
  (forall u e w1 w2,
     write_tarfile hs data_dir tarname w = (Ok u, w1) ->
     move_file (hs ++ [tarname]) spade w1 = (Raise e, w2) ->
     spade_pickup_data spade meta hs data_dir prefix start stop w
     = (None, failure_log e, w2)) /\
  (forall u u' e w1 w2 w3,
     write_tarfile hs data_dir tarname w = (Ok u, w1) ->
     move_file (hs ++ [tarname]) spade w1 = (Ok u', w2) ->
     semaphore w2 = (Raise e, w3) ->
     spade_pickup_data spade meta hs data_dir prefix start stop w
     = (None, failure_log e, w3)) /\
  (forall names log w',
     spade_pickup_data spade meta hs data_dir prefix start stop w
     = (Some names, log, w') ->
     exists u u' w1 w2,
       write_tarfile hs data_dir tarname w = (Ok u, w1) /\
       move_file (hs ++ [tarname]) spade w1 = (Ok u', w2) /\
       semaphore w2 = (Ok (snd names), w') /\
       fst names = tarname /\ log = []).
Proof.
  cbn zeta. unfold spade_pickup_data.
  split; [intros e w1 ->; reflexivity|].
  split; [intros u e w1 w2 -> ->; reflexivity|].
  split; [intros u u' e w1 w2 w3 -> -> ->; reflexivity|].
  intros names log w'.
  destruct (write_tarfile _ _ _ w) as [[u|e] w1] eqn:E1; [|discriminate].
  destruct (move_file _ _ w1) as [[u'|e] w2] eqn:E2; [|discriminate].
  destruct ((if meta then _ else _) w2) as [[semname|e] w3] eqn:Es;
    [|discriminate].
  intros [= <- <- <-]. exists u, u', w1, w2.
  split; [reflexivity|]. split; [exact E2|]. split; [exact Es|].
  split; reflexivity.
Qed.

End SpadeFacts.

(** On a disk, whatever happens, the files of the delivered directory stay
    as they are. *)
Lemma spade_pickup_data_keeps_source spade meta hs data_dir prefix start stop
    (s : DiskSender) p n :
  ~ (hs ++ [data_dir]) `prefix_of` spade ->
  (hs ++ [data_dir]) `prefix_of` p ->
  files s !! p = Some n ->
  files (snd (spade_pickup_data spade meta hs data_dir prefix start stop s)) !! p
  = Some n.
Proof.
  intros Hout Hp Hn. unfold spade_pickup_data.
  set (tarname := spade_basename data_dir prefix +:+ TAR_SUFFIX).
  assert (tarname <> data_dir) as Htar
    by (apply spade_name_fresh; simpl; lia).
  pose proof (disk_write_tarfile hs data_dir tarname s) as [_ H1].
  cbn zeta in H1.
  destruct (write_tarfile hs data_dir tarname s) as [[u|e] s1];
    cbn [fst snd] in H1.
  2: { cbn [snd]. rewrite H1. exact Hn. }
  assert (files s1 !! p = Some n) as Hn1.
  { rewrite H1, lookup_insert_ne; [exact Hn|].
    intros Heq. symmetry in Heq. revert Heq.
    apply (source_not_sibling hs data_dir); assumption. }
  pose proof (disk_move_file (hs ++ [tarname]) spade s1) as H2.
  cbn zeta in H2.
  destruct (move_file (hs ++ [tarname]) spade s1) as [[u'|e] s2];
    cbn [fst snd] in H2.
  2: { cbn [snd]. rewrite H2. exact Hn1. }
  destruct H2 as (t & _ & H2). rewrite basename_snoc in H2.
  assert (files s2 !! p = Some n) as Hn2.
  { rewrite H2, lookup_insert_ne, lookup_delete_ne; [exact Hn1| |].
    - intros Heq. symmetry in Heq. revert Heq.
      apply (source_not_sibling hs data_dir); assumption.
    - intros Heq. symmetry in Heq. revert Heq.
      apply (source_not_in_spade hs spade data_dir); assumption. }
  pose proof (disk_write_semaphore meta spade
                (spade_basename data_dir prefix) start stop s2) as H3.
  cbn zeta in H3.
  destruct ((if meta then _ else _) s2) as [[semname|e] s3];
    cbn [fst snd] in H3.
  2: { cbn [snd]. rewrite H3. exact Hn2. }
  destruct H3 as (-> & x & H3). cbn [snd].
  rewrite H3, lookup_insert_ne; [exact Hn2|].
  intros Heq. symmetry in Heq. revert Heq.
  apply (source_not_in_spade hs spade data_dir); try assumption.
  apply spade_name_fresh. destruct meta; simpl; lia.
Qed.

Lemma insert_keeps_file (d : disk) (k p : path) (n : node) :
  is_Some (d !! p) -> is_Some (<[k := n]> d !! p).
Proof.
  intros H. destruct (decide (k = p)) as [->|Hne].
  - rewrite lookup_insert_eq. eauto.
  - rewrite lookup_insert_ne by exact Hne. exact H.
Qed.

(** On a disk, whatever happens and wherever the SPADE directory is, no
    file of the delivered directory goes away. *)
Lemma spade_pickup_data_deletes_nothing (spade : path) (meta : bool)
    (hs : path) (data_dir prefix : string) (start stop : option Z)
    (s : DiskSender) (p : path) :
  (hs ++ [data_dir]) `prefix_of` p ->
  is_Some (files s !! p) ->
  is_Some (files (snd (spade_pickup_data spade meta hs data_dir prefix
                         start stop s)) !! p).
Proof.
  intros Hp Hn. unfold spade_pickup_data.
  set (tarname := spade_basename data_dir prefix +:+ TAR_SUFFIX).
  assert (tarname <> data_dir) as Htar
    by (apply spade_name_fresh; simpl; lia).
  pose proof (disk_write_tarfile hs data_dir tarname s) as [_ H1].
  cbn zeta in H1.
  destruct (write_tarfile hs data_dir tarname s) as [[u|e] s1];
    cbn [fst snd] in H1.
  2: { cbn [snd]. rewrite H1. exact Hn. }
  assert (is_Some (files s1 !! p)) as Hn1
    by (rewrite H1; apply insert_keeps_file, Hn).
  pose proof (disk_move_file (hs ++ [tarname]) spade s1) as H2.
  cbn zeta in H2.
  destruct (move_file (hs ++ [tarname]) spade s1) as [[u'|e] s2];
    cbn [fst snd] in H2.
  2: { cbn [snd]. rewrite H2. exact Hn1. }
  destruct H2 as (t & _ & H2).
  assert (is_Some (files s2 !! p)) as Hn2.
  { rewrite H2. apply insert_keeps_file.
    rewrite lookup_delete_ne; [exact Hn1|].
    intros Heq. symmetry in Heq. revert Heq.
    apply (source_not_sibling hs data_dir); assumption. }
  pose proof (disk_write_semaphore meta spade
                (spade_basename data_dir prefix) start stop s2) as H3.
  cbn zeta in H3.
  destruct ((if meta then _ else _) s2) as [[semname|e] s3];
    cbn [fst snd] in H3.
  2: { cbn [snd]. rewrite H3. exact Hn2. }
  destruct H3 as (_ & x & H3). cbn [snd].
  rewrite H3. apply insert_keeps_file, Hn2.
Qed.

(** The call returns None exactly when a step raises, and then the log
    holds the error of that step and the instruction; a call that returns
    names logs nothing. *)
Lemma spade_pickup_data_None {W : Type} {ops : SenderOps W} spade meta hs
    data_dir prefix start stop (w : W) :
  (forall e w',
     fails_with spade meta hs data_dir prefix start stop w e w' ->
     spade_pickup_data spade meta hs data_dir prefix start stop w
     = (None, failure_records (exc_text e), w')) /\
  (fst (fst (spade_pickup_data spade meta hs data_dir prefix start stop w))
   = None ->
   exists e w', fails_with spade meta hs data_dir prefix start stop w e w') /\
  (forall names,
     fst (fst (spade_pickup_data spade meta hs data_dir prefix start stop w))
     = Some names ->
     snd (fst (spade_pickup_data spade meta hs data_dir prefix start stop w))
     = []).
Proof.
  destruct (spade_pickup_data_fails spade meta hs data_dir prefix start stop w)
    as (H1 & H2 & H3 & _).
  cbn zeta in H1, H2, H3. split; [|split].
  - intros e w' [Ht | [(u & w1 & Ht & Hm) | (u & u' & w1 & w2 & Ht & Hm & Hs)]].
    + exact (H1 e w' Ht).
    + exact (H2 u e w1 w' Ht Hm).
    + exact (H3 u u' e w1 w2 w' Ht Hm Hs).
  - unfold spade_pickup_data, fails_with. cbn zeta.
    destruct (write_tarfile _ _ _ w) as [[u|e] w1] eqn:E1; [|eauto].
    destruct (move_file _ _ w1) as [[u'|e] w2] eqn:E2; [|eauto 8].
    destruct ((if meta then _ else _) w2) as [[semname|e] w3] eqn:Es;
      [discriminate|].
    intros _. exists e, w3. right. right. exists u, u', w1, w2. auto.
  - unfold spade_pickup_data. intros names.
    destruct (write_tarfile _ _ _ w) as [[u|e] w1]; [|discriminate].
    destruct (move_file _ _ w1) as [[u'|e] w2]; [|discriminate].
    destruct ((if meta then _ else _) w2) as [[semname|e] w3];
      [reflexivity | discriminate].
Qed.

(** FailableSender: each switch makes the call return None and log the
    error of its operation. *)
Lemma failable_sender_fails spade meta hs data_dir prefix start stop
    (s : FailableSender) :
  (0 < fail_tar_file s ->
   spade_pickup_data spade meta hs data_dir prefix start stop s
   = (None, failure_records "Fake Tar Error",
      mk_failable (fail_move_file s) (fail_touch_file s)
        (fail_tar_file s - 1) (moved_files s))) /\
  (fail_tar_file s <= 0 -> fail_move_file s = true ->
   spade_pickup_data spade meta hs data_dir prefix start stop s
   = (None, failure_records "Fake Move Error", s)) /\
  (fail_tar_file s <= 0 -> fail_move_file s = false ->
   fail_touch_file s = true ->
   spade_pickup_data spade meta hs data_dir prefix start stop s
   = (None, failure_records "Fake Touch Error", s)).
Proof.
  unfold spade_pickup_data.
  cbn [write_tarfile move_file write_sem write_meta_xml FailableSender_ops].
  split; [|split].
  - intros Ht. assert ((0 <? fail_tar_file s) = true) as -> by lia.
    reflexivity.
  - intros Ht Hm. assert ((0 <? fail_tar_file s) = false) as -> by lia.
    rewrite Hm. reflexivity.
  - intros Ht Hm Hs. assert ((0 <? fail_tar_file s) = false) as -> by lia.
    rewrite Hm. destruct meta; rewrite Hs; reflexivity.
Qed.

(** On a disk a failed move leaves the archive beside the delivered
    directory, and a failed semaphore leaves it in the SPADE directory;
    the files that were there are still there. *)
Lemma disk_sender_fails spade meta hs data_dir prefix start stop
    (s : DiskSender) :
  let tarname := spade_basename data_dir prefix +:+ TAR_SUFFIX in
  let archive := Tar (tar_members hs data_dir (files s)) in
  let staged := <[hs ++ [tarname] := archive]> (files s) in
  (fail_tar_file (switches s) <= 0 -> fail_move_file (switches s) = true ->
   spade_pickup_data spade meta hs data_dir prefix start stop s
   = (None, failure_records "Fake Move Error",
      mk_disk_sender staged (switches s))) /\
  (fail_tar_file (switches s) <= 0 -> fail_move_file (switches s) = false ->
   fail_touch_file (switches s) = true ->
   spade_pickup_data spade meta hs data_dir prefix start stop s
   = (None, failure_records "Fake Touch Error",
      mk_disk_sender
        (<[spade ++ [tarname] := archive]> (delete (hs ++ [tarname]) staged))
        (switches s))).
Proof.
  cbn zeta. destruct s as [d sw]. cbn [switches files].
  unfold spade_pickup_data.
  cbn [write_tarfile DiskSender_ops FailableSender_ops lift_switch
       switches files fst snd].
  split.
  - intros Ht Hm. assert ((0 <? fail_tar_file sw) = false) as -> by lia.
    cbn [fst snd].
    cbn [move_file DiskSender_ops FailableSender_ops lift_switch
         switches files fst snd].
    rewrite lookup_insert_eq, Hm. reflexivity.
  - intros Ht Hm Hs. assert ((0 <? fail_tar_file sw) = false) as -> by lia.
    cbn [fst snd].
    cbn [move_file DiskSender_ops FailableSender_ops lift_switch
         switches files fst snd].
    rewrite lookup_insert_eq, Hm. unfold lift_switch. cbn [fst snd].
    rewrite basename_snoc.
    destruct meta;
      cbn [write_meta_xml write_sem DiskSender_ops FailableSender_ops
           switches files];
      rewrite Hs; reflexivity.
Qed.

(** C5: [spade_pickup_data] returns None exactly when writing the
    archive, moving it or creating the semaphore or metadata file fails;
    it then logs two records, the text of the error raised and the
    instruction "Please put the data manually in the SPADE directory. Use
    HsSpader.py, for example."; the text of an HsException is its message,
    so that the senders of HsSenderTest.py log "Fake Tar Error", "Fake
    Move Error" and "Fake Touch Error".  On a disk the archive written
    before a failed step stays where it is, the files of the delivered
    directory are all still there after the call, whatever its outcome,
    and with a SPADE directory outside the delivered one they are
    unchanged. *)
Theorem packaging_failure :
  (forall (W : Type) (ops : SenderOps W) (spade : path) (meta : bool)
          (hs : path) (data_dir prefix : string) (start stop : option Z)
          (w : W),
     let result :=
       spade_pickup_data spade meta hs data_dir prefix start stop w in
     (forall e w',
        fails_with spade meta hs data_dir prefix start stop w e w' ->
        result
        = (None,
           [RequestMonitor.mk_log RequestMonitor.ERROR (exc_text e) [];
            RequestMonitor.mk_log RequestMonitor.ERROR
              ("Please put the data manually in the SPADE directory." +:+
               " Use HsSpader.py, for example.") []],
           w')) /\
     (fst (fst result) = None ->
      exists e w',
        fails_with spade meta hs data_dir prefix start stop w e w') /\
     (forall names, fst (fst result) = Some names -> snd (fst result) = [])) /\
  (forall fmt, exc_text (HsException fmt []) = fmt) /\
  (forall spade meta hs data_dir prefix start stop (s : FailableSender),
     (0 < fail_tar_file s ->
      spade_pickup_data spade meta hs data_dir prefix start stop s
      = (None, failure_records "Fake Tar Error",
         mk_failable (fail_move_file s) (fail_touch_file s)
           (fail_tar_file s - 1) (moved_files s))) /\
     (fail_tar_file s <= 0 -> fail_move_file s = true ->
      spade_pickup_data spade meta hs data_dir prefix start stop s
      = (None, failure_records "Fake Move Error", s)) /\
     (fail_tar_file s <= 0 -> fail_move_file s = false ->
      fail_touch_file s = true ->
      spade_pickup_data spade meta hs data_dir prefix start stop s
      = (None, failure_records "Fake Touch Error", s))) /\
  (forall spade meta hs data_dir prefix start stop (s : DiskSender),
     let tarname := spade_basename data_dir prefix +:+ TAR_SUFFIX in
     let archive := Tar (tar_members hs data_dir (files s)) in
     let staged := <[hs ++ [tarname] := archive]> (files s) in
     (fail_tar_file (switches s) <= 0 -> fail_move_file (switches s) = true ->
      spade_pickup_data spade meta hs data_dir prefix start stop s
      = (None, failure_records "Fake Move Error",
         mk_disk_sender staged (switches s))) /\
     (fail_tar_file (switches s) <= 0 ->
      fail_move_file (switches s) = false ->
      fail_touch_file (switches s) = true ->
      spade_pickup_data spade meta hs data_dir prefix start stop s
      = (None, failure_records "Fake Touch Error",
         mk_disk_sender
           (<[spade ++ [tarname] := archive]>
              (delete (hs ++ [tarname]) staged))
           (switches s)))) /\
  (forall spade meta hs data_dir prefix start stop (s : DiskSender) p,
     (hs ++ [data_dir]) `prefix_of` p ->
     is_Some (files s !! p) ->
     is_Some (files (snd (spade_pickup_data spade meta hs data_dir prefix
                            start stop s)) !! p)) /\
  (forall spade meta hs data_dir prefix start stop (s : DiskSender) p n,
     ~ (hs ++ [data_dir]) `prefix_of` spade ->
     (hs ++ [data_dir]) `prefix_of` p ->
     files s !! p = Some n ->
     files (snd (spade_pickup_data spade meta hs data_dir prefix start stop s))
       !! p = Some n).
Proof.
  split; [|split; [reflexivity|split;
            [exact failable_sender_fails|split;
               [exact disk_sender_fails|split;
                  [exact spade_pickup_data_deletes_nothing
                  |exact spade_pickup_data_keeps_source]]]]].
  intros W ops spade meta hs data_dir prefix start stop w. cbn zeta.
  exact (spade_pickup_data_None spade meta hs data_dir prefix start stop w).
Qed.

(** test_spade_data_fail_tar, test_spade_data_fail_move and
    test_spade_data_fail_sem: None, and the two records each test
    expects; then a failed move on a disk: the archive is staged beside
    the delivered directory and the source is as it was. *)
Lemma packaging_failure_witness :
  let manual :=
    RequestMonitor.mk_log RequestMonitor.ERROR
      ("Please put the data manually in the SPADE directory." +:+
       " Use HsSpader.py, for example.") [] in
  let text t := RequestMonitor.mk_log RequestMonitor.ERROR t [] in
  spade_pickup_data ["spade"] false ["copy"; test_dir] "ignored" "SNALERT"
    None None (fail_create_tar_file FailableSender_init)
  = (None, [text "Fake Tar Error"; manual], FailableSender_init) /\
  spade_pickup_data ["spade"] false ["copy"; test_dir] "ignored" "SNALERT"
    None None (set_fail_move_file FailableSender_init)
  = (None, [text "Fake Move Error"; manual],
     set_fail_move_file FailableSender_init) /\
  spade_pickup_data ["spade"] false ["copy"; test_dir] "ignored" "SNALERT"
    None None (fail_create_sem_file FailableSender_init)
  = (None, [text "Fake Touch Error"; manual],
     fail_create_sem_file FailableSender_init) /\
  (let after :=
     spade_pickup_data ["spade"] false ["copy"] test_dir "SNALERT" None None
       (mk_disk_sender test_disk (set_fail_move_file FailableSender_init)) in
   fst after = (None, [text "Fake Move Error"; manual]) /\
   is_Some (files (snd after)
              !! ["copy"; "HS_SNALERT_12345678_987654_ichub07.tar"]) /\
   files (snd after) !! ["copy"; test_dir; "HitSpool-12"]
   = Some (File "h12")).
Proof.
  cbn zeta.
  destruct packaging_failure as (Hany & _ & Hfail & Hdisk & _ & Hkeep).
  split; [|split; [|split]].
  - destruct (Hany FailableSender _ ["spade"] false ["copy"; test_dir]
                "ignored" "SNALERT" None None
                (fail_create_tar_file FailableSender_init)) as (H & _).
    apply (H (HsException "Fake Tar Error" []) FailableSender_init).
    left. reflexivity.
  - destruct (Hfail ["spade"] false ["copy"; test_dir] "ignored" "SNALERT"
                None None (set_fail_move_file FailableSender_init))
      as (_ & H & _).
    apply H; [simpl; lia | reflexivity].
  - destruct (Hfail ["spade"] false ["copy"; test_dir] "ignored" "SNALERT"
                None None (fail_create_sem_file FailableSender_init))
      as (_ & _ & H).
    apply H; [simpl; lia | reflexivity | reflexivity].
  - destruct (Hdisk ["spade"] false ["copy"] test_dir "SNALERT" None None
                (mk_disk_sender test_disk
                   (set_fail_move_file FailableSender_init))) as (H & _).
    cbn zeta in H. rewrite H by (first [simpl; lia | reflexivity]).
    split; [reflexivity|]. split.
    + cbn [snd files]. eexists. apply lookup_insert_eq.
    + apply (Hkeep ["spade"] false ["copy"] test_dir "SNALERT" None None
               (mk_disk_sender test_disk
                  (set_fail_move_file FailableSender_init))).
      * intros [k Hk]. discriminate Hk.
      * exists ["HitSpool-12"]. reflexivity.
      * vm_compute. reflexivity.
Defined.

(** *** Success *)

Lemma tar_members_spec (hs : path) (data_dir : string) (d : disk)
    (name : path) (data : string) :
  (name, data) ∈ tar_members hs data_dir d <->
  exists rest, name = data_dir :: rest /\ d !! (hs ++ name) = Some (File data).
Proof.
  unfold tar_members. rewrite list_elem_of_omap. split.
  - intros ([p n] & Hin & Hf). apply elem_of_map_to_list in Hin.
    cbn [fst snd] in Hf. destruct n as [x|]; [|discriminate].
    destruct (bool_decide _) eqn:Hb; [|discriminate].
    apply bool_decide_eq_true in Hb as [k ->]. injection Hf as <- <-.
    exists k. rewrite <- app_assoc, drop_app_length. cbn [app].
    split; [reflexivity|]. rewrite <- app_assoc in Hin. exact Hin.
  - intros (rest & -> & Hd). exists (hs ++ data_dir :: rest, File data).
    split; [apply elem_of_map_to_list; exact Hd|]. cbn [fst snd].
    rewrite bool_decide_eq_true_2.
    + rewrite drop_app_length. reflexivity.
    + exists rest. rewrite <- app_assoc. reflexivity.
Qed.

(** C6: for a directory named category_timetag_host on a disk, with no
    operation failing, [spade_pickup_data] returns the names of the
    archive and of the semaphore or metadata file; they start with HS_
    when the category is SNALERT, HESE or ANON and with the category
    otherwise; both files are then in the SPADE directory, and the members
    of the archive are the files of the delivered directory, with the
    data they have on the disk. *)
Theorem packaging_names (spade : path) (meta : bool) (hs : path)
    (category timetag host : string) (start stop : option Z)
    (s : DiskSender) :
  switches_off (switches s) ->
  let data_dir := request_dir category timetag host in
  let base := if standard_prefix category then "HS_" +:+ data_dir
              else data_dir in
  let tarname := base +:+ ".tar" in
  let semname := base +:+ (if meta then ".meta.xml" else ".sem") in
  exists s' members,
    spade_pickup_data spade meta hs data_dir category start stop s
    = (Some (tarname, semname), [], s') /\
    files s' !! (spade ++ [tarname]) = Some (Tar members) /\
    (exists x, files s' !! (spade ++ [semname]) = Some (File x)) /\
    forall name data,
      (name, data) ∈ members <->
      exists rest, name = data_dir :: rest /\
                   files s !! (hs ++ name) = Some (File data).
Proof.
  intros (Hmove & Htouch & Htar). cbn zeta.
  set (data_dir := request_dir category timetag host).
  set (base := if standard_prefix category then _ else _).
  destruct s as [d sw]. cbn [switches files] in *.
  assert ((0 <? fail_tar_file sw) = false) as Htar' by lia.
  set (d1 := <[hs ++ [base +:+ ".tar"] := Tar (tar_members hs data_dir d)]> d).
  set (d2 := <[spade ++ [base +:+ ".tar"] := Tar (tar_members hs data_dir d)]>
               (delete (hs ++ [base +:+ ".tar"]) d1)).
  set (semname := base +:+ (if meta then ".meta.xml" else ".sem")).
  exists (mk_disk_sender
            (<[spade ++ [semname] :=
                 File (if meta then "<DIF_Plus/>" else "")]> d2) sw),
         (tar_members hs data_dir d).
  split; [|split; [|split]].
  - unfold spade_pickup_data, spade_basename, TAR_SUFFIX.
    fold data_dir. fold base.
    cbn [write_tarfile DiskSender_ops FailableSender_ops lift_switch
         switches files fst snd].
    rewrite Htar'. cbn [fst snd].
    cbn [move_file DiskSender_ops FailableSender_ops lift_switch
         switches files fst snd].
    rewrite lookup_insert_eq, Hmove.
    unfold lift_switch. cbn [fst snd]. rewrite basename_snoc.
    destruct meta;
      cbn [write_meta_xml write_sem DiskSender_ops FailableSender_ops
           switches files];
      rewrite Htouch; unfold lift_switch; cbn [fst snd]; reflexivity.
  - cbn [files]. unfold d2.
    rewrite lookup_insert_ne, lookup_insert_eq; [reflexivity|].
    intros Heq. apply app_inv_head in Heq. injection Heq as Heq.
    apply string_append_inj in Heq. destruct meta; discriminate.
  - eexists. cbn [files]. apply lookup_insert_eq.
  - intros name data. apply tar_members_spec.
Qed.

Lemma packaging_names_witness :
  exists s' members,
    spade_pickup_data ["spade"] false ["copy"] test_dir "SNALERT" None None
      (mk_disk_sender test_disk FailableSender_init)
    = (Some ("HS_SNALERT_12345678_987654_ichub07.tar",
             "HS_SNALERT_12345678_987654_ichub07.sem"), [], s') /\
    files s' !! ["spade"; "HS_SNALERT_12345678_987654_ichub07.tar"]
    = Some (Tar members) /\
    (exists x,
       files s' !! ["spade"; "HS_SNALERT_12345678_987654_ichub07.sem"]
       = Some (File x)) /\
    forall name data,
      (name, data) ∈ members <->
      exists rest, name = test_dir :: rest /\
                   test_disk !! (["copy"] ++ name) = Some (File data).
Proof.
  apply (packaging_names ["spade"] false ["copy"] "SNALERT" "12345678_987654"
           "ichub07" None None (mk_disk_sender test_disk FailableSender_init)).
  split; [reflexivity|]. split; [reflexivity|]. simpl. lia.
Defined.

(** test_spade_data_nonstandard_prefix and test_spade_pickup_data *)
Example nonstandard_prefix_names :
  fst (fst (spade_pickup_data ["spade"] false ["copy"]
              (request_dir "SomeCategory" "12345678_987654" "ichub01")
              "SomeCategory" None None FailableSender_init))
  = Some ("SomeCategory_12345678_987654_ichub01.tar",
          "SomeCategory_12345678_987654_ichub01.sem").
Proof. reflexivity. Qed.

Example standard_prefix_names_meta :
  fst (fst (spade_pickup_data ["spade"] true ["copy"]
              (request_dir "SNALERT" "12345678_987654" "ichub01")
              "SNALERT" None None FailableSender_init))
  = Some ("HS_SNALERT_12345678_987654_ichub01.tar",
          "HS_SNALERT_12345678_987654_ichub01.meta.xml").
Proof. reflexivity. Qed.
(** * Further properties of the code *)

(** ** HsUtil.assemble_email_dict *)

Lemma forallb_seq_Z (f : Z -> bool) (n : nat) :
  forallb (fun i => f (Z.of_nat i)) (seq 0 n) = true ->
  forall z, 0 <= z < Z.of_nat n -> f z = true.
Proof.
  intros H z Hz. rewrite forallb_forall in H.
  specialize (H (Z.to_nat z)). rewrite Z2Nat.id in H by lia.
  apply H. apply in_seq. lia.
Qed.

Lemma pad2_length z : 0 <= z < 100 -> String.length (Str.pad 2 z) = 2%nat.
Proof.
  intros Hz.
  apply (forallb_seq_Z
           (fun z => Nat.eqb (String.length (Str.pad 2 z)) 2) 100) in Hz.
  - apply Nat.eqb_eq, Hz.
  - vm_compute. reflexivity.
Qed.

Lemma pad4_length z : 0 <= z < 10000 -> String.length (Str.pad 4 z) = 4%nat.
Proof.
  intros Hz.
  apply (forallb_seq_Z
           (fun z => Nat.eqb (String.length (Str.pad 4 z)) 4) (100 * 100)) in Hz.
  - apply Nat.eqb_eq, Hz.
  - vm_compute. reflexivity.
Qed.

Lemma string_length_app (a b : string) :
  String.length (a +:+ b) = (String.length a + String.length b)%nat.
Proof. induction a as [|c a IH]; simpl; [reflexivity | rewrite IH; reflexivity]. Qed.

Lemma prefix_app_same (a b c : string) :
  String.prefix (a +:+ b) (a +:+ c) = String.prefix b c.
Proof.
  induction a as [|x a IH]; simpl; [reflexivity|].
  destruct (ascii_dec x x) as [_|Hne]; [exact IH | congruence].
Qed.

Lemma prefix_app_r (a b : string) : String.prefix a (a +:+ b) = true.
Proof.
  induction a as [|x a IH]; simpl; [destruct b; reflexivity|].
  destruct (ascii_dec x x) as [_|Hne]; [exact IH | congruence].
Qed.

Lemma days_in_month_le y m : Datetime.days_in_month y m <= 31.
Proof.
  unfold Datetime.days_in_month.
  destruct (m =? 2); [destruct (Datetime.is_leap y); lia|].
  destruct (_ || _); lia.
Qed.

Lemma strftime_length (t : datetime) s :
  Datetime.valid t = true -> Datetime.strftime t = Ok s ->
  String.length s = 19%nat.
Proof.
  unfold Datetime.valid, Datetime.strftime. intros Hv.
  repeat (apply andb_prop in Hv; destruct Hv as [Hv ?]).
  pose proof (days_in_month_le (dt_year t) (dt_month t)).
  destruct (dt_year t <? 1900); [discriminate|]. intros [= <-].
  rewrite !string_length_app.
  rewrite pad4_length, !pad2_length by lia. reflexivity.
Qed.

Lemma notifies_for_map header message (addresses : list pyval) :
  notifies_for header message addresses
    (map (HsUtil.notify header message) addresses).
Proof.
  split; [apply length_map|]. intros i addr Hi.
  exists (<["receiver" := addr]> (<["notifies_txt" := message]> (
          <["notifies_header" := header]> ∅))).
  split; [|split; [|split]].
  - change (map (HsUtil.notify header message) addresses)
      with (HsUtil.notify header message <$> addresses).
    rewrite list_lookup_fmap, Hi. reflexivity.
  - apply lookup_insert_eq.
  - rewrite lookup_insert_ne by discriminate. apply lookup_insert_eq.
  - rewrite !(lookup_insert_ne _ _ "notifies_header") by discriminate.
    apply lookup_insert_eq.
Qed.

(** X1: [assemble_email_dict] raises HsException exactly for an address
    list that is None or empty.  For other lists it returns the alert of
    service HSiface with one entry of [notifies] per address, in order;
    the time is that of the clock to the second, 19 characters long; a
    clock before 1900 makes [strftime] raise ValueError. *)
Theorem assemble_email_dict_spec (now : datetime)
    (header message description prio : pyval) (short_subject quiet : bool) :
  let assemble addrs :=
    HsUtil.assemble_email_dict now addrs header message description prio
      short_subject quiet in
  (forall addrs,
     addrs = None \/ addrs = Some [] ->
     assemble addrs = Raise (HsException "No addresses specified" [])) /\
  (forall a l,
     Datetime.valid now = true -> 1900 <= dt_year now ->
     exists time m value notifies,
       assemble (Some (a :: l)) = Ok (PyDict m) /\
       String.length time = 19%nat /\
       String.prefix time (Datetime.str now) = true /\
       m !! "service" = Some (PyStr "HSiface") /\
       m !! "varname" = Some (PyStr "alert") /\
       m !! "prio" = Some prio /\
       m !! "time" = Some (PyStr time) /\
       m !! "value" = Some (PyDict value) /\
       value !! "condition" = Some header /\
       value !! "desc" = Some description /\
       value !! "short_subject"
       = Some (PyStr (if short_subject then "true" else "false")) /\
       value !! "quiet" = Some (PyStr (if quiet then "true" else "false")) /\
       value !! "notifies" = Some (PyList notifies) /\
       notifies_for header message (a :: l) notifies) /\
  (forall a l,
     dt_year now < 1900 ->
     exists msg, assemble (Some (a :: l)) = Raise (ValueError msg)).
Proof.
  cbv zeta. split; [|split].
  - intros addrs [->| ->]; reflexivity.
  - intros a l Hv Hy. unfold HsUtil.assemble_email_dict.
    destruct (Datetime.strftime now) as [time|e] eqn:Et.
    2: { unfold Datetime.strftime in Et.
         destruct (Z.ltb_spec (dt_year now) 1900); [lia | discriminate]. }
    unfold mbind, result_bind, bind.
    eexists time, _, _, _. split; [reflexivity|].
    split; [eapply strftime_length; eassumption|].
    split.
    { unfold Datetime.strftime in Et.
      destruct (dt_year now <? 1900); [discriminate|]. injection Et as <-.
      unfold Datetime.str. rewrite !prefix_app_same.
      apply prefix_app_r. }
    repeat (split; [reflexivity|]).
    apply (notifies_for_map header message (a :: l)).
  - intros a l Hy. unfold HsUtil.assemble_email_dict, Datetime.strftime.
    destruct (Z.ltb_spec (dt_year now) 1900); [|lia].
    eexists. reflexivity.
Qed.

Lemma assemble_email_dict_witness :
  exists m,
    HsUtil.assemble_email_dict jan1_2018 (Some [PyStr "i3.hsinterface"])
      (PyStr "HsInterface alert") (PyStr "no data")
      (PyStr HsUtil.DEFAULT_DESCRIPTION) (PyInt 2) true true
    = Ok (PyDict m) /\
    m !! "time" = Some (PyStr "2018-01-01 00:00:00").
Proof.
  destruct (assemble_email_dict_spec jan1_2018 (PyStr "HsInterface alert")
              (PyStr "no data") (PyStr HsUtil.DEFAULT_DESCRIPTION) (PyInt 2)
              true true) as (_ & H & _).
  destruct (H (PyStr "i3.hsinterface") [] eq_refl ltac:(simpl; lia))
    as (time & m & value & notifies & Hm & _).
  exists m. split; [exact Hm|].
  injection Hm as <-. reflexivity.
Defined.

(** ** HsUtil.send_live_status: how it fails *)

(** X2: a call of [send_live_status] either returns, having sent one
    message, or raises with the socket as it was; what it raises is an
    HsException or, never reaching its own TypeError, UnboundLocalError. *)
Theorem send_live_status_atomic utcnow sock
    req_id username prefix start_time stop_time copydir status success failed :
  let out := HsUtil.send_live_status utcnow sock req_id username prefix
               start_time stop_time copydir status success failed in
  match snd out with
  | Ok _ => exists msg, fst out = sock ++ [msg]
  | Raise e =>
      fst out = sock /\
      (is_HsException e = true \/ exists var, e = UnboundLocalError var)
  end.
Proof.
  cbv zeta. unfold HsUtil.send_live_status.
  destruct (HsUtil.is_none status); [simpl; auto|].
  destruct (HsUtil.is_none req_id); [simpl; auto|].
  destruct (HsUtil.is_none copydir); [simpl; auto|].
  assert (forall which var t,
            match HsUtil.time_to_utc_str which var t status with
            | Ok _ => True
            | Raise e =>
                is_HsException e = true \/ exists v, e = UnboundLocalError v
            end) as Hcases.
  { intros which var t. destruct t; simpl; eauto.
    destruct (HsUtil.ne_str _ _); simpl; auto. }
  pose proof (Hcases "Start" "start_utc" start_time) as H1.
  destruct (HsUtil.time_to_utc_str "Start" "start_utc" start_time status)
    as [s1|e1]; [|simpl; auto].
  pose proof (Hcases "Stop" "stop_utc" stop_time) as H2.
  destruct (HsUtil.time_to_utc_str "Stop" "stop_utc" stop_time status)
    as [s2|e2]; [|simpl; auto].
  simpl. eexists. reflexivity.
Qed.

(** X3: with status, request id and destination set, a start time that is
    neither None nor a DAQTime (a datetime, a string, a number) stops the
    call at the test that reads the unbound local [start_utc]; a stop time
    of that kind does the same with [stop_utc] once the start time has
    passed; a time that is None under a status other than REQUEST ERROR
    raises HsException.  Nothing is sent in any of these cases. *)
Theorem send_live_status_bad_time utcnow sock
    req_id username prefix start_time stop_time copydir status success failed :
  status <> PyNone -> req_id <> PyNone -> copydir <> PyNone ->
  let out := HsUtil.send_live_status utcnow sock req_id username prefix
               start_time stop_time copydir status success failed in
  (foreign_time start_time ->
   out = (sock, Raise (UnboundLocalError "start_utc"))) /\
  (start_time = PyNone -> status <> PyStr HsUtil.STATUS_REQUEST_ERROR ->
   out = (sock, Raise (HsException "Start time is not set" []))) /\
  (time_arg_ok status start_time -> foreign_time stop_time ->
   out = (sock, Raise (UnboundLocalError "stop_utc"))) /\
  (time_arg_ok status start_time -> stop_time = PyNone ->
   status <> PyStr HsUtil.STATUS_REQUEST_ERROR ->
   out = (sock, Raise (HsException "Stop time is not set" []))).
Proof.
  intros Hs Hr Hc. cbv zeta. unfold HsUtil.send_live_status.
  apply is_none_false in Hs, Hr, Hc. rewrite Hs, Hr, Hc.
  apply is_none_false in Hs.
  assert (forall which var,
            status <> PyStr HsUtil.STATUS_REQUEST_ERROR ->
            HsUtil.time_to_utc_str which var PyNone status
            = Raise (HsException (which +:+ " time is not set") [])) as Hnone.
  { intros which var Hne. simpl.
    destruct status as [| | |s| | | |]; try reflexivity.
    simpl. destruct (String.eqb_spec s HsUtil.STATUS_REQUEST_ERROR);
      [congruence | reflexivity]. }
  assert (forall t, time_arg_ok status t ->
            HsUtil.time_to_utc_str "Start" "start_utc" t status
            = Ok (time_field t)) as Hok
    by (intros t; apply time_to_utc_str_ok).
  split; [|split; [|split]].
  - intros Hf. destruct start_time; try contradiction; reflexivity.
  - intros -> Hne. rewrite Hnone by assumption. reflexivity.
  - intros Ht Hf. rewrite (Hok _ Ht).
    destruct stop_time; try contradiction; reflexivity.
  - intros Ht -> Hne. rewrite (Hok _ Ht).
    rewrite Hnone by assumption. reflexivity.
Qed.

Lemma send_live_status_bad_time_witness :
  HsUtil.send_live_status jan1_2018 [] (PyStr "req") (PyStr "user") PyNone
    (PyDatetime jan1_2018) (PyDAQTime jan1_2018) (PyStr "/dest")
    (PyStr HsUtil.STATUS_QUEUED) PyNone PyNone
  = ([], Raise (UnboundLocalError "start_utc")).
Proof.
  apply (send_live_status_bad_time jan1_2018 [] (PyStr "req") (PyStr "user")
           PyNone (PyDatetime jan1_2018) (PyDAQTime jan1_2018) (PyStr "/dest")
           (PyStr HsUtil.STATUS_QUEUED) PyNone PyNone);
    [discriminate | discriminate | discriminate | exact I].
Defined.

(** ** payload.py: Payload.__cmp__ and Payload.source_name *)

(** X4: [__cmp__] orders payloads by their envelope time alone: it gives
    0 exactly for equal times, whatever the classes and the data are,
    swapping the operands flips the sign, and "not after" is
    transitive. *)
Theorem payload_cmp_order (p q r : Payload.payload) :
  (Payload.cmp p q = 0 <-> Payload.utime p = Payload.utime q) /\
  (Payload.cmp p q = -1 <-> Payload.utime p < Payload.utime q) /\
  Payload.cmp q p = - Payload.cmp p q /\
  (Payload.cmp p q <= 0 -> Payload.cmp q r <= 0 -> Payload.cmp p r <= 0).
Proof.
  unfold Payload.cmp.
  repeat match goal with
         | |- context [?a <? ?b] => destruct (Z.ltb_spec a b)
         | |- context [?a >? ?b] => destruct (Z.gtb_spec a b)
         end; repeat split; intros; lia.
Qed.

Lemma of_N_inj (a b : N) : Str.of_N a = Str.of_N b -> a = b.
Proof.
  unfold Str.of_N. intros H.
  assert (forall n, N.to_uint n <> Decimal.Nil) as Hnn.
  { intros n. rewrite <- (DecimalN.Unsigned.of_to n) at 1.
    rewrite DecimalN.Unsigned.to_of. apply DecimalFacts.unorm_nonnil. }
  apply DecimalN.Unsigned.to_uint_inj.
  pose proof (NilZero.usu _ (Hnn a)) as Ha.
  pose proof (NilZero.usu _ (Hnn b)) as Hb.
  rewrite H in Ha. congruence.
Qed.

Lemma of_Z_inj_nonneg (a b : Z) :
  0 <= a -> 0 <= b -> Str.of_Z a = Str.of_Z b -> a = b.
Proof.
  intros Ha Hb. unfold Str.of_Z.
  destruct (Z.ltb_spec a 0); [lia|]. destruct (Z.ltb_spec b 0); [lia|].
  intros Heq. apply of_N_inj in Heq. lia.
Qed.

Lemma append_inj_l (a x y : string) : a +:+ x = a +:+ y -> x = y.
Proof. induction a as [|c a IH]; simpl; [auto|]. intros [= H]. auto. Qed.

Lemma builder_name_Some t name :
  Payload.builder_name t = Some name ->
  (4 <= t <= 11 \/ t = 14 \/ t = 15).
Proof.
  unfold Payload.builder_name.
  repeat match goal with
         | |- context [?a =? ?b] => destruct (Z.eqb_spec a b)
         end; intros; try discriminate; lia.
Qed.

Lemma builder_name_None t :
  Payload.builder_name t = None -> t < 4 \/ t = 12 \/ t = 13 \/ 15 < t.
Proof.
  unfold Payload.builder_name.
  repeat match goal with
         | |- context [?a =? ?b] => destruct (Z.eqb_spec a b)
         end; intros; try discriminate; lia.
Qed.

Lemma builder_name_inj t t' name :
  Payload.builder_name t = Some name ->
  Payload.builder_name t' = Some name -> t = t'.
Proof.
  unfold Payload.builder_name.
  repeat match goal with
         | |- context [?a =? ?b] => destruct (Z.eqb_spec a b)
         end; intros H H'; try discriminate; try lia;
    rewrite <- H' in H; discriminate.
Qed.

Lemma builder_name_no_dash t name s :
  Payload.builder_name t = Some name ->
  name <> "icetopHandler-" +:+ s /\ name <> "stringHub-" +:+ s /\
  name <> "simHub-" +:+ s.
Proof.
  unfold Payload.builder_name.
  repeat match goal with
         | |- context [?a =? ?b] => destruct (Z.eqb_spec a b)
         end; intros [= <-]; repeat split; simpl; discriminate.
Qed.

(** X5: which source ids [source_name] names.  The ids of icetop
    handlers, string hubs and simulated hubs (types 3, 12 and 13) are
    named with any component number; a builder or trigger (types 4 to 11,
    14 and 15) is named only with component number 0 and raises
    PayloadException otherwise; every other id, negative ones too, ends in
    UnboundLocalError, as [comp_name] was never bound. *)
Theorem source_name_outcome (src_id : Z) :
  ((exists name, Payload.source_name src_id = Ok name) <->
   3000 <= src_id < 4000 \/ 12000 <= src_id < 14000 \/
   (src_id mod 1000 = 0 /\
    (4000 <= src_id <= 11000 \/ src_id = 14000 \/ src_id = 15000))) /\
  ((exists fmt args,
      Payload.source_name src_id = Raise (PayloadException fmt args)) <->
   src_id mod 1000 <> 0 /\
   (4000 <= src_id < 12000 \/ 14000 <= src_id < 16000)) /\
  (Payload.source_name src_id = Raise (UnboundLocalError "comp_name") <->
   src_id < 3000 \/ 16000 <= src_id).
Proof.
  unfold Payload.source_name. cbv zeta.
  pose proof (Z.div_mod src_id 1000 ltac:(lia)) as Hdm.
  pose proof (Z.mod_pos_bound src_id 1000 ltac:(lia)) as Hm.
  set (t := src_id / 1000) in *. set (n := src_id mod 1000) in *.
  destruct (Z.eqb_spec t 3) as [E3|N3].
  { split; [|split]; split; try (intros (? & ? & ?)); try discriminate;
      try lia; eauto. }
  destruct (Z.eqb_spec t 12) as [E12|N12].
  { split; [|split]; split; try (intros (? & ? & ?)); try discriminate;
      try lia; eauto. }
  destruct (Z.eqb_spec t 13) as [E13|N13].
  { split; [|split]; split; try (intros (? & ? & ?)); try discriminate;
      try lia; eauto. }
  destruct (Payload.builder_name t) as [name|] eqn:Eb.
  - apply builder_name_Some in Eb.
    destruct (Z.eqb_spec n 0) as [E0|N0]; cbn [negb].
    + split; [|split]; split; try (intros (? & ? & ?)); try discriminate;
        try lia; eauto.
    + split; [|split]; split; try (intros (? & ? & ?)); try (intros [? ?]);
        try discriminate; try lia; eauto.
  - apply builder_name_None in Eb.
    split; [|split]; split; try (intros (? & ? & ?)); try (intros [? ?]);
      try discriminate; try lia; eauto.
Qed.

Lemma source_name_Ok (src_id : Z) (name : string) :
  Payload.source_name src_id = Ok name ->
  (exists pre,
     True /\
     In (src_id / 1000, pre)
        [(3, "icetopHandler-"); (12, "stringHub-"); (13, "simHub-")] /\
     name = pre +:+ Str.of_Z (src_id mod 1000)) \/
  (Payload.builder_name (src_id / 1000) = Some name /\ src_id mod 1000 = 0).
Proof.
  unfold Payload.source_name. cbv zeta.
  destruct (Z.eqb_spec (src_id / 1000) 3) as [->|_].
  { intros [= <-]. left. eexists. simpl. eauto. }
  destruct (Z.eqb_spec (src_id / 1000) 12) as [->|_].
  { intros [= <-]. left. eexists. simpl. eauto. }
  destruct (Z.eqb_spec (src_id / 1000) 13) as [->|_].
  { intros [= <-]. left. eexists. simpl. eauto 6. }
  destruct (Payload.builder_name (src_id / 1000)) as [nm|]; [|intros [=]].
  destruct (Z.eqb_spec (src_id mod 1000) 0); cbn [negb]; intros [= <-].
  right. auto.
Qed.

(** X6: a name stands for one source id only. *)
Theorem source_name_injective (a b : Z) (name : string) :
  Payload.source_name a = Ok name -> Payload.source_name b = Ok name ->
  a = b.
Proof.
  intros Ha Hb. apply source_name_Ok in Ha, Hb.
  pose proof (Z.div_mod a 1000 ltac:(lia)) as Hda.
  pose proof (Z.mod_pos_bound a 1000 ltac:(lia)) as Hma.
  pose proof (Z.div_mod b 1000 ltac:(lia)) as Hdb.
  pose proof (Z.mod_pos_bound b 1000 ltac:(lia)) as Hmb.
  destruct Ha as [(pa & _ & Hina & ->)|[Ha Hza]];
    destruct Hb as [(pb & _ & Hinb & Heq)|[Hb Hzb]].
  - assert (pa = pb /\ a / 1000 = b / 1000) as [<- Ht].
    { simpl in Hina, Hinb.
      destruct Hina as [[= <- <-]|[[= <- <-]|[[= <- <-]|[]]]];
        destruct Hinb as [[= <- <-]|[[= <- <-]|[[= <- <-]|[]]]];
        first [ discriminate Heq | split; [reflexivity | congruence] ]. }
    apply append_inj_l, of_Z_inj_nonneg in Heq; lia.
  - destruct (builder_name_no_dash _ _ (Str.of_Z (a mod 1000)) Hb)
      as (H1 & H2 & H3).
    simpl in Hina.
    destruct Hina as [[= _ <-]|[[= _ <-]|[[= _ <-]|[]]]]; congruence.
  - destruct (builder_name_no_dash _ _ (Str.of_Z (b mod 1000)) Ha)
      as (H1 & H2 & H3).
    simpl in Hinb.
    destruct Hinb as [[= _ <-]|[[= _ <-]|[[= _ <-]|[]]]]; congruence.
  - pose proof (builder_name_inj _ _ _ Ha Hb). lia.
Qed.

Lemma source_name_injective_witness :
  Payload.source_name 12005 = Ok "stringHub-5" /\
  forall b, Payload.source_name b = Ok "stringHub-5" -> 12005 = b.
Proof.
  split; [reflexivity|].
  intros b. apply (source_name_injective 12005 b "stringHub-5"). reflexivity.
Defined.

(** ** payload.py: delta_codec *)

Lemma fill_Ok w tp vb reg tp' vb' reg' :
  Payload.fill w tp vb reg = Ok (tp', vb', reg') ->
  exists used,
    tp = used ++ tp' /\ vb' = vb + 8 * Z.of_nat (length used) /\
    w <= vb' /\ (vb < w -> vb' < w + 8) /\ (w <= vb -> used = []).
Proof.
  revert vb reg. induction tp as [|b tp IH]; intros vb reg; simpl.
  - destruct (Z.ltb_spec vb w); [discriminate|]. intros [= <- <- <-].
    exists []. simpl. repeat split; auto; lia.
  - destruct (Z.ltb_spec vb w).
    + destruct (Z.ltb_spec vb 0); [discriminate|]. intros H1.
      apply IH in H1. destruct H1 as (used & -> & -> & Hw & Hlt & Hge).
      exists (b :: used). simpl length. rewrite Nat2Z.inj_succ.
      split; [reflexivity|]. split; [lia|]. split; [lia|].
      split; [|lia]. intros _.
      destruct (Z.lt_ge_cases (vb + 8) w) as [Hc|Hc]; [lia|].
      rewrite (Hge Hc). simpl. lia.
    + intros [= <- <- <-]. exists []. simpl. repeat split; auto; lia.
Qed.

Lemma fill_Raise w tp vb reg e :
  0 <= vb -> Payload.fill w tp vb reg = Raise e ->
  e = StructError "unpack requires a string argument of length 1".
Proof.
  revert vb reg. induction tp as [|b tp IH]; intros vb reg Hvb; simpl.
  - destruct (vb <? w); [|discriminate]. intros [= <-]. reflexivity.
  - destruct (vb <? w); [|discriminate].
    destruct (Z.ltb_spec vb 0); [lia|]. apply IH. lia.
Qed.

Lemma fill_extend w tp vb reg tp' vb' reg' extra :
  Payload.fill w tp vb reg = Ok (tp', vb', reg') ->
  Payload.fill w (tp ++ extra) vb reg = Ok (tp' ++ extra, vb', reg').
Proof.
  revert vb reg. induction tp as [|b tp IH]; intros vb reg; simpl.
  - destruct (Z.ltb_spec vb w); [discriminate|]. intros [= <- <- <-].
    destruct extra as [|x extra]; simpl;
      destruct (Z.ltb_spec vb w); try lia; reflexivity.
  - destruct (vb <? w); [|intros [= <- <- <-]; reflexivity].
    destruct (vb <? 0); [discriminate|]. apply IH.
Qed.

(** What a word read with width [w] can be. *)
Lemma word_range w reg :
  1 <= w ->
  let val := Z.land reg (Z.shiftl 1 w - 1) in
  let wrd := if val >? Z.shiftl 1 (w - 1) then val - Z.shiftl 1 w else val in
  - 2 ^ (w - 1) < wrd <= 2 ^ (w - 1).
Proof.
  intros Hw. cbv zeta. rewrite !Z.shiftl_1_l.
  replace (2 ^ w - 1) with (Z.ones w) by (rewrite Z.ones_equiv; lia).
  rewrite Z.land_ones by lia.
  pose proof (Z.mod_pos_bound reg (2 ^ w) ltac:(lia)) as Hm.
  assert (2 ^ w = 2 * 2 ^ (w - 1)) as Hp.
  { rewrite <- Z.pow_succ_r by lia. f_equal. lia. }
  destruct (Z.gtb_spec (reg mod 2 ^ w) (2 ^ (w - 1))); lia.
Qed.

Lemma get_bits_Ok c wrd c' :
  Payload.get_bits c = Ok (wrd, c') ->
  exists w used,
    Payload.bpw c = Some w /\ 1 <= w /\
    Payload.bpw c' = Payload.bpw c /\ Payload.bth c' = Payload.bth c /\
    - 2 ^ (w - 1) < wrd <= 2 ^ (w - 1) /\
    Payload.tape c = used ++ Payload.tape c' /\
    Payload.valid_bits c' + w
    = Payload.valid_bits c + 8 * Z.of_nat (length used) /\
    0 <= Payload.valid_bits c' /\
    (0 <= Payload.valid_bits c < 8 -> Payload.valid_bits c' < 8).
Proof.
  unfold Payload.get_bits.
  destruct (Payload.bpw c) as [w|] eqn:Ew; [|discriminate].
  destruct (Payload.fill w _ _ _) as [[[tp vb] reg]|e] eqn:Ef;
    [|discriminate].
  unfold mbind, result_bind, bind. cbv beta iota.
  destruct (Z.ltb_spec w 1); [discriminate|]. intros [= <- <-].
  apply fill_Ok in Ef. destruct Ef as (used & Ht & -> & Hw & Hlt & Hge).
  exists w, used. cbn [Payload.bpw Payload.bth Payload.tape
                        Payload.valid_bits].
  split; [reflexivity|]. split; [lia|]. split; [reflexivity|].
  split; [reflexivity|]. split; [apply word_range; lia|].
  split; [exact Ht|]. split; [lia|]. split; [lia|].
  intros Hvb.
  destruct (Z.lt_ge_cases (Payload.valid_bits c) w) as [Hc|Hc]; [lia|].
  rewrite (Hge Hc). simpl. lia.
Qed.

Lemma get_bits_Raise c e :
  width_ok c -> 0 <= Payload.valid_bits c ->
  Payload.get_bits c = Raise e ->
  e = StructError "unpack requires a string argument of length 1".
Proof.
  intros Hw Hvb. unfold Payload.get_bits.
  assert (exists w, Payload.bpw c = Some w /\ 1 <= w) as (w & -> & Hw1).
  { unfold width_ok in Hw. simpl in Hw.
    destruct Hw as [H|[H|[H|[H|[H|[]]]]]]; injection H as <- _;
      eexists; split; try reflexivity; lia. }
  destruct (Payload.fill w _ _ _) as [[[tp vb] reg]|e'] eqn:Ef.
  - unfold mbind, result_bind, bind. cbv beta iota.
    destruct (Z.ltb_spec w 1); [lia | discriminate].
  - intros [= <-]. eapply fill_Raise; eassumption.
Qed.

Lemma get_bits_extend c wrd c' extra :
  Payload.get_bits c = Ok (wrd, c') ->
  Payload.get_bits (extend c extra) = Ok (wrd, extend c' extra).
Proof.
  unfold Payload.get_bits, extend.
  cbn [Payload.bpw Payload.bth Payload.tape Payload.valid_bits
       Payload.register].
  destruct (Payload.bpw c) as [w|] eqn:Ew; [|discriminate].
  destruct (Payload.fill w _ _ _) as [[[tp vb] reg]|e] eqn:Ef;
    [|discriminate].
  rewrite (fill_extend _ _ _ _ _ _ _ extra Ef).
  unfold mbind, result_bind, bind. cbv beta iota.
  destruct (w <? 1); [discriminate|]. intros [= <- <-].
  cbn [Payload.bpw Payload.bth Payload.tape Payload.valid_bits
       Payload.register].
  reflexivity.
Qed.

Lemma shift_up_Ok c c' :
  Payload.shift_up c = Ok c' ->
  exists w w' t',
    Payload.bpw c = Some w /\ c' = Payload.set_width c w' t' /\
    In (w, w', t') [(1, 2, 1); (2, 3, 2); (3, 6, 4); (6, 11, 32)].
Proof.
  unfold Payload.shift_up.
  destruct (Payload.bpw c) as [w|]; [|discriminate].
  repeat match goal with
         | |- context [?a =? ?b] => destruct (Z.eqb_spec a b)
         end; intros [= <-]; subst w; eexists _, _, _; simpl; eauto 8.
Qed.

Lemma shift_up_Raise c e :
  width_ok c -> Payload.shift_up c = Raise e -> e = Payload.bad_bpw 11.
Proof.
  unfold width_ok, Payload.shift_up. simpl.
  intros [H|[H|[H|[H|[H|[]]]]]]; injection H as <- _; simpl;
    intros [= <-]; reflexivity.
Qed.

Lemma shift_up_width_ok c c' :
  Payload.shift_up c = Ok c' -> width_ok c'.
Proof.
  intros H. apply shift_up_Ok in H.
  destruct H as (w & w' & t' & _ & -> & Hin). unfold width_ok. simpl in *.
  destruct Hin as [[= _ <- <-]|[[= _ <- <-]|[[= _ <- <-]|[[= _ <- <-]|[]]]]];
    auto 6.
Qed.

Lemma shift_up_widths c c' :
  Payload.shift_up c = Ok c' ->
  (widths_above (Payload.bpw c') < widths_above (Payload.bpw c))%nat /\
  bits_above (Payload.bpw c)
  = default 0 (Payload.bpw c) + bits_above (Payload.bpw c').
Proof.
  unfold Payload.shift_up.
  destruct (Payload.bpw c) as [w|]; [|discriminate].
  repeat match goal with
         | |- context [?a =? ?b] => destruct (Z.eqb_spec a b)
         end; intros [= <-]; subst w; simpl; split; (lia || reflexivity).
Qed.

Lemma read_word_bounded fuel c :
  (widths_above (Payload.bpw c) <= fuel)%nat ->
  Payload.read_word fuel c <> None.
Proof.
  revert c. induction fuel as [|fuel IH]; intros c Hf; simpl;
    destruct (Payload.get_bits c) as [[wrd c1]|e] eqn:Eg; try discriminate;
    apply get_bits_Ok in Eg;
    destruct Eg as (w & used & Ew & _ & Ew1 & _);
    rewrite Ew1, Ew; (destruct (negb _); [discriminate|]);
    (destruct (Payload.shift_up c1) as [c2|e] eqn:Es; [|discriminate]);
    apply shift_up_widths in Es; destruct Es as [Es _]; rewrite Ew1 in Es.
  - lia.
  - apply IH. lia.
Qed.

(** What one round of the inner loop of [decode] gives. *)
Lemma read_word_Ok fuel c wrd c' :
  width_ok c ->
  Payload.read_word fuel c = Some (Ok (wrd, c')) ->
  width_ok c' /\ Z.abs wrd <= 1023 /\
  (Payload.bpw c' = Some 1 -> wrd = 0) /\
  0 <= Payload.valid_bits c' /\
  (0 <= Payload.valid_bits c < 8 -> Payload.valid_bits c' < 8) /\
  exists used bits,
    Payload.tape c = used ++ Payload.tape c' /\
    1 <= bits <= bits_above (Payload.bpw c) /\
    Payload.valid_bits c' + bits
    = Payload.valid_bits c + 8 * Z.of_nat (length used).
Proof.
  revert c. induction fuel as [|fuel IH]; intros c Hok; simpl;
    destruct (Payload.get_bits c) as [[w1 c1]|e] eqn:Eg; try discriminate;
    apply get_bits_Ok in Eg;
    destruct Eg as (w & used & Ew & Hw1 & Ebpw & Ebth & Hr & Ht & Hv & Hnn & Hlt);
    rewrite Ebpw, Ew;
    assert (width_ok c1) as Hok1
      by (unfold width_ok; rewrite Ebpw, Ebth; exact Hok);
    assert (In w [1; 2; 3; 6; 11]) as Hin
      by (unfold width_ok in Hok; rewrite Ew in Hok; simpl in Hok; simpl;
          destruct Hok as [H|[H|[H|[H|[H|[]]]]]]; injection H as <- _; auto 6);
    (destruct (Z.eqb_spec w1 (Z.shiftl 1 (w - 1))) as [Eesc|Nesc]; cbn [negb];
     [destruct (Payload.shift_up c1) as [c2|e] eqn:Es; [|discriminate]|]).
  1, 3: shelve.
  all: intros [= <- <-]; rewrite Z.shiftl_1_l in Nesc;
    (split; [exact Hok1|]); rewrite Ebpw, Ew;
    (split; [|split; [|split; [exact Hnn|split; [exact Hlt|]]]]).
  all: try (simpl in Hin;
            destruct Hin as [<-|[<-|[<-|[<-|[<-|[]]]]]];
            simpl in Hr, Nesc; lia).
  all: try (intros [= ->]; simpl in Hr, Nesc; lia).
  all: try (exists used, w; split; [exact Ht|]; split; [|lia];
            simpl in Hin;
            destruct Hin as [<-|[<-|[<-|[<-|[<-|[]]]]]]; simpl; lia).
  Unshelve.
  - discriminate.
  - intros Hrw.
    pose proof (shift_up_width_ok _ _ Es) as Hok2.
    apply shift_up_Ok in Es.
    destruct Es as (w0 & w' & t' & Ew0 & -> & Hin').
    rewrite Ebpw, Ew in Ew0. injection Ew0 as <-.
    destruct (IH _ Hok2 Hrw) as (Hok' & Habs & Hone & Hnn' & Hlt' & used' & bits & Ht' & Hb & Hv').
    cbn [Payload.set_width Payload.bpw Payload.tape Payload.valid_bits]
      in *.
    split; [exact Hok'|]. split; [exact Habs|]. split; [exact Hone|].
    split; [exact Hnn'|]. split; [lia|].
    exists (used ++ used'), (w + bits).
    rewrite Ht, Ht', <- app_assoc, length_app, Nat2Z.inj_add.
    split; [reflexivity|]. split; [|lia].
    simpl in Hin'.
    destruct Hin' as [[= <- <- _]|[[= <- <- _]|[[= <- <- _]|[[= <- <- _]|[]]]]];
      simpl in *; lia.
Qed.

Lemma read_word_Raise fuel c e :
  width_ok c -> 0 <= Payload.valid_bits c ->
  Payload.read_word fuel c = Some (Raise e) -> codec_error e.
Proof.
  revert c. induction fuel as [|fuel IH]; intros c Hok Hvb; simpl;
    (destruct (Payload.get_bits c) as [[w1 c1]|e1] eqn:Eg;
     [|intros [= <-]; left; eapply get_bits_Raise; eassumption]);
    apply get_bits_Ok in Eg;
    destruct Eg as (w & used & Ew & Hw1 & Ebpw & Ebth & Hr & Ht & Hv & Hnn & Hlt);
    rewrite Ebpw, Ew;
    assert (width_ok c1) as Hok1
      by (unfold width_ok; rewrite Ebpw, Ebth; exact Hok);
    (destruct (negb _); [discriminate|]);
    (destruct (Payload.shift_up c1) as [c2|e2] eqn:Es;
     [|intros [= <-]; right; eapply shift_up_Raise; eassumption]).
  - discriminate.
  - apply IH; [eapply shift_up_width_ok; eassumption|].
    apply shift_up_Ok in Es. destruct Es as (? & ? & ? & _ & -> & _).
    exact Hnn.
Qed.

Lemma read_word_extend fuel c wrd c' extra :
  Payload.read_word fuel c = Some (Ok (wrd, c')) ->
  Payload.read_word fuel (extend c extra) = Some (Ok (wrd, extend c' extra)).
Proof.
  revert c. induction fuel as [|fuel IH]; intros c; simpl;
    (destruct (Payload.get_bits c) as [[w1 c1]|e1] eqn:Eg; [|discriminate]);
    rewrite (get_bits_extend _ _ _ extra Eg);
    change (Payload.bpw (extend c1 extra)) with (Payload.bpw c1);
    (destruct (Payload.bpw c1) as [w|] eqn:Ew; [|discriminate]);
    (destruct (negb _); [intros [= <- <-]; reflexivity|]);
    (destruct (Payload.shift_up c1) as [c2|e2] eqn:Es; [|discriminate]);
    assert (Payload.shift_up (extend c1 extra) = Ok (extend c2 extra)) as ->
      by (revert Es; unfold Payload.shift_up, extend;
          cbn [Payload.bpw]; rewrite Ew;
          repeat match goal with
                 | |- context [?a =? ?b] => destruct (a =? b)
                 end; intros [= <-]; reflexivity).
  - discriminate.
  - apply IH.
Qed.

Lemma shift_down_Ok c wrd :
  width_ok c -> Payload.below_threshold wrd c = true ->
  exists w t,
    Payload.shift_down c = Ok (Payload.set_width c w t) /\
    width_ok (Payload.set_width c w t).
Proof.
  unfold width_ok, Payload.below_threshold, Payload.shift_down. simpl.
  intros [H|[H|[H|[H|[H|[]]]]]]; injection H as <- <-; simpl; intros Hb;
    try lia; eexists _, _; (split; [reflexivity|]); simpl; auto 6.
Qed.

Lemma after_word c1 wrd :
  width_ok c1 ->
  exists c2,
    (if Payload.below_threshold wrd c1 then Payload.shift_down c1
     else Ok c1) = Ok c2 /\
    width_ok c2 /\ Payload.tape c2 = Payload.tape c1 /\
    Payload.valid_bits c2 = Payload.valid_bits c1 /\
    forall extra,
      (if Payload.below_threshold wrd (extend c1 extra)
       then Payload.shift_down (extend c1 extra)
       else Ok (extend c1 extra)) = Ok (extend c2 extra).
Proof.
  intros Hok.
  destruct (Payload.below_threshold wrd c1) eqn:Eb.
  - destruct (shift_down_Ok _ _ Hok Eb) as (w & t & Hs & Hok2).
    eexists. split; [exact Hs|]. split; [exact Hok2|].
    split; [reflexivity|]. split; [reflexivity|]. intros extra.
    change (Payload.below_threshold wrd (extend c1 extra))
      with (Payload.below_threshold wrd c1).
    rewrite Eb. revert Hs. unfold Payload.shift_down, extend.
    cbn [Payload.bpw]. destruct (Payload.bpw c1) as [w'|]; [|discriminate].
    repeat match goal with
           | |- context [?a =? ?b] => destruct (a =? b)
           end; intros Heq;
      first [ discriminate Heq | injection Heq; intros; subst; reflexivity ].
  - exists c1. split; [reflexivity|]. split; [exact Hok|].
    split; [reflexivity|]. split; [reflexivity|]. intros extra.
    change (Payload.below_threshold wrd (extend c1 extra))
      with (Payload.below_threshold wrd c1).
    rewrite Eb. reflexivity.
Qed.

Lemma bits_above_le w : bits_above w <= 23.
Proof.
  destruct w as [z|]; simpl; [|lia].
  destruct z as [|p|p]; try lia.
  repeat (destruct p as [p|p|]; try lia).
Qed.

Lemma decode_loop_bounded n c last out :
  Payload.decode_loop n c last out <> None.
Proof.
  revert c last out. induction n as [|n IH]; intros c last out;
    cbn [Payload.decode_loop]; [discriminate|].
  destruct (Payload.read_word Payload.WIDTH_STEPS c) as [[[wrd c1]|e]|] eqn:Er.
  - destruct (Payload.below_threshold wrd c1);
      [destruct (Payload.shift_down c1) as [c2|e]|];
      first [ apply IH | discriminate ].
  - discriminate.
  - exfalso. revert Er. apply read_word_bounded.
    unfold Payload.WIDTH_STEPS, widths_above.
    destruct (Payload.bpw c) as [z|]; [|lia].
    destruct z as [|p|p]; try lia.
    repeat (destruct p as [p|p|]; try lia).
Qed.

Lemma decode_loop_Ok n c last out res c' :
  width_ok c ->
  Payload.decode_loop n c last out = Some (Ok (res, c')) ->
  exists new used,
    res = out ++ new /\ length new = n /\ small_steps last new /\
    width_ok c' /\ Payload.tape c = used ++ Payload.tape c' /\
    (0 <= Payload.valid_bits c < 8 -> 0 <= Payload.valid_bits c' < 8) /\
    Z.of_nat n
    <= Payload.valid_bits c + 8 * Z.of_nat (length used)
       - Payload.valid_bits c'
    <= 23 * Z.of_nat n.
Proof.
  revert c last out. induction n as [|n IH]; intros c last out Hok.
  - cbn [Payload.decode_loop]. intros [= <- <-]. exists [], [].
    rewrite app_nil_r. simpl. repeat split; auto; try lia.
  - cbn [Payload.decode_loop].
    destruct (Payload.read_word Payload.WIDTH_STEPS c)
      as [[[wrd c1]|e]|] eqn:Er; try discriminate.
    destruct (read_word_Ok _ _ _ _ Hok Er)
      as (Hok1 & Habs & _ & Hnn1 & Hlt1 & used1 & bits & Ht1 & Hb & Hv1).
    destruct (after_word c1 wrd Hok1) as (c2 & -> & Hok2 & Ht2 & Hv2 & _).
    intros Hd. apply IH in Hd; [|exact Hok2].
    destruct Hd as (new & used & -> & Hlen & Hsteps & Hok' & Ht & Hlt & Hbits).
    exists ((last + wrd) :: new), (used1 ++ used).
    rewrite <- app_assoc. split; [reflexivity|].
    split; [simpl; lia|]. split.
    { simpl. split; [|exact Hsteps]. replace (last + wrd - last) with wrd by lia.
      exact Habs. }
    split; [exact Hok'|].
    split; [rewrite Ht1, <- Ht2, Ht, app_assoc; reflexivity|].
    rewrite Hv2 in *. pose proof (bits_above_le (Payload.bpw c)).
    rewrite length_app, Nat2Z.inj_add, Nat2Z.inj_succ.
    split; [lia|]. lia.
Qed.

Lemma decode_loop_Raise n c last out e :
  width_ok c -> 0 <= Payload.valid_bits c ->
  Payload.decode_loop n c last out = Some (Raise e) -> codec_error e.
Proof.
  revert c last out. induction n as [|n IH]; intros c last out Hok Hvb;
    cbn [Payload.decode_loop]; [discriminate|].
  destruct (Payload.read_word Payload.WIDTH_STEPS c)
    as [[[wrd c1]|e1]|] eqn:Er; try discriminate.
  - destruct (read_word_Ok _ _ _ _ Hok Er) as (Hok1 & _ & _ & Hnn1 & _).
    destruct (after_word c1 wrd Hok1) as (c2 & -> & Hok2 & _ & Hv2 & _).
    apply IH; [exact Hok2 | lia].
  - intros [= <-]. eapply read_word_Raise; eassumption.
Qed.

Lemma decode_loop_extend n c last out res c' extra :
  width_ok c ->
  Payload.decode_loop n c last out = Some (Ok (res, c')) ->
  Payload.decode_loop n (extend c extra) last out
  = Some (Ok (res, extend c' extra)).
Proof.
  revert c last out. induction n as [|n IH]; intros c last out Hok;
    cbn [Payload.decode_loop]; [intros [= <- <-]; reflexivity|].
  destruct (Payload.read_word Payload.WIDTH_STEPS c)
    as [[[wrd c1]|e1]|] eqn:Er; try discriminate.
  rewrite (read_word_extend _ _ _ _ extra Er).
  destruct (read_word_Ok _ _ _ _ Hok Er) as (Hok1 & _).
  destruct (after_word c1 wrd Hok1) as (c2 & -> & Hok2 & _ & _ & ->).
  apply IH, Hok2.
Qed.

Lemma set_width_ok c : width_ok (Payload.set_width c 3 2).
Proof. unfold width_ok. simpl. auto. Qed.

(** X7: [decode(length)] always ends: the bound on its inner loop is
    never reached.  When it returns, it returns [length] values (none for
    a negative length), each within 1023 of the one before it and the
    first within 1023 of 0, and leaves the decoder at one of its five word
    widths. *)
Theorem decode_returns (length : Z) (c : Payload.delta_codec) :
  (exists r, Payload.decode length c = Some r) /\
  forall out c',
    Payload.decode length c = Some (Ok (out, c')) ->
    List.length out = Z.to_nat length /\ small_steps 0 out /\ width_ok c'.
Proof.
  unfold Payload.decode. split.
  - destruct (Payload.decode_loop _ _ _ _) as [r|] eqn:E; [eauto|].
    exfalso. revert E. apply decode_loop_bounded.
  - intros out c' H.
    apply decode_loop_Ok in H; [|apply set_width_ok].
    destruct H as (new & used & -> & Hlen & Hsteps & Hok & _).
    auto.
Qed.

Lemma decode_returns_witness :
  exists out c',
    Payload.decode 2 (Payload.delta_codec_init [Byte.x09]) = Some (Ok (out, c')) /\
    List.length out = 2%nat /\ small_steps 0 out.
Proof.
  eexists _, _. split; [vm_compute; reflexivity|].
  destruct (decode_returns 2 (Payload.delta_codec_init [Byte.x09]))
    as [_ H].
  destruct (H _ _ ltac:(vm_compute; reflexivity)) as (Hlen & Hsteps & _).
  split; [exact Hlen | exact Hsteps].
Defined.

(** X8: on a decoder whose bit count is not negative, as it is from the
    start, [decode] raises nothing but the [struct.error] of a tape that
    has run out and the ValueError of a word that asks for more than 11
    bits; narrowing the word never fails. *)
Theorem decode_errors (length : Z) (c : Payload.delta_codec) (e : pyexc) :
  0 <= Payload.valid_bits c ->
  Payload.decode length c = Some (Raise e) ->
  e = StructError "unpack requires a string argument of length 1" \/
  e = ValueError "Bad BPW value 11".
Proof.
  intros Hvb H. unfold Payload.decode in H.
  apply decode_loop_Raise in H; [exact H | apply set_width_ok | exact Hvb].
Qed.

Lemma decode_errors_witness :
  let c := Payload.delta_codec_init [Byte.x04; Byte.x01; Byte.x08] in
  let e := ValueError "Bad BPW value 11" in
  Payload.decode 1 c = Some (Raise e) /\
  (e = StructError "unpack requires a string argument of length 1" \/
   e = ValueError "Bad BPW value 11").
Proof.
  split; [vm_compute; reflexivity|].
  apply (decode_errors 1
           (Payload.delta_codec_init [Byte.x04; Byte.x01; Byte.x08]));
    [simpl; lia | vm_compute; reflexivity].
Defined.

(** X9: the bytes [decode] takes from the tape.  A decoder that holds
    fewer than 8 unread bits still does afterwards; each value costs
    between 1 and 23 bits, so a fresh decoder reads at least
    [length / 8] and at most [(23 * length + 7) / 8] bytes. *)
Theorem decode_reads (length : Z) (c : Payload.delta_codec)
    (out : list Z) (c' : Payload.delta_codec) :
  0 <= length -> 0 <= Payload.valid_bits c < 8 ->
  Payload.decode length c = Some (Ok (out, c')) ->
  exists used,
    Payload.tape c = used ++ Payload.tape c' /\
    0 <= Payload.valid_bits c' < 8 /\
    length
    <= Payload.valid_bits c + 8 * Z.of_nat (List.length used)
       - Payload.valid_bits c'
    <= 23 * length /\
    (Payload.valid_bits c = 0 ->
     length <= 8 * Z.of_nat (List.length used) <= 23 * length + 7).
Proof.
  intros Hlen Hvb H. unfold Payload.decode in H.
  apply decode_loop_Ok in H; [|apply set_width_ok].
  destruct H as (new & used & _ & _ & _ & _ & Ht & Hlt & Hbits).
  cbn [Payload.set_width Payload.tape Payload.valid_bits] in *.
  rewrite Z2Nat.id in Hbits by lia.
  exists used. split; [exact Ht|]. split; [auto|]. split; [exact Hbits|].
  specialize (Hlt Hvb). lia.
Qed.

(** X10: bytes after those a successful [decode] needs change nothing:
    with more bytes on the tape the values are the same and the bytes are
    left unread. *)
Theorem decode_ignores_rest (length : Z) (c : Payload.delta_codec)
    (out : list Z) (c' : Payload.delta_codec) (extra : pybytes) :
  Payload.decode length c = Some (Ok (out, c')) ->
  Payload.decode length (extend c extra) = Some (Ok (out, extend c' extra)).
Proof.
  unfold Payload.decode. intros H.
  apply (decode_loop_extend _ _ _ _ _ _ extra) in H; [|apply set_width_ok].
  exact H.
Qed.

Lemma decode_reads_witness :
  exists used,
    [Byte.x09; Byte.xff] = used ++ [Byte.xff] /\
    2 <= 8 * Z.of_nat (List.length used) <= 23 * 2 + 7.
Proof.
  destruct (decode_reads 2 (Payload.delta_codec_init [Byte.x09; Byte.xff])
              [1; 2]
              (Payload.mk_codec [Byte.xff] 3 0 (Some 2) (Some 1)))
    as (used & Ht & _ & _ & Hb);
    [lia | simpl; lia | vm_compute; reflexivity |].
  exists used. split; [exact Ht | apply Hb; reflexivity].
Defined.

Lemma decode_ignores_rest_witness :
  Payload.decode 2 (Payload.delta_codec_init [Byte.x09; Byte.xff; Byte.x01])
  = Some (Ok ([1; 2],
              Payload.mk_codec [Byte.xff; Byte.x01] 3 0 (Some 2) (Some 1))).
Proof.
  apply (decode_ignores_rest 2 (Payload.delta_codec_init [Byte.x09])
           [1; 2] (Payload.mk_codec [] 3 0 (Some 2) (Some 1))
           [Byte.xff; Byte.x01]).
  vm_compute. reflexivity.
Defined.

(** ** payload.py: DeltaCompressedHit *)

Lemma slice_0 (n : Z) (d : pybytes) : slice 0 n d = firstn (Z.to_nat n) d.
Proof. unfold slice. rewrite Z.sub_0_r. reflexivity. Qed.

Lemma firstn_skipn_firstn {A} (k j n : nat) (l : list A) :
  (j + k <= n)%nat ->
  firstn k (skipn j (firstn n l)) = firstn k (skipn j l).
Proof.
  intros H. rewrite skipn_firstn_comm, firstn_firstn.
  f_equal. lia.
Qed.

Lemma unpack_hit_header (d : pybytes) :
  (30 <= length d)%nat ->
  Struct.unpack [Struct.Pad 8; Struct.U64; Struct.U16; Struct.U16;
                 Struct.U16; Struct.U64] (slice 0 30 d)
  = Ok [Struct.be_unsigned (slice 8 16 d); Struct.be_unsigned (slice 16 18 d);
        Struct.be_unsigned (slice 18 20 d); Struct.be_unsigned (slice 20 22 d);
        Struct.be_unsigned (slice 22 30 d)].
Proof.
  intros Hlen. unfold Struct.unpack. rewrite slice_0.
  change (Z.to_nat 30) with 30%nat.
  rewrite length_firstn, Nat.min_l by lia. simpl Nat.eqb. cbv iota.
  cbn [Struct.unpack_fields Struct.size]. unfold slice.
  rewrite !skipn_skipn. simpl Nat.add.
  rewrite !firstn_skipn_firstn by lia. reflexivity.
Qed.

Lemma unpack_hit_words (d : pybytes) :
  (38 <= length d)%nat ->
  Struct.unpack [Struct.U32; Struct.U32] (slice 30 38 d)
  = Ok [Struct.be_unsigned (slice 30 34 d); Struct.be_unsigned (slice 34 38 d)].
Proof.
  intros Hlen. unfold Struct.unpack, slice.
  change (Z.to_nat (38 - 30)) with 8%nat. change (Z.to_nat 30) with 30%nat.
  rewrite length_firstn, length_skipn, Nat.min_l by lia.
  simpl Nat.eqb. cbv iota. cbn [Struct.unpack_fields Struct.size].
  rewrite firstn_firstn. simpl Nat.min.
  change (Z.to_nat (34 - 30)) with 4%nat.
  change (Z.to_nat (38 - 34)) with 4%nat. change (Z.to_nat 34) with 34%nat.
  rewrite skipn_firstn_comm, firstn_firstn, skipn_skipn. reflexivity.
Qed.

(** X11: what [DeltaCompressedHit.__init__] does with its data.  Fewer
    than 38 bytes, or an order check (bytes 16 and 17) other than 1, raise
    PayloadException; nothing else goes wrong.  Otherwise the hit is
    built: its time is the 8 bytes at offset 8, its version, pedestal and
    DOM clock the fields that follow the order check, its two words the
    bytes 30 to 37; the mainboard id is the argument. *)
Theorem hit_init_outcome (mbid : Z) (d : pybytes) (keep : bool) :
  let init := Payload.DeltaCompressedHit_init mbid (Some d) keep in
  let order := Struct.be_unsigned (slice 16 18 d) in
  ((length d < 38)%nat ->
   init = Raise (Payload.too_short 38 d)) /\
  ((38 <= length d)%nat -> order <> 1 ->
   init = Raise (PayloadException
                   "Bad order-check %d for DeltaSenderHit (should be 1)"
                   [PyInt order])) /\
  ((38 <= length d)%nat -> order = 1 ->
   init = Ok (Payload.of_hit
                (Payload.mk_hit
                   (Payload.Payload_init (Struct.be_unsigned (slice 8 16 d))
                      (Some d) keep)
                   mbid
                   (Struct.be_unsigned (slice 18 20 d))
                   (Struct.be_unsigned (slice 20 22 d))
                   (Struct.be_unsigned (slice 22 30 d))
                   (Struct.be_unsigned (slice 30 34 d))
                   (Struct.be_unsigned (slice 34 38 d))))).
Proof.
  cbv zeta. unfold Payload.DeltaCompressedHit_init,
    Payload.DeltaCompressedHit_MIN_LENGTH, Payload.ENVELOPE_LENGTH.
  split; [|split].
  - intros H. destruct (Z.ltb_spec (Z.of_nat (length d)) (54 - 16)); [|lia].
    reflexivity.
  - intros H Ho. destruct (Z.ltb_spec (Z.of_nat (length d)) (54 - 16)); [lia|].
    rewrite unpack_hit_header by lia.
    unfold mbind, result_bind, bind. cbv beta iota. unfold item at 1 2.
    cbn [nth]. apply Z.eqb_neq in Ho. rewrite Ho. reflexivity.
  - intros H Ho. destruct (Z.ltb_spec (Z.of_nat (length d)) (54 - 16)); [lia|].
    rewrite unpack_hit_header, unpack_hit_words by lia.
    unfold mbind, result_bind, bind. cbv beta iota. unfold item.
    cbn [nth]. rewrite Ho. reflexivity.
Qed.

Lemma hit_init_outcome_witness :
  Payload.DeltaCompressedHit_init 5 (Some hit_data) true
  = Ok (Payload.DeltaCompressedHit
          (Payload.mk_base 1000 (Some hit_data) true) 5 2 0 77 0 0).
Proof.
  destruct (hit_init_outcome 5 hit_data true) as (_ & _ & H).
  rewrite H; [reflexivity | simpl; lia | reflexivity].
Defined.

Lemma land_low (w n : Z) (m : Z) :
  0 <= n -> m = Z.ones n -> Z.land w m = w mod 2 ^ n.
Proof. intros Hn ->. apply Z.land_ones, Hn. Qed.

Lemma land_shiftr_low (w k n m : Z) :
  0 <= k -> 0 <= n -> m = Z.ones n ->
  Z.land (Z.shiftr w k) m = (w / 2 ^ k) mod 2 ^ n.
Proof.
  intros Hk Hn ->. rewrite Z.land_ones, Z.shiftr_div_pow2 by lia. reflexivity.
Qed.

Lemma land_bit (w k : Z) :
  0 <= k ->
  Z.b2z (negb (Z.land w (2 ^ k) =? 0)) = (w / 2 ^ k) mod 2.
Proof.
  intros Hk. rewrite <- Z.testbit_spec' by lia.
  assert (Z.land w (2 ^ k) = if Z.testbit w k then 2 ^ k else 0) as ->.
  { apply Z.bits_inj'. intros n Hn.
    rewrite Z.land_spec, Z.pow2_bits_eqb by lia.
    destruct (Z.eqb_spec k n) as [->|Hne].
    - destruct (Z.testbit w n); simpl;
        [rewrite Z.pow2_bits_true by lia | rewrite Z.bits_0]; reflexivity.
    - rewrite andb_false_r.
      destruct (Z.testbit w k);
        [rewrite Z.pow2_bits_false by lia | rewrite Z.bits_0]; reflexivity. }
  destruct (Z.testbit w k); simpl; [|reflexivity].
  assert (0 < 2 ^ k) by lia.
  destruct (Z.eqb_spec (2 ^ k) 0); [lia | reflexivity].
Qed.

(** X12: the accessors of a hit read fields of [word0] that do not
    overlap and that cover its bits 0 to 30: the word is the sum of the
    fields at their offsets and of whatever lies from bit 31 up, which no
    accessor reads. *)
Theorem hit_word0_fields (h : Payload.hit) :
  let w := Payload.h_word0 h in
  0 <= Payload.hit_size h < 2 ^ 11 /\
  0 <= Payload.atwd_chip h <= 1 /\
  0 <= Payload.atwd_channels h <= 3 /\
  0 <= Payload.lc h <= 3 /\
  0 <= Payload.trigmask h < 2 ^ 12 /\
  0 <= Payload.mb h <= 1 /\
  w = Payload.hit_size h
      + 2 ^ 11 * Payload.atwd_chip h
      + 2 ^ 12 * Payload.atwd_channels h
      + 2 ^ 14 * Z.b2z (Payload.has_atwd h)
      + 2 ^ 15 * Z.b2z (Payload.has_fadc h)
      + 2 ^ 16 * Payload.lc h
      + 2 ^ 18 * Payload.trigmask h
      + 2 ^ 30 * Payload.mb h
      + 2 ^ 31 * (w / 2 ^ 31).
Proof.
  cbv zeta.
  unfold Payload.hit_size, Payload.atwd_chip, Payload.atwd_channels,
    Payload.lc, Payload.trigmask, Payload.mb, Payload.has_atwd,
    Payload.has_fadc.
  set (w := Payload.h_word0 h).
  rewrite (land_low w 11) by (lia || reflexivity).
  rewrite (land_shiftr_low w 11 1), (land_shiftr_low w 16 2),
    (land_shiftr_low w 18 12), (land_shiftr_low w 30 1)
    by (lia || reflexivity).
  rewrite Z.shiftr_land.
  change (Z.shiftr 12288 12) with 3.
  rewrite (land_shiftr_low w 12 2) by (lia || reflexivity).
  change 16384 with (2 ^ 14). change 32768 with (2 ^ 15).
  rewrite !land_bit by lia.
  change (2 ^ 1) with 2. change (2 ^ 2) with 4.
  change (2 ^ 11) with 2048. change (2 ^ 12) with 4096.
  change (2 ^ 14) with 16384. change (2 ^ 15) with 32768.
  change (2 ^ 16) with 65536. change (2 ^ 18) with 262144.
  change (2 ^ 30) with 1073741824. change (2 ^ 31) with 2147483648.
  Z.div_mod_to_equations. lia.
Qed.

(** *** Waveforms *)

Lemma decode_not_None n c : Payload.decode n c <> None.
Proof. unfold Payload.decode. apply decode_loop_bounded. Qed.

Lemma decode_length n c out c' :
  Payload.decode n c = Some (Ok (out, c')) -> length out = Z.to_nat n.
Proof.
  unfold Payload.decode. intros H.
  apply decode_loop_Ok in H; [|apply set_width_ok].
  destruct H as (new & used & -> & Hlen & _). exact Hlen.
Qed.

Lemma decode_channels_not_None n c ws :
  Payload.decode_channels n c ws <> None.
Proof.
  revert c ws. induction n as [|n IH]; intros c ws;
    cbn [Payload.decode_channels]; [discriminate|].
  destruct (Payload.decode 128 c) as [[[out c1]|e]|] eqn:Ed.
  - apply IH.
  - discriminate.
  - exfalso. revert Ed. apply decode_not_None.
Qed.

Lemma decode_channels_Ok n c ws ws' :
  Payload.decode_channels n c ws = Some (Ok tt, ws') ->
  exists chans,
    Payload.w_atwd ws' = (if Nat.eqb n 0 then Payload.w_atwd ws
                           else Some (default [] (Payload.w_atwd ws) ++ chans)) /\
    length chans = n /\ Forall (fun l => length l = 128%nat) chans /\
    Payload.decoded ws' = Payload.decoded ws /\
    Payload.w_fadc ws' = Payload.w_fadc ws.
Proof.
  revert c ws. induction n as [|n IH]; intros c ws;
    cbn [Payload.decode_channels].
  - intros [= <-]. exists []. simpl. auto.
  - destruct (Payload.decode 128 c) as [[[out c1]|e]|] eqn:Ed;
      try discriminate.
    intros H. apply IH in H.
    destruct H as (chans & Hw & Hlen & Hall & Hd & Hf).
    cbn [Payload.w_atwd Payload.decoded Payload.w_fadc] in *.
    unfold default in *. cbn [from_option id] in Hw.
    exists (out :: chans). simpl Nat.eqb. cbv iota.
    split.
    { rewrite Hw. destruct (Nat.eqb_spec n 0) as [->|_].
      - destruct chans; [reflexivity | discriminate].
      - rewrite <- app_assoc. reflexivity. }
    split; [simpl; lia|]. split; [|auto].
    constructor; [|exact Hall]. apply decode_length in Ed. exact Ed.
Qed.

Lemma atwd_channels_range h : 0 <= Payload.atwd_channels h <= 3.
Proof.
  unfold Payload.atwd_channels. rewrite Z.shiftr_land.
  change (Z.shiftr 12288 12) with (Z.ones 2).
  rewrite Z.land_ones by lia.
  pose proof (Z.mod_pos_bound (Z.shiftr (Payload.h_word0 h) 12) (2 ^ 2)).
  lia.
Qed.

Lemma decode_waveforms_not_None h ws : Payload.decode_waveforms h ws <> None.
Proof.
  unfold Payload.decode_waveforms.
  destruct (Payload.decoded ws); [discriminate|].
  destruct (Payload.data_bytes _) as [d|e]; [|discriminate].
  cbv zeta.
  destruct (Payload.has_fadc h).
  - destruct (Payload.decode 256 _) as [[[out c1]|e]|] eqn:Ed.
    + destruct (Payload.has_atwd h); [|discriminate].
      destruct (Payload.decode_channels _ _ _) as [[[[]|e] ws2]|] eqn:Ec;
        try discriminate.
      exfalso. revert Ec. apply decode_channels_not_None.
    + discriminate.
    + exfalso. revert Ed. apply decode_not_None.
  - destruct (Payload.has_atwd h); [|discriminate].
    destruct (Payload.decode_channels _ _ _) as [[[[]|e] ws2]|] eqn:Ec;
      try discriminate.
    exfalso. revert Ec. apply decode_channels_not_None.
Qed.

(** The waveforms a successful [__decode_waveforms] leaves. *)
Lemma decode_waveforms_Ok h ws ws' :
  Payload.decoded ws = false ->
  Payload.decode_waveforms h ws = Some (Ok tt, ws') ->
  Payload.decoded ws' = true /\
  (Payload.has_fadc h = true ->
   exists l, Payload.w_fadc ws' = Some l /\ length l = 256%nat) /\
  (Payload.has_atwd h = true ->
   exists chans,
     Payload.w_atwd ws' = Some chans /\
     Z.of_nat (length chans) = Payload.atwd_channels h + 1 /\
     Forall (fun l => length l = 128%nat) chans).
Proof.
  intros Hd. unfold Payload.decode_waveforms. rewrite Hd.
  destruct (Payload.data_bytes _) as [d|e]; [|discriminate].
  cbv zeta.
  pose proof (atwd_channels_range h) as Hr.
  assert (forall c1 ws1 ws2,
            Payload.decode_channels
              (Z.to_nat (Payload.atwd_channels h + 1)) c1
              (Payload.mk_waveforms (Payload.decoded ws1)
                 (Payload.w_fadc ws1) (Some [])) = Some (Ok tt, ws2) ->
            Payload.w_fadc ws2 = Payload.w_fadc ws1 /\
            exists chans,
              Payload.w_atwd ws2 = Some chans /\
              Z.of_nat (length chans) = Payload.atwd_channels h + 1 /\
              Forall (fun l => length l = 128%nat) chans) as Hch.
  { intros c1 ws1 ws2 H. apply decode_channels_Ok in H.
    destruct H as (chans & Hw & Hlen & Hall & _ & Hf).
    split; [exact Hf|]. exists chans.
    destruct (Nat.eqb_spec (Z.to_nat (Payload.atwd_channels h + 1)) 0);
      [lia|].
    split; [exact Hw|]. split; [lia | exact Hall]. }
  destruct (Payload.has_fadc h).
  - destruct (Payload.decode 256 _) as [[[out c1]|e]|] eqn:Ed;
      try discriminate.
    apply decode_length in Ed.
    destruct (Payload.has_atwd h).
    + destruct (Payload.decode_channels _ _ _) as [[[[]|e] ws2]|] eqn:Ec;
        try discriminate.
      intros [= <-]. apply Hch in Ec. destruct Ec as [Hf Hc].
      cbn [Payload.decoded Payload.w_fadc Payload.w_atwd] in *.
      split; [reflexivity|]. split; [|auto].
      intros _. rewrite Hf. eauto.
    + intros [= <-].
      cbn [Payload.decoded Payload.w_fadc Payload.w_atwd].
      split; [reflexivity|]. split; [eauto | discriminate].
  - destruct (Payload.has_atwd h).
    + destruct (Payload.decode_channels _ _ _) as [[[[]|e] ws2]|] eqn:Ec;
        try discriminate.
      intros [= <-]. apply Hch in Ec. destruct Ec as [Hf Hc].
      cbn [Payload.decoded Payload.w_fadc Payload.w_atwd] in *.
      split; [reflexivity|]. split; [discriminate | auto].
    + intros [= <-]. split; [reflexivity|]. split; discriminate.
Qed.

(** X13: the property [fadc].  A hit whose word has bit 15 clear raises
    PayloadException; one built with keep_data=False raises the
    PayloadException of discarded data; the call always ends.  A first
    call that returns gives 256 values and marks the hit as decoded; any
    later call gives the same values from the stored waveforms, without
    decoding and without changing them. *)
Theorem fadc_spec (h : Payload.hit) :
  (Payload.has_fadc h = false ->
   forall ws,
     Payload.fadc h ws
     = Some (Raise (PayloadException "No available fADC" []), ws)) /\
  (forall ws, exists r, Payload.fadc h ws = Some r) /\
  (Payload.has_fadc h = true -> Payload.has_data (Payload.of_hit h) = false ->
   forall ws,
     Payload.decoded ws = false ->
     Payload.fadc h ws = Some (Raise Payload.discarded, ws)) /\
  (forall ws l ws',
     Payload.decoded ws = false ->
     Payload.fadc h ws = Some (Ok l, ws') ->
     length l = 256%nat /\ Payload.decoded ws' = true /\
     Payload.fadc h ws' = Some (Ok l, ws')).
Proof.
  split; [|split; [|split]].
  - intros Hf ws. unfold Payload.fadc. rewrite Hf. reflexivity.
  - intros ws. unfold Payload.fadc.
    destruct (negb (Payload.has_fadc h)); [eauto|].
    destruct (negb (Payload.decoded ws)).
    + destruct (Payload.decode_waveforms h ws) as [[[u|e] ws1]|] eqn:Ed.
      * destruct (Payload.w_fadc ws1); eauto.
      * eauto.
      * exfalso. revert Ed. apply decode_waveforms_not_None.
    + destruct (Payload.w_fadc ws); eauto.
  - intros Hf Hd ws Hdec. unfold Payload.fadc, Payload.decode_waveforms.
    rewrite Hf, Hdec. cbn [negb]. unfold Payload.data_bytes. rewrite Hd.
    reflexivity.
  - intros ws l ws' Hdec. unfold Payload.fadc.
    destruct (Payload.has_fadc h) eqn:Hf; [|discriminate]. cbn [negb].
    rewrite Hdec. cbn [negb].
    destruct (Payload.decode_waveforms h ws) as [[[[]|e] ws1]|] eqn:Ed;
      try discriminate.
    destruct (decode_waveforms_Ok _ _ _ Hdec Ed) as (Hd1 & Hfadc & _).
    destruct (Hfadc Hf) as (l1 & Hl1 & Hlen).
    rewrite Hl1. intros [= <- <-].
    split; [exact Hlen|]. split; [exact Hd1|].
    rewrite Hd1. cbn [negb]. rewrite Hl1. reflexivity.
Qed.

Lemma fadc_spec_witness :
  exists l ws',
    Payload.fadc fadc_hit Payload.no_waveforms = Some (Ok l, ws') /\
    length l = 256%nat /\ Payload.fadc fadc_hit ws' = Some (Ok l, ws').
Proof.
  destruct (fadc_spec fadc_hit) as (_ & _ & _ & H).
  eexists _, _. split; [vm_compute; reflexivity|].
  match goal with
  | |- length ?l = _ /\ _ ?ws = _ =>
      destruct (H Payload.no_waveforms l ws eq_refl)
        as (Hlen & _ & Hagain); [vm_compute; reflexivity|]
  end.
  split; assumption.
Defined.

Lemma index_Ok {A} (l : list A) (i : Z) x :
  Payload.index l i = Ok x ->
  - Z.of_nat (length l) <= i < Z.of_nat (length l) /\
  In x l /\
  (i < 0 -> Payload.index l (i + Z.of_nat (length l)) = Ok x) /\
  (0 <= i -> Payload.index l (i - Z.of_nat (length l)) = Ok x).
Proof.
  unfold Payload.index. cbv zeta. set (n := Z.of_nat (length l)).
  destruct (Z.ltb_spec i 0) as [Hi|Hi].
  - destruct (Z.leb_spec 0 (i + n)); [|discriminate].
    destruct (Z.ltb_spec (i + n) n); [|discriminate]. cbn [andb].
    destruct (nth_error l (Z.to_nat (i + n))) as [y|] eqn:En; [|discriminate].
    intros [= <-]. split; [lia|]. split; [eapply nth_error_In; eassumption|].
    split; [|lia]. intros _.
    destruct (Z.ltb_spec (i + n) 0); [lia|].
    destruct (Z.leb_spec 0 (i + n)); [|lia].
    destruct (Z.ltb_spec (i + n) n); [|lia]. cbn [andb]. rewrite En.
    reflexivity.
  - destruct (Z.leb_spec 0 i); [|discriminate].
    destruct (Z.ltb_spec i n); [|discriminate]. cbn [andb].
    destruct (nth_error l (Z.to_nat i)) as [y|] eqn:En; [|discriminate].
    intros [= <-]. split; [lia|]. split; [eapply nth_error_In; eassumption|].
    split; [lia|]. intros _.
    destruct (Z.ltb_spec (i - n) 0); [|lia].
    replace (i - n + n) with i by lia.
    destruct (Z.leb_spec 0 i); [|lia].
    destruct (Z.ltb_spec i n); [|lia]. cbn [andb]. rewrite En. reflexivity.
Qed.

Lemma index_out {A} (l : list A) (i : Z) :
  i < - Z.of_nat (length l) \/ Z.of_nat (length l) <= i ->
  Payload.index l i = Raise (IndexError "list index out of range").
Proof.
  unfold Payload.index. cbv zeta. intros H.
  repeat match goal with
         | |- context [Z.ltb ?a ?b] => destruct (Z.ltb_spec a b)
         | |- context [Z.leb ?a ?b] => destruct (Z.leb_spec a b)
         end; cbn [andb]; try reflexivity; lia.
Qed.

(** X14: [atwd(channel)].  A hit whose word has bit 14 clear raises
    PayloadException.  A call that returns gives the 128 values of a
    channel; the hit has between one and four channels, and the channel
    is counted from 0 or, when negative, back from the last one.  Once
    the waveforms are decoded, a channel outside that range raises
    IndexError. *)
Theorem atwd_spec (h : Payload.hit) :
  let n := Payload.atwd_channels h + 1 in
  1 <= n <= 4 /\
  (Payload.has_atwd h = false ->
   forall channel ws,
     Payload.atwd h channel ws
     = Some (Raise (PayloadException "No available ATWD channels" []), ws)) /\
  (forall channel ws, exists r, Payload.atwd h channel ws = Some r) /\
  (forall channel ws l ws',
     Payload.decoded ws = false ->
     Payload.atwd h channel ws = Some (Ok l, ws') ->
     length l = 128%nat /\ - n <= channel < n /\
     Payload.decoded ws' = true /\
     Payload.atwd h channel ws' = Some (Ok l, ws') /\
     (channel < 0 -> Payload.atwd h (channel + n) ws' = Some (Ok l, ws')) /\
     (forall other,
        other < - n \/ n <= other ->
        Payload.atwd h other ws'
        = Some (Raise (IndexError "list index out of range"), ws'))).
Proof.
  cbv zeta. pose proof (atwd_channels_range h) as Hr.
  split; [lia|]. split; [|split].
  - intros Hf channel ws. unfold Payload.atwd. rewrite Hf. reflexivity.
  - intros channel ws. unfold Payload.atwd.
    destruct (negb (Payload.has_atwd h)); [eauto|].
    destruct (negb (Payload.decoded ws)).
    + destruct (Payload.decode_waveforms h ws) as [[[u|e] ws1]|] eqn:Ed.
      * destruct (Payload.w_atwd ws1); eauto.
      * eauto.
      * exfalso. revert Ed. apply decode_waveforms_not_None.
    + destruct (Payload.w_atwd ws); eauto.
  - intros channel ws l ws' Hdec. unfold Payload.atwd.
    destruct (Payload.has_atwd h) eqn:Hf; [|discriminate]. cbn [negb].
    rewrite Hdec. cbn [negb].
    destruct (Payload.decode_waveforms h ws) as [[[[]|e] ws1]|] eqn:Ed;
      try discriminate.
    destruct (decode_waveforms_Ok _ _ _ Hdec Ed) as (Hd1 & _ & Hatwd).
    destruct (Hatwd Hf) as (chans & Hc & Hlen & Hall).
    rewrite Hc. intros [= Hi <-]. rewrite Hd1. cbn [negb]. rewrite Hc.
    destruct (index_Ok _ _ _ Hi) as (Hrange & Hin & Hneg & _).
    rewrite Forall_forall in Hall.
    split; [apply Hall, list_elem_of_In, Hin|]. split; [lia|].
    split; [reflexivity|].
    split; [rewrite Hi; reflexivity|]. split.
    + intros Hlt. rewrite <- Hlen, (Hneg Hlt). reflexivity.
    + intros other Ho. rewrite index_out by lia. reflexivity.
Qed.

Lemma atwd_spec_witness :
  exists l ws',
    Payload.atwd atwd_hit (-1) Payload.no_waveforms = Some (Ok l, ws') /\
    length l = 128%nat /\
    Payload.atwd atwd_hit 1 ws' = Some (Ok l, ws') /\
    Payload.atwd atwd_hit 2 ws'
    = Some (Raise (IndexError "list index out of range"), ws').
Proof.
  destruct (atwd_spec atwd_hit) as (_ & _ & _ & H).
  eexists _, _. split; [vm_compute; reflexivity|].
  match goal with
  | |- length ?l = _ /\ _ ?ws = _ /\ _ =>
      destruct (H (-1) Payload.no_waveforms l ws eq_refl)
        as (Hlen & _ & _ & _ & Hneg & Hout); [vm_compute; reflexivity|]
  end.
  split; [exact Hlen|]. split; [apply (Hneg ltac:(lia))|].
  apply Hout. right. vm_compute. discriminate.
Defined.

(** ** payload.py: EventV5 *)

Lemma slice_length (a b : Z) (d : pybytes) :
  length (slice a b d)
  = Nat.min (Z.to_nat (b - a)) (length d - Z.to_nat a).
Proof. unfold slice. rewrite length_firstn, length_skipn. reflexivity. Qed.

Lemma unpack_short fmt (data : pybytes) :
  length data <> Struct.calcsize fmt ->
  Struct.unpack fmt data = Raise SHORT_STRING.
Proof.
  intros H. unfold Struct.unpack.
  destruct (Nat.eqb_spec (length data) (Struct.calcsize fmt)); [contradiction|].
  reflexivity.
Qed.

Lemma unpack_full fmt (data : pybytes) :
  length data = Struct.calcsize fmt ->
  Struct.unpack fmt data = Ok (Struct.unpack_fields fmt data).
Proof.
  intros H. unfold Struct.unpack. rewrite H, Nat.eqb_refl. reflexivity.
Qed.

Lemma unpack_Ok fmt (data : pybytes) vals :
  Struct.unpack fmt data = Ok vals ->
  length data = Struct.calcsize fmt /\ vals = Struct.unpack_fields fmt data.
Proof.
  unfold Struct.unpack.
  destruct (Nat.eqb_spec (length data) (Struct.calcsize fmt));
    [|discriminate].
  intros [= <-]. auto.
Qed.

Ltac slice_len :=
  rewrite ?slice_length;
  unfold Struct.calcsize, Payload.HIT_HEADER_LEN, Payload.TRIG_HEADER_LEN;
  cbn [fold_right Struct.size Nat.add repeat]; lia.

(** X15: the least length [EventV5.__init__] asks for is not enough.  Data
    of fewer than 18 bytes raise PayloadException; data of 18 to 25 bytes
    pass that test and fail in [struct.unpack], as the two record counts
    need 8 bytes more; 26 bytes or more with both counts 0 make an event
    without records. *)
Theorem event_min_length (utime : Z) (d : pybytes) (keep : bool) :
  ((length d < 18)%nat ->
   Payload.EventV5_init utime (Some d) keep = Raise (Payload.too_short 18 d)) /\
  ((18 <= length d < 26)%nat ->
   Payload.EventV5_init utime (Some d) keep
   = Raise (StructError
              "unpack requires a string argument of the right length")) /\
  ((26 <= length d)%nat -> slice 18 26 d = repeat Byte.x00 8 ->
   exists stop year uid run subrun,
     Payload.EventV5_init utime (Some d) keep
     = Ok (Payload.EventV5 (Payload.Payload_init utime (Some d) keep)
             stop year uid run subrun [] [])).
Proof.
  unfold Payload.EventV5_init, Payload.EventV5_MIN_LENGTH.
  split; [|split].
  - intros H. destruct (Z.ltb_spec (Z.of_nat (length d)) 18); [|lia].
    reflexivity.
  - intros H. destruct (Z.ltb_spec (Z.of_nat (length d)) 18); [lia|].
    rewrite unpack_full by slice_len.
    unfold Payload.load_hit_records, mbind, result_bind, bind.
    destruct (Nat.lt_ge_cases (length d) 22) as [Hc|Hc].
    { rewrite unpack_short by slice_len. reflexivity. }
    rewrite unpack_full by slice_len.
    destruct (Z.to_nat _) as [|k]; cbn [Payload.load_hit_loop].
    + unfold Payload.load_trig_records, mbind, result_bind, bind.
      rewrite unpack_short by slice_len. reflexivity.
    + unfold mbind, result_bind, bind.
      rewrite unpack_short by slice_len. reflexivity.
  - intros H Hz. destruct (Z.ltb_spec (Z.of_nat (length d)) 18); [lia|].
    rewrite unpack_full by slice_len.
    assert (slice 18 (18 + 4) d = repeat Byte.x00 4) as Hh.
    { change (slice 18 (18 + 4) d) with (firstn 4 (skipn 18 d)).
      assert (firstn 4 (firstn 8 (skipn 18 d)) = repeat Byte.x00 4) as E
        by (change (firstn 8 (skipn 18 d)) with (slice 18 26 d);
            rewrite Hz; reflexivity).
      rewrite firstn_firstn in E. exact E. }
    assert (slice 22 (22 + 4) d = repeat Byte.x00 4) as Ht.
    { change (slice 22 (22 + 4) d) with (firstn 4 (skipn 22 d)).
      assert (skipn 4 (firstn 8 (skipn 18 d)) = repeat Byte.x00 4) as E
        by (change (firstn 8 (skipn 18 d)) with (slice 18 26 d);
            rewrite Hz; reflexivity).
      rewrite skipn_firstn_comm, skipn_skipn in E. exact E. }
    unfold Payload.load_hit_records, Payload.load_trig_records,
      mbind, result_bind, bind. rewrite Hh.
    change (Struct.unpack [Struct.U32] (repeat Byte.x00 4)) with (Ok [0]).
    cbv beta iota. change (Z.to_nat (item [0] 0)) with O.
    cbn [Payload.load_hit_loop]. change (18 + 4) with 22. rewrite Ht.
    change (Struct.unpack [Struct.U32] (repeat Byte.x00 4)) with (Ok [0]).
    cbv beta iota. change (Z.to_nat (item [0] 0)) with O.
    cbn [Payload.load_trig_loop]. eauto 10.
Qed.

Lemma event_min_length_witness :
  Payload.EventV5_init 5 (Some (repeat Byte.x00 20)) true
  = Raise (StructError "unpack requires a string argument of the right length").
Proof.
  destruct (event_min_length 5 (repeat Byte.x00 20) true) as (_ & H & _).
  apply H. simpl. lia.
Defined.

Lemma unpack_Ok_len fmt (data : pybytes) vals :
  Struct.unpack fmt data = Ok vals -> length data = Struct.calcsize fmt.
Proof. intros H. apply unpack_Ok in H. tauto. Qed.

Lemma be_unsigned_firstn (n : nat) (l : pybytes) :
  0 <= Struct.be_unsigned (firstn n l) < 2 ^ (8 * Z.of_nat n).
Proof.
  pose proof (be_unsigned_bound_le (firstn n l) n (firstn_le_length n l)) as H.
  replace (2 ^ (8 * Z.of_nat n)) with (256 ^ Z.of_nat n); [exact H|].
  change 256 with (2 ^ 8). rewrite <- Z.pow_mul_r by lia. reflexivity.
Qed.

Lemma be_signed_firstn (l : pybytes) :
  - 2 ^ 31 <= Struct.be_signed (firstn 4 l) < 2 ^ 31.
Proof.
  unfold Struct.be_signed.
  pose proof (be_unsigned_bound (firstn 4 l)) as Hb.
  pose proof (firstn_le_length 4 l) as Hl.
  set (u := Struct.be_unsigned (firstn 4 l)) in *.
  destruct (length (firstn 4 l)) as [|[|[|[|[|k]]]]]; [| | | | |lia];
    match goal with
    | |- context [Z.of_nat ?n] =>
        let v := eval compute in (Z.of_nat n) in
        change (Z.of_nat n) with v in *
    end;
    match goal with
    | |- context [u <? ?x] => destruct (Z.ltb_spec u x) as [Hc|Hc]
    end;
    simpl in Hb, Hc |- *; lia.
Qed.

Lemma load_hit_loop_Ok n base (d : pybytes) off recs recs' off' :
  0 <= off ->
  Payload.load_hit_loop n base d off recs = Ok (recs', off') ->
  exists new,
    recs' = recs ++ new /\ length new = n /\
    Forall (hit_record_ok base) new /\
    off + 10 * Z.of_nat n <= off' /\
    (n = O -> off' = off) /\
    (n <> O -> off' <= Z.of_nat (length d)).
Proof.
  revert off recs. induction n as [|n IH]; intros off recs Hoff;
    cbn [Payload.load_hit_loop].
  - intros [= <- <-]. exists []. rewrite app_nil_r.
    repeat split; auto; simpl; try lia; try congruence.
  - unfold mbind, result_bind, bind.
    destruct (Struct.unpack _ (slice off (off + Payload.HIT_HEADER_LEN) d))
      as [hdr|e] eqn:Eh; [|discriminate].
    apply unpack_Ok in Eh. destruct Eh as [Hlen ->].
    rewrite slice_length in Hlen. unfold Payload.HIT_HEADER_LEN in *.
    cbn [Struct.calcsize fold_right Struct.size Nat.add] in Hlen.
    set (hdr := Struct.unpack_fields _ _).
    assert (0 <= item hdr 2 < 2 ^ 8 /\ 0 <= item hdr 3 < 2 ^ 16) as [H2 H3].
    { subst hdr. cbn [Struct.unpack_fields Struct.size item nth].
      split; [apply (be_unsigned_firstn 1) | apply (be_unsigned_firstn 2)]. }
    assert (forall kind,
              hit_record_ok base
                (Payload.BaseHitRecord_init kind base hdr d (off + 10)) /\
              10 <= Payload.hit_record_len
                      (Payload.BaseHitRecord_init kind base hdr d (off + 10)) /\
              off + Payload.hit_record_len
                      (Payload.BaseHitRecord_init kind base hdr d (off + 10))
              <= Z.of_nat (length d)) as Hrec.
    { intros kind. unfold hit_record_ok, Payload.BaseHitRecord_init,
        Payload.hit_record_len, Payload.HIT_HEADER_LEN.
      cbn [Payload.hr_chan_id Payload.hr_flags Payload.hr_utime
           Payload.hr_data].
      split; [split; [reflexivity|split; lia]|].
      destruct (item hdr 0 =? 10); [simpl; lia|].
      rewrite slice_length. lia. }
    assert (forall kind,
              Payload.load_hit_loop n base d
                (off + Payload.hit_record_len
                         (Payload.BaseHitRecord_init kind base hdr d (off + 10)))
                (recs ++ [Payload.BaseHitRecord_init kind base hdr d (off + 10)])
              = Ok (recs', off') ->
              exists new,
                recs' = recs ++ new /\ length new = S n /\
                Forall (hit_record_ok base) new /\
                off + 10 * Z.of_nat (S n) <= off' /\
                (S n = O -> off' = off) /\
                (S n <> O -> off' <= Z.of_nat (length d))) as Hstep.
    { intros kind H. destruct (Hrec kind) as (Hok & Hl & Hu).
      apply IH in H; [|lia].
      destruct H as (new & -> & Hn & Hall & Ho & Hz & Hle).
      eexists (_ :: new). rewrite <- app_assoc. split; [reflexivity|].
      split; [simpl; lia|]. split; [constructor; assumption|].
      split; [lia|]. split; [discriminate|]. intros _.
      destruct n; [rewrite Hz by reflexivity; exact Hu|].
      apply Hle. discriminate. }
    destruct (item hdr 1 =? 0); [apply Hstep|].
    destruct (item hdr 1 =? 1); [apply Hstep | discriminate].
Qed.

Lemma load_hit_index_Ok num (d : pybytes) off acc idxs :
  0 <= off ->
  Payload.load_hit_index num d off acc = Ok idxs ->
  exists new,
    idxs = acc ++ new /\ length new = num /\
    (num <> O -> off + 4 * Z.of_nat num <= Z.of_nat (length d)).
Proof.
  revert off acc. induction num as [|num IH]; intros off acc Hoff;
    cbn [Payload.load_hit_index].
  - intros [= <-]. exists []. rewrite app_nil_r. repeat split; congruence.
  - unfold mbind, result_bind, bind.
    destruct (Struct.unpack _ (slice off (off + 4) d)) as [idx|e] eqn:Ei;
      [|discriminate].
    apply unpack_Ok_len in Ei. rewrite slice_length in Ei.
    cbn [Struct.calcsize fold_right Struct.size Nat.add] in Ei.
    intros H. apply IH in H; [|lia].
    destruct H as (new & -> & Hn & Hle).
    eexists (_ :: new). rewrite <- app_assoc. split; [reflexivity|].
    split; [simpl; lia|]. intros _.
    destruct num; [lia|]. specialize (Hle ltac:(discriminate)). lia.
Qed.

Lemma load_trig_loop_Ok n base (d : pybytes) off recs recs' off' :
  0 <= off ->
  Payload.load_trig_loop n base d off recs = Ok (recs', off') ->
  exists new,
    recs' = recs ++ new /\ length new = n /\
    off' = off + 24 * Z.of_nat n + 4 * Z.of_nat (index_count new) /\
    (n <> O -> off' <= Z.of_nat (length d)).
Proof.
  revert off recs. induction n as [|n IH]; intros off recs Hoff;
    cbn [Payload.load_trig_loop].
  - intros [= <- <-]. exists []. rewrite app_nil_r.
    repeat split; auto; simpl; try lia; try congruence.
  - unfold mbind, result_bind, bind.
    destruct (Struct.unpack _ (slice off (off + Payload.TRIG_HEADER_LEN) d))
      as [hdr|e] eqn:Eh; [|discriminate].
    apply unpack_Ok_len in Eh. rewrite slice_length in Eh.
    unfold Payload.TRIG_HEADER_LEN in *.
    cbn [Struct.calcsize fold_right Struct.size Nat.add repeat] in Eh.
    unfold Payload.TriggerRecord_init, mbind, result_bind, bind.
    destruct (Payload.load_hit_index _ d (off + 24) []) as [idxs|e] eqn:Ei;
      [|discriminate].
    apply load_hit_index_Ok in Ei; [|lia].
    destruct Ei as (new_idx & -> & Hn & Hle). simpl app in *.
    unfold Payload.trigger_record_len, Payload.TRIG_HEADER_LEN.
    cbn [Payload.tr_hit_index].
    intros H. apply IH in H; [|lia].
    destruct H as (new & -> & Hlen & Hoff' & Hle').
    eexists (_ :: new). rewrite <- app_assoc. split; [reflexivity|].
    split; [simpl; lia|]. split.
    { rewrite Hoff'. unfold index_count.
      cbn [fold_right Payload.tr_hit_index]. lia. }
    intros _. destruct n.
    + destruct new; [|discriminate]. rewrite Hoff'.
      unfold index_count. cbn [fold_right]. rewrite Hn in *.
      destruct (Z.to_nat (item hdr 5)); [lia|].
      specialize (Hle ltac:(discriminate)). lia.
    + apply Hle'. discriminate.
Qed.

Lemma EventV5_init_parts utime (d : pybytes) keep p :
  Payload.EventV5_init utime (Some d) keep = Ok p ->
  exists hits trigs off1 off2,
    (18 <= length d)%nat /\
    Payload.load_hit_records utime d 18 = Ok (hits, off1) /\
    Payload.load_trig_records utime d off1 = Ok (trigs, off2) /\
    let hdr := Struct.unpack_fields
                 [Struct.U32; Struct.U16; Struct.U32; Struct.U32; Struct.U32]
                 (slice 0 18 d) in
    p = Payload.EventV5 (Payload.Payload_init utime (Some d) keep)
          (utime + item hdr 0) (item hdr 1) (item hdr 2) (item hdr 3)
          (item hdr 4) hits trigs.
Proof.
  unfold Payload.EventV5_init, Payload.EventV5_MIN_LENGTH.
  destruct (Z.ltb_spec (Z.of_nat (length d)) 18); [discriminate|].
  destruct (Struct.unpack _ (slice 0 18 d)) as [hdr|e] eqn:Eh; [|discriminate].
  apply unpack_Ok in Eh. destruct Eh as [_ ->].
  unfold mbind at 1, result_bind at 1, bind at 1.
  destruct (Payload.load_hit_records utime d 18) as [[hits off1]|e] eqn:E1;
    [|discriminate].
  unfold mbind at 1, result_bind at 1, bind at 1.
  destruct (Payload.load_trig_records utime d off1) as [[trigs off2]|e] eqn:E2;
    [|discriminate].
  unfold mbind, result_bind, bind. intros [= <-].
  exists hits, trigs, off1, off2.
  split; [lia|]. split; [reflexivity|]. split; [exact E2 | reflexivity].
Qed.

Lemma load_hit_records_Ok utime (d : pybytes) hits off1 :
  Payload.load_hit_records utime d 18 = Ok (hits, off1) ->
  Z.of_nat (length hits) = Struct.be_unsigned (slice 18 22 d) /\
  Forall (hit_record_ok utime) hits /\
  22 + 10 * Z.of_nat (length hits) <= off1 <= Z.of_nat (length d).
Proof.
  unfold Payload.load_hit_records, mbind, result_bind, bind.
  destruct (Struct.unpack _ (slice 18 (18 + 4) d)) as [n|e] eqn:En;
    [|discriminate].
  apply unpack_Ok in En. destruct En as [Hlen ->].
  rewrite slice_length in Hlen.
  cbn [Struct.calcsize fold_right Struct.size Nat.add] in Hlen.
  cbn [Struct.unpack_fields Struct.size item nth].
  assert (firstn 4 (slice 18 (18 + 4) d) = slice 18 22 d) as ->
    by (unfold slice; rewrite firstn_firstn; reflexivity).
  intros H. apply load_hit_loop_Ok in H; [|lia].
  destruct H as (new & -> & Hn & Hall & Ho & Hz & Hle).
  simpl app. split.
  { pose proof (be_unsigned_bound (slice 18 22 d)). lia. }
  split; [exact Hall|]. rewrite Hn. split; [lia|].
  destruct (Z.to_nat (Struct.be_unsigned (slice 18 22 d))) as [|k];
    [rewrite Hz by reflexivity; lia|].
  apply Hle. discriminate.
Qed.

Lemma load_trig_records_Ok utime (d : pybytes) off1 trigs off2 :
  0 <= off1 ->
  Payload.load_trig_records utime d off1 = Ok (trigs, off2) ->
  off1 + 4 + 24 * Z.of_nat (length trigs) + 4 * Z.of_nat (index_count trigs)
  <= Z.of_nat (length d).
Proof.
  intros Hoff. unfold Payload.load_trig_records, mbind, result_bind, bind.
  destruct (Struct.unpack _ (slice off1 (off1 + 4) d)) as [n|e] eqn:En;
    [|discriminate].
  apply unpack_Ok_len in En. rewrite slice_length in En.
  cbn [Struct.calcsize fold_right Struct.size Nat.add] in En.
  intros H. apply load_trig_loop_Ok in H; [|lia].
  destruct H as (new & -> & Hn & Ho & Hle). simpl app.
  rewrite <- Hn in Ho, Hle.
  destruct new as [|t new']; [simpl; lia|].
  specialize (Hle ltac:(discriminate)). lia.
Qed.

(** X16: what a successful [EventV5.__init__] has read.  The event starts
    at the time given and stops at most [2^32 - 1] ticks later; it holds
    as many hit records as the count at offset 18 says; and its data are
    long enough for the 18 bytes of the header, the two counts, 10 bytes
    for each hit record, 24 for each trigger record and 4 for each hit
    index of a trigger. *)
Theorem event_init_Ok (utime : Z) (d : pybytes) (keep : bool)
    (p : Payload.payload) :
  Payload.EventV5_init utime (Some d) keep = Ok p ->
  exists stop year uid run subrun hits trigs,
    p = Payload.EventV5 (Payload.Payload_init utime (Some d) keep)
          stop year uid run subrun hits trigs /\
    Payload.utime p = utime /\
    utime <= stop < utime + 2 ^ 32 /\
    0 <= year < 2 ^ 16 /\
    Z.of_nat (length hits) = Struct.be_unsigned (slice 18 22 d) /\
    26 + 10 * Z.of_nat (length hits) + 24 * Z.of_nat (length trigs)
    + 4 * Z.of_nat (index_count trigs) <= Z.of_nat (length d).
Proof.
  intros H. apply EventV5_init_parts in H.
  destruct H as (hits & trigs & off1 & off2 & Hlen & Hh & Ht & ->).
  apply load_hit_records_Ok in Hh. destruct Hh as (Hcount & _ & Ho1).
  apply load_trig_records_Ok in Ht; [|lia].
  eexists _, _, _, _, _, hits, trigs. split; [reflexivity|].
  split; [destruct keep; reflexivity|].
  cbn [Struct.unpack_fields Struct.size item nth].
  pose proof (be_unsigned_firstn 4 (slice 0 18 d)) as H0.
  pose proof (be_unsigned_firstn 2 (skipn 4 (slice 0 18 d))) as H1.
  simpl Z.mul in H0, H1.
  split; [lia|]. split; [lia|]. split; [exact Hcount | lia].
Qed.

Lemma event_init_Ok_witness :
  exists stop year uid run subrun hits trigs,
    Payload.EventV5_init 100 (Some event_with_trigger) true
    = Ok (Payload.EventV5
            (Payload.Payload_init 100 (Some event_with_trigger) true)
            stop year uid run subrun hits trigs) /\
    stop = 116 /\ year = 2018 /\
    length hits = 1%nat /\ length trigs = 1%nat /\
    index_count trigs = 1%nat /\
    100 <= stop < 100 + 2 ^ 32 /\
    0 <= year < 2 ^ 16 /\
    Z.of_nat (length hits)
    = Struct.be_unsigned (slice 18 22 event_with_trigger) /\
    26 + 10 * Z.of_nat (length hits) + 24 * Z.of_nat (length trigs)
    + 4 * Z.of_nat (index_count trigs)
    <= Z.of_nat (length event_with_trigger).
Proof.
  assert (exists p,
            Payload.EventV5_init 100 (Some event_with_trigger) true = Ok p)
    as [p Hp] by (eexists; vm_compute; reflexivity).
  destruct (event_init_Ok 100 event_with_trigger true p Hp)
    as (stop & year & uid & run & subrun & hits & trigs & -> & _ & Hstop &
        Hyear & Hhits & Hlen).
  exists stop, year, uid, run, subrun, hits, trigs.
  split; [exact Hp|].
  assert (stop = 116 /\ year = 2018 /\ length hits = 1%nat /\
          length trigs = 1%nat /\ index_count trigs = 1%nat) as Hval.
  { vm_compute in Hp. injection Hp as <- <- _ _ _ <- <-.
    repeat split. }
  destruct Hval as (H1 & H2 & H3 & H4 & H5).
  split; [exact H1|]. split; [exact H2|]. split; [exact H3|].
  split; [exact H4|]. split; [exact H5|]. split; [exact Hstop|].
  split; [exact Hyear|]. split; [exact Hhits | exact Hlen].
Defined.

(** X17: the hit records of an event, as [BaseHitRecord.__init__] fills
    them: the channel id is the flags byte read a second time, and the
    time is the event time plus the 16-bit field after the flags, so
    within 65535 ticks of it; the 32-bit field that ends the record
    header is not used. *)
Theorem event_hit_records (utime : Z) (d : pybytes) (keep : bool)
    (b : Payload.base) (stop year uid run subrun : Z)
    (hits : list Payload.hit_record) (trigs : list Payload.trigger_record) :
  Payload.EventV5_init utime (Some d) keep
  = Ok (Payload.EventV5 b stop year uid run subrun hits trigs) ->
  Forall (fun r =>
            Payload.hr_chan_id r = Payload.hr_flags r /\
            0 <= Payload.hr_flags r < 2 ^ 8 /\
            utime <= Payload.hr_utime r < utime + 2 ^ 16) hits.
Proof.
  intros H. apply EventV5_init_parts in H.
  destruct H as (hits' & trigs' & off1 & off2 & Hlen & Hh & Ht & Hp).
  cbv zeta in Hp. injection Hp as _ _ _ _ _ _ -> _.
  apply load_hit_records_Ok in Hh. destruct Hh as (_ & Hall & _).
  exact Hall.
Qed.

Lemma event_hit_records_witness :
  exists b r,
    Payload.EventV5_init 100 (Some event_with_hit) true
    = Ok (Payload.EventV5 b 100 0 0 0 0 [r] []) /\
    Payload.hr_flags r = 7 /\ Payload.hr_chan_id r = 7 /\
    Payload.hr_utime r = 105.
Proof.
  eexists _, _. split; [vm_compute; reflexivity|].
  match goal with
  | |- Payload.hr_flags ?r = _ /\ _ =>
      pose proof (event_hit_records 100 event_with_hit true
                    (Payload.mk_base 100 (Some event_with_hit) true)
                    100 0 0 0 0 [r] []) as H
  end.
  specialize (H ltac:(vm_compute; reflexivity)).
  apply Forall_inv in H. destruct H as (Hc & _ & _).
  split; [reflexivity|]. split; [rewrite Hc; reflexivity | reflexivity].
Defined.

(** ** payload.py: PayloadReader *)

Lemma pack_envelope_inv len tid utime env :
  Struct.pack [Struct.U32; Struct.U32; Struct.U64] [len; tid; utime] = Ok env ->
  env = envelope_of len tid utime /\
  0 <= len < 2 ^ 32 /\ 0 <= tid < 2 ^ 32 /\ 0 <= utime < 2 ^ 64.
Proof.
  cbn [Struct.pack]. unfold Struct.in_range.
  destruct (Z.leb_spec 0 len); [|discriminate].
  destruct (Z.ltb_spec len (2 ^ 32)); [|discriminate]. cbn [andb].
  destruct (Z.leb_spec 0 tid); [|discriminate].
  destruct (Z.ltb_spec tid (2 ^ 32)); [|discriminate]. cbn [andb].
  destruct (Z.leb_spec 0 utime); [|discriminate].
  destruct (Z.ltb_spec utime (2 ^ 64)); [|discriminate]. cbn [andb].
  unfold mbind, result_bind, bind. cbn [Struct.size]. rewrite app_nil_r.
  intros [= <-]. unfold envelope_of. repeat split; assumption.
Qed.

Lemma bytes_Ok p bs :
  Payload.bytes p = Ok bs ->
  exists d tid,
    bs = envelope_of (Z.of_nat (length d) + 16) tid (Payload.utime p) ++ d /\
    0 <= Z.of_nat (length d) + 16 < 2 ^ 32.
Proof.
  unfold Payload.bytes.
  destruct (negb (Payload.has_data p)); [discriminate|].
  destruct (Payload.b_data (Payload.base_of p)) as [d|]; [|discriminate].
  destruct (Payload.payload_type_id p) as [tid|]; [|discriminate].
  unfold mbind, result_bind, bind, Payload.ENVELOPE_LENGTH.
  destruct (Struct.pack _ _) as [env|e] eqn:Ep; [|discriminate].
  intros [= <-]. apply pack_envelope_inv in Ep.
  destruct Ep as (-> & Hl & _). eauto.
Qed.

Lemma be_signed_encode_4 v :
  0 <= v < 2 ^ 32 ->
  Struct.be_signed (Struct.be_encode 4 v)
  = if v <? 2 ^ 31 then v else v - 2 ^ 32.
Proof.
  intros Hv. unfold Struct.be_signed. rewrite be_encode_length.
  rewrite be_unsigned_encode by (simpl; lia). reflexivity.
Qed.

(** The three fields of an envelope as [decode_payload] reads them. *)
Lemma unpack_envelope_any len tid utime :
  Struct.unpack [Struct.I32; Struct.I32; Struct.I64] (envelope_of len tid utime)
  = Ok [Struct.be_signed (Struct.be_encode 4 len);
        Struct.be_signed (Struct.be_encode 4 tid);
        Struct.be_signed (Struct.be_encode 8 utime)].
Proof.
  unfold Struct.unpack.
  rewrite envelope_of_length. simpl Nat.eqb. cbv iota.
  unfold envelope_of. cbn [Struct.unpack_fields Struct.size].
  rewrite !skipn_app_exact by apply be_encode_length.
  rewrite !firstn_app_exact by apply be_encode_length.
  rewrite firstn_all2 by (rewrite be_encode_length; lia). reflexivity.
Qed.

Lemma decode_payload_rest p bs keep r rest :
  Payload.bytes p = Ok bs ->
  Payload.decode_payload bs keep = Ok (r, []) ->
  Payload.decode_payload (bs ++ rest) keep = Ok (r, rest).
Proof.
  intros Hb. apply bytes_Ok in Hb. destruct Hb as (d & tid & -> & Hlen).
  unfold Payload.decode_payload. rewrite <- app_assoc.
  rewrite !read_envelope by apply envelope_of_length.
  rewrite envelope_of_length. simpl Nat.eqb. cbv iota.
  rewrite unpack_envelope_any.
  unfold mbind, result_bind, bind.
  unfold item. cbn [nth]. rewrite be_signed_encode_4 by exact Hlen.
  set (L := if Z.of_nat (length d) + 16 <? 2 ^ 31
            then Z.of_nat (length d) + 16
            else Z.of_nat (length d) + 16 - 2 ^ 32).
  set (T := Struct.be_signed (Struct.be_encode 4 tid)).
  set (U := Struct.be_signed (Struct.be_encode 8 (Payload.utime p))).
  unfold Payload.ENVELOPE_LENGTH.
  destruct (Z.leb_spec L 16) as [HL|HL].
  - destruct (if T =? _ then _ else _) as [pay|e]; [|discriminate].
    intros [= <- ->]. reflexivity.
  - assert (L = Z.of_nat (length d) + 16) as HLd
      by (subst L; destruct (Z.ltb_spec (Z.of_nat (length d) + 16) (2 ^ 31));
          lia).
    unfold Payload.read. rewrite HLd.
    replace (Z.to_nat (Z.of_nat (length d) + 16 - 16)) with (length d) by lia.
    rewrite firstn_all, skipn_all, firstn_app_exact, skipn_app_exact
      by reflexivity.
    destruct (if T =? _ then _ else _) as [pay|e]; [|discriminate].
    intros [= <-]. reflexivity.
Qed.

(** X18: the bytes of a payload are a frame of their own: if they decode
    to a payload when they are the whole stream, they decode to the same
    payload in front of any other bytes, and those bytes are left on the
    stream. *)
Theorem decode_payload_framing (p : Payload.payload) (bs : pybytes)
    (keep : bool) (p' : Payload.payload) (rest : pybytes) :
  Payload.bytes p = Ok bs ->
  Payload.decode_payload bs keep = Ok (Some p', []) ->
  Payload.decode_payload (bs ++ rest) keep = Ok (Some p', rest).
Proof. apply decode_payload_rest. Qed.

Lemma decode_payload_framing_witness :
  exists bs p',
    Payload.bytes sample_hit = Ok bs /\
    Payload.decode_payload (bs ++ [Byte.x07; Byte.x08]) true
    = Ok (Some p', [Byte.x07; Byte.x08]).
Proof.
  eexists _, _. split; [vm_compute; reflexivity|].
  apply (decode_payload_framing sample_hit); vm_compute; reflexivity.
Defined.

Lemma unpack_envelope_stream (s : pybytes) :
  (16 <= length s)%nat ->
  Struct.unpack [Struct.I32; Struct.I32; Struct.I64] (firstn 16 s)
  = Ok [Struct.be_signed (slice 0 4 s); Struct.be_signed (slice 4 8 s);
        Struct.be_signed (slice 8 16 s)].
Proof.
  intros H. rewrite unpack_full
    by (rewrite length_firstn;
        cbn [Struct.calcsize fold_right Struct.size Nat.add]; lia).
  cbn [Struct.unpack_fields Struct.size]. unfold slice.
  rewrite !skipn_skipn. simpl Nat.add.
  change (Z.to_nat (4 - 0)) with 4%nat. change (Z.to_nat (8 - 4)) with 4%nat.
  change (Z.to_nat (16 - 8)) with 8%nat. change (Z.to_nat 0) with 0%nat.
  change (Z.to_nat 4) with 4%nat. change (Z.to_nat 8) with 8%nat.
  rewrite !firstn_skipn_firstn by lia.
  rewrite firstn_firstn. reflexivity.
Qed.

(** X19: [decode_payload] at the ends of a stream.  On an empty stream it
    returns None; a stream of 1 to 15 bytes raises [struct.error].  With
    16 bytes or more and a type other than 3 and 21 it never fails: it
    returns an UnknownPayload that holds the bytes the length field asks
    for, or however many of them the stream still has, and no data at all
    when the length is 16 or less.  With type 3 or 21 and a length of 16
    or less the constructor is given None and raises TypeError. *)
Theorem decode_payload_edges (s : pybytes) (keep : bool) :
  let len := Struct.be_signed (slice 0 4 s) in
  let tid := Struct.be_signed (slice 4 8 s) in
  let utime := Struct.be_signed (slice 8 16 s) in
  (s = [] -> Payload.decode_payload s keep = Ok (None, [])) /\
  ((0 < length s < 16)%nat ->
   Payload.decode_payload s keep
   = Raise (StructError
              "unpack requires a string argument of the right length")) /\
  ((16 <= length s)%nat -> tid <> 3 -> tid <> 21 ->
   Payload.decode_payload s keep
   = Ok (Some (Payload.UnknownPayload tid
                 (Payload.Payload_init utime
                    (if len <=? 16 then None
                     else Some (firstn (Z.to_nat (len - 16)) (skipn 16 s)))
                    keep)),
         skipn (16 + Z.to_nat (len - 16)) s)) /\
  ((16 <= length s)%nat -> len <= 16 -> tid = 3 \/ tid = 21 ->
   Payload.decode_payload s keep
   = Raise (TypeError "object of type NoneType has no len()")).
Proof.
  cbv zeta. split; [|split; [|split]].
  - intros ->. reflexivity.
  - intros H. unfold Payload.decode_payload, Payload.read,
      Payload.ENVELOPE_LENGTH.
    change (Z.to_nat 16) with 16%nat.
    destruct (Nat.eqb_spec (length (firstn 16 s)) 0) as [E|E].
    { rewrite length_firstn in E. lia. }
    rewrite unpack_short
      by (rewrite length_firstn;
          cbn [Struct.calcsize fold_right Struct.size Nat.add]; lia).
    reflexivity.
  - intros H H3 H21. unfold Payload.decode_payload, Payload.read,
      Payload.ENVELOPE_LENGTH.
    change (Z.to_nat 16) with 16%nat.
    destruct (Nat.eqb_spec (length (firstn 16 s)) 0) as [E|E].
    { rewrite length_firstn in E. lia. }
    rewrite unpack_envelope_stream by exact H.
    unfold mbind, result_bind, bind, item. cbn [nth].
    unfold Payload.DeltaCompressedHit_TYPE_ID, Payload.EventV5_TYPE_ID.
    apply Z.eqb_neq in H3, H21. rewrite H3, H21.
    unfold Payload.UnknownPayload_init.
    destruct (Z.leb_spec (Struct.be_signed (slice 0 4 s)) 16) as [HL|HL].
    + replace (Z.to_nat (Struct.be_signed (slice 0 4 s) - 16)) with O by lia.
      rewrite Nat.add_0_r. reflexivity.
    + rewrite skipn_skipn, (Nat.add_comm _ 16). reflexivity.
  - intros H HL Ht. unfold Payload.decode_payload, Payload.read,
      Payload.ENVELOPE_LENGTH.
    change (Z.to_nat 16) with 16%nat.
    destruct (Nat.eqb_spec (length (firstn 16 s)) 0) as [E|E].
    { rewrite length_firstn in E. lia. }
    rewrite unpack_envelope_stream by exact H.
    unfold mbind, result_bind, bind, item. cbn [nth].
    destruct (Z.leb_spec (Struct.be_signed (slice 0 4 s)) 16); [|lia].
    destruct Ht as [-> | ->]; reflexivity.
Qed.

Lemma decode_payload_edges_witness :
  Payload.decode_payload
    (envelope_of 100 7 5 ++ [Byte.x01; Byte.x02]) true
  = Ok (Some (Payload.UnknownPayload 7
                (Payload.mk_base 5 (Some [Byte.x01; Byte.x02]) true)), []).
Proof.
  destruct (decode_payload_edges
              (envelope_of 100 7 5 ++ [Byte.x01; Byte.x02]) true)
    as (_ & _ & H & _).
  rewrite H; [reflexivity | simpl; lia | vm_compute; discriminate
             | vm_compute; discriminate].
Defined.

(** What [decode_payload] leaves of the stream, and that it takes at
    least an envelope when it returns a payload. *)
Lemma decode_payload_Ok s keep r s' :
  Payload.decode_payload s keep = Ok (r, s') ->
  s' = Payload.stream_after s /\
  (r <> None -> (length s' + 16 <= length s)%nat).
Proof.
  unfold Payload.decode_payload, Payload.stream_after, Payload.read,
    Payload.ENVELOPE_LENGTH.
  change (Z.to_nat 16) with 16%nat.
  destruct (Nat.eqb_spec (length (firstn 16 s)) 0) as [E|E].
  { intros [= <- <-]. split; [reflexivity | congruence]. }
  destruct (Struct.unpack _ (firstn 16 s)) as [env|e] eqn:Eu; [|discriminate].
  apply unpack_Ok_len in Eu.
  cbn [Struct.calcsize fold_right Struct.size Nat.add] in Eu.
  rewrite length_firstn in Eu.
  unfold mbind, result_bind, bind.
  destruct (item env 0 <=? 16).
  - destruct (if item env 1 =? _ then _ else _) as [pay|e]; [|discriminate].
    intros [= <- <-]. split; [reflexivity|]. intros _.
    rewrite length_skipn. lia.
  - destruct (if item env 1 =? _ then _ else _) as [pay|e]; [|discriminate].
    intros [= <- <-]. split; [reflexivity|]. intros _.
    cbn [snd]. rewrite !length_skipn. lia.
Qed.

Lemma iter_loop_enough fuel r :
  (length (default [] (Payload.fin r)) <= fuel)%nat ->
  Payload.iter_loop fuel r <> None.
Proof.
  revert r. induction fuel as [|fuel IH]; intros r Hf;
    cbn [Payload.iter_loop];
    (destruct (Payload.fin r) as [s|] eqn:Es; [|discriminate]);
    unfold Payload.next_open;
    (destruct (Payload.decode_payload s (Payload.keep_data r))
       as [[[pay|] s']|e] eqn:Ed; try discriminate);
    apply decode_payload_Ok in Ed; destruct Ed as [_ Hd];
    specialize (Hd ltac:(discriminate)); simpl in Hf.
  - lia.
  - destruct (Payload.iter_loop fuel _) as [[[pays res] r'']|] eqn:Ei;
      [discriminate|].
    exfalso. revert Ei. apply IH. simpl. lia.
Qed.

Lemma iter_loop_concat fuel keep n (bss : list pybytes)
    (ps ps' : list Payload.payload) :
  Forall2 (fun p bs => Payload.bytes p = Ok bs) ps bss ->
  Forall2 (fun bs p' => Payload.decode_payload bs keep = Ok (Some p', []))
          bss ps' ->
  (length bss <= fuel)%nat ->
  Payload.iter_loop fuel (Payload.mk_reader (Some (concat bss)) keep n)
  = Some (ps', Ok tt,
          Payload.mk_reader (Some []) keep (n + Z.of_nat (length ps) + 1)).
Proof.
  intros H1. revert fuel n ps'.
  induction H1 as [|p bs ps bss Hp _ IH]; intros fuel n ps' H2 Hf.
  - apply Forall2_nil_inv_l in H2. subst ps'.
    replace (n + Z.of_nat (@length Payload.payload []) + 1) with (n + 1)
      by (simpl; lia).
    destruct fuel; reflexivity.
  - apply Forall2_cons_inv_l in H2.
    destruct H2 as (p' & ps'' & Hd & H2 & ->).
    destruct fuel as [|fuel]; [simpl in Hf; lia|].
    cbn [Payload.iter_loop Payload.fin concat].
    unfold Payload.next_open. cbn [Payload.keep_data Payload.num_read].
    rewrite (decode_payload_rest p bs keep (Some p') (concat bss) Hp Hd).
    cbv beta iota.
    specialize (IH fuel (n + 1) ps'' H2 ltac:(simpl in Hf; lia)).
    unfold pybytes in *. rewrite IH.
    change (length (p :: ps)) with (S (length ps)).
    replace (n + 1 + Z.of_nat (length ps) + 1)
      with (n + Z.of_nat (S (length ps)) + 1) by lia.
    reflexivity.
Qed.

Lemma frames_length keep (bss : list pybytes) (ps' : list Payload.payload) :
  Forall2 (fun bs p' => Payload.decode_payload bs keep = Ok (Some p', []))
          bss ps' ->
  (length bss <= length (concat bss))%nat.
Proof.
  induction 1 as [|bs p' bss ps' Hd _ IH]; [simpl; lia|].
  apply decode_payload_Ok in Hd. destruct Hd as [_ Hd].
  specialize (Hd ltac:(discriminate)).
  cbn [concat length]. rewrite length_app. simpl in Hd. lia.
Qed.

(** X20: reading back what was written.  A stream made of the bytes of
    payloads, each of which decodes when alone, yields on iteration the
    decoded payloads in order and ends without error at the end of the
    stream; the reader then counts one payload more than it gave, the
    read that met the end being counted too.  Iteration ends on every
    stream. *)
Theorem reader_iter_roundtrip (keep : bool) (ps : list Payload.payload)
    (bss : list pybytes) (ps' : list Payload.payload) :
  (forall r, exists out, Payload.iter r = Some out) /\
  (Forall2 (fun p bs => Payload.bytes p = Ok bs) ps bss ->
   Forall2 (fun bs p' => Payload.decode_payload bs keep = Ok (Some p', []))
           bss ps' ->
   exists r',
     Payload.iter (Payload.reader_of (concat bss) keep)
     = Some (ps', Ok tt, r') /\
     Payload.fin r' = Some [] /\
     Payload.nrec r' = Z.of_nat (length ps') + 1).
Proof.
  split.
  - intros r. unfold Payload.iter.
    destruct (Payload.iter_loop _ r) as [out|] eqn:E; [eauto|].
    exfalso. revert E. apply iter_loop_enough. lia.
  - intros H1 H2. unfold Payload.iter, Payload.reader_of.
    cbn [Payload.fin default from_option id].
    eexists. split; [|split].
    + apply (iter_loop_concat _ keep 0 bss ps ps' H1 H2).
      eapply frames_length; eassumption.
    + reflexivity.
    + unfold Payload.nrec. cbn [Payload.num_read].
      apply Forall2_length in H1, H2. lia.
Qed.

Lemma reader_iter_roundtrip_witness :
  exists r',
    Payload.iter (Payload.reader_of (concat sample_frames) true)
    = Some ([sample_event; decoded_hit], Ok tt, r') /\
    Payload.nrec r' = 3.
Proof.
  destruct (reader_iter_roundtrip true [sample_event; sample_hit]
              sample_frames [sample_event; decoded_hit]) as [_ H].
  destruct H as (r' & Hi & _ & Hn).
  - repeat constructor; vm_compute; reflexivity.
  - repeat constructor; vm_compute; reflexivity.
  - exists r'. split; [exact Hi | exact Hn].
Defined.

(** *** The loop of main *)

Lemma dump_loop_iter fuel m r ps res r' :
  Payload.iter_loop fuel r = Some (ps, res, r') ->
  Payload.dump_loop fuel None r = Some (ps, res, r') /\
  exists res' r'',
    Payload.dump_loop fuel (Some m) r
    = Some (firstn (Z.to_nat (m - 1 - Payload.nrec r)) ps, res', r'') /\
    ((length ps <= Z.to_nat (m - 1 - Payload.nrec r))%nat ->
     res' = res /\ r'' = r') /\
    ((Z.to_nat (m - 1 - Payload.nrec r) < length ps)%nat ->
     res' = Ok tt /\
     Payload.nrec r''
     = Payload.nrec r + Z.of_nat (Z.to_nat (m - 1 - Payload.nrec r)) + 1).
Proof.
  revert r ps. induction fuel as [|fuel IH]; intros r ps;
    cbn [Payload.iter_loop Payload.dump_loop];
    (destruct (Payload.fin r) as [s|] eqn:Es;
     [|intros [= <- <- <-]; split; [reflexivity|];
       eexists _, _; rewrite firstn_nil; split; [reflexivity|];
       split; [auto | simpl; lia]]);
    (destruct (Payload.next_open s r) as [[[pay|]|e] r1] eqn:En;
     [| intros [= <- <- <-]; split; [reflexivity|];
        eexists _, _; rewrite firstn_nil; split; [reflexivity|];
        split; [auto | simpl; lia]
      | intros [= <- <- <-]; split; [reflexivity|];
        eexists _, _; rewrite firstn_nil; split; [reflexivity|];
        split; [auto | simpl; lia]]).
  - discriminate.
  - destruct (Payload.iter_loop fuel r1) as [[[pays res1] r2]|] eqn:Ei;
      [|discriminate].
    intros [= <- <- <-].
    destruct (IH _ _ Ei) as (Hnone & res' & r'' & Hsome & Hall & Hcut).
    rewrite Hnone. split; [reflexivity|].
    assert (Payload.nrec r1 = Payload.nrec r + 1) as Hn.
    { revert En. unfold Payload.next_open.
      destruct (Payload.decode_payload s (Payload.keep_data r))
        as [[pay' s']|e]; intros [= _ <-]; reflexivity. }
    rewrite Hn in *.
    destruct (Z.leb_spec m (Payload.nrec r + 1)) as [Hm|Hm].
    + replace (Z.to_nat (m - 1 - Payload.nrec r)) with O by lia.
      eexists _, _. split; [reflexivity|]. simpl.
      split; [lia|]. intros _. split; [reflexivity | lia].
    + rewrite Hsome.
      replace (Z.to_nat (m - 1 - Payload.nrec r))
        with (S (Z.to_nat (m - 1 - (Payload.nrec r + 1)))) by lia.
      eexists _, _. split; [reflexivity|]. simpl length.
      split; [intros H; apply Hall; lia|].
      intros H. destruct (Hcut ltac:(lia)) as [-> ->].
      split; [reflexivity | lia].
Qed.

(** X21: the loop of [main].  Without a limit it prints every payload
    the reader yields.  With [-n max_payloads] it stops as soon as the
    count of the reader, which already includes the payload in hand,
    reaches the limit: from a new reader it prints the first
    [max_payloads - 1] payloads, not [max_payloads], and none for a limit
    of 1. *)
Theorem main_dump_limit (r : Payload.reader) (ps : list Payload.payload)
    (res : result unit) (r' : Payload.reader) (max_payloads : Z) :
  Payload.iter r = Some (ps, res, r') ->
  Payload.dump None r = Some (ps, res, r') /\
  exists res' r'',
    Payload.dump (Some max_payloads) r
    = Some (firstn (Z.to_nat (max_payloads - 1 - Payload.nrec r)) ps,
            res', r'') /\
    ((Z.to_nat (max_payloads - 1 - Payload.nrec r) < length ps)%nat ->
     res' = Ok tt) /\
    ((length ps <= Z.to_nat (max_payloads - 1 - Payload.nrec r))%nat ->
     res' = res /\ r'' = r').
Proof.
  unfold Payload.iter, Payload.dump. intros H.
  destruct (dump_loop_iter _ max_payloads _ _ _ _ H)
    as (Hnone & res' & r'' & Hsome & Hall & Hcut).
  split; [exact Hnone|]. exists res', r''.
  split; [exact Hsome|]. split; [|exact Hall].
  intros Hlt. apply Hcut, Hlt.
Qed.

Lemma main_dump_limit_witness :
  exists res' r'',
    Payload.dump (Some 2) (Payload.reader_of (concat sample_frames) true)
    = Some ([sample_event], res', r'').
Proof.
  destruct (main_dump_limit
              (Payload.reader_of (concat sample_frames) true)
              [sample_event; decoded_hit] (Ok tt)
              (Payload.mk_reader (Some []) true 3) 2
              ltac:(vm_compute; reflexivity))
    as (_ & res' & r'' & Hd & _).
  exists res', r''. exact Hd.
Defined.

(** ** HsSenderTest.py: check_hitspool_file_list *)

Lemma string_leb_trans (a b c : string) :
  String.leb a b = true -> String.leb b c = true -> String.leb a c = true.
Proof.
  unfold String.leb. revert b c.
  induction a as [|x a IH]; intros [|y b] [|z c]; simpl; try congruence.
  unfold Ascii.compare.
  destruct (N.compare_spec (N_of_ascii x) (N_of_ascii y)) as [E1|L1|G1];
    try congruence;
  destruct (N.compare_spec (N_of_ascii y) (N_of_ascii z)) as [E2|L2|G2];
    try congruence;
  destruct (N.compare_spec (N_of_ascii x) (N_of_ascii z)) as [E3|L3|G3];
    try congruence; try lia; auto.
  apply IH.
Qed.

#[local] Instance str_le_trans : Transitive HsSenderTest.str_le.
Proof. intros a b c. apply string_leb_trans. Qed.

#[local] Instance str_le_total : Total HsSenderTest.str_le.
Proof. intros a b. apply String.leb_total. Qed.

#[local] Instance str_le_antisym : AntiSymm eq HsSenderTest.str_le.
Proof. intros a b. apply String.leb_antisym. Qed.

Lemma check_loop_Passed fnums firstfile numfiles flist :
  fst (HsSenderTest.check_loop fnums firstfile numfiles flist)
  = HsSenderTest.Passed <->
  flist = map HsSenderTest.hitspool_name fnums.
Proof.
  revert flist. induction fnums as [|fnum rest IH]; intros flist;
    cbn [HsSenderTest.check_loop].
  - destruct flist; simpl; split; congruence.
  - cbv zeta. destruct flist as [|first flist']; [simpl; split; congruence|].
    destruct (String.eqb_spec (HsSenderTest.hitspool_name fnum) first)
      as [<-|Hne]; cbn [negb].
    + rewrite IH. simpl. split; congruence.
    + simpl. split; [discriminate | congruence].
Qed.

Lemma check_loop_left fnums firstfile numfiles flist :
  fst (HsSenderTest.check_loop fnums firstfile numfiles flist)
  = HsSenderTest.Passed ->
  snd (HsSenderTest.check_loop fnums firstfile numfiles flist) = [].
Proof.
  revert flist. induction fnums as [|fnum rest IH]; intros flist;
    cbn [HsSenderTest.check_loop].
  - destruct flist; simpl; [reflexivity | discriminate].
  - cbv zeta. destruct flist as [|first flist']; [discriminate|].
    destruct (negb _); [discriminate | apply IH].
Qed.

(** X22: [check_hitspool_file_list] passes exactly when the list holds
    the expected names, each once and in any order, and those names are
    in ascending string order themselves: the list is sorted as strings
    and then compared with the names in numeric order.  When it passes,
    the caller's list is left empty. *)
Theorem check_hitspool_file_list_spec (flist : list string)
    (firstfile numfiles : Z) :
  let names := map HsSenderTest.hitspool_name
                 (HsSenderTest.file_numbers firstfile numfiles) in
  let out := HsSenderTest.check_hitspool_file_list flist firstfile numfiles in
  (fst out = HsSenderTest.Passed <->
   flist ≡ₚ names /\ Sorted HsSenderTest.str_le names) /\
  (fst out = HsSenderTest.Passed -> snd out = []).
Proof.
  cbv zeta. unfold HsSenderTest.check_hitspool_file_list.
  split; [|apply check_loop_left]. rewrite check_loop_Passed.
  unfold HsSenderTest.sort. split.
  - intros H. split.
    + rewrite <- H. symmetry. apply merge_sort_Permutation.
    + rewrite <- H. apply Sorted_merge_sort. apply _.
  - intros [Hp Hs]. apply (Sorted_unique HsSenderTest.str_le).
    + apply Sorted_merge_sort. apply _.
    + exact Hs.
    + rewrite merge_sort_Permutation. exact Hp.
Qed.

(** The files 9 and 10 are all there, and the check fails: as strings,
    "HitSpool-10" comes before "HitSpool-9". *)
Lemma check_hitspool_file_list_witness :
  fst (HsSenderTest.check_hitspool_file_list
         ["HitSpool-12"; "HitSpool-11"; "HitSpool-13"] 11 3)
  = HsSenderTest.Passed /\
  fst (HsSenderTest.check_hitspool_file_list
         ["HitSpool-9"; "HitSpool-10"] 9 2)
  = HsSenderTest.TestException
      ("Expected file #%d to be " +:+ dq +:+ "%s" +:+ dq +:+
       " not " +:+ dq +:+ "%s" +:+ dq)
      [PyInt 0; PyStr "HitSpool-9"; PyStr "HitSpool-10"].
Proof.
  split; [|vm_compute; reflexivity].
  apply (check_hitspool_file_list_spec
           ["HitSpool-12"; "HitSpool-11"; "HitSpool-13"] 11 3).
  split.
  - change (["HitSpool-12"; "HitSpool-11"; "HitSpool-13"]
            ≡ₚ ["HitSpool-11"; "HitSpool-12"; "HitSpool-13"]).
    apply perm_swap.
  - repeat constructor.
Defined.

(** ** HsUtil.get_daq_ticks: where the floats are exact *)

Lemma digits2_log2 (p : positive) :
  Z.pos (digits2_pos p) = Z.log2 (Z.pos p) + 1.
Proof.
  assert (forall q, digits2_pos q = Pos.size q) as Hs
    by (induction q; simpl; congruence).
  rewrite Hs. destruct p; simpl; lia.
Qed.

Lemma iter_pos_nat {A} (f : A -> A) (n : positive) (x : A) :
  SpecFloat.iter_pos f n x = Nat.iter (Pos.to_nat n) f x.
Proof.
  revert x.
  induction n as [n IH|n IH|]; intros x; cbn [SpecFloat.iter_pos].
  - rewrite !IH, Pos2Nat.inj_xI, <- Nat.iter_add, <- Nat.iter_succ_r.
    f_equal. lia.
  - rewrite !IH, Pos2Nat.inj_xO, <- Nat.iter_add. f_equal. lia.
  - reflexivity.
Qed.

Lemma shr_1_exact (k : nat) (m q : positive) :
  Z.pos m = Z.pos q * 2 ^ Z.of_nat k ->
  Nat.iter k shr_1 (Build_shr_record (Z.pos m) false false)
  = Build_shr_record (Z.pos q) false false.
Proof.
  revert m. induction k as [|k IH]; intros m Hm.
  - simpl in *. f_equal. lia.
  - rewrite Nat.iter_succ_r. rewrite Nat2Z.inj_succ, Z.pow_succ_r in Hm by lia.
    destruct m as [m|m|]; try lia.
    simpl shr_1. apply IH. lia.
Qed.

Lemma pos_iter_xO (m d : positive) :
  Z.pos (Pos.iter xO m d) = Z.pos m * 2 ^ Z.pos d.
Proof.
  induction d as [|d IH] using Pos.peano_ind.
  - simpl. lia.
  - rewrite Pos.iter_succ, Pos2Z.inj_xO, IH, Pos2Z.inj_succ, Z.pow_succ_r
      by lia.
    ring.
Qed.

Lemma fexp_small (d : Z) : -1021 <= d -> fexp 53 1024 d = d - 53.
Proof. unfold fexp, emin. lia. Qed.

Lemma shr_fexp_exact (m q : positive) (e e' : Z) :
  e <= e' -> Z.pos m = Z.pos q * 2 ^ (e' - e) ->
  Z.log2 (Z.pos q) = 52 -> -1021 <= e' + 53 ->
  shr_fexp 53 1024 (Z.pos m) e loc_Exact
  = (Build_shr_record (Z.pos q) false false, e').
Proof.
  intros He Hm Hq He'.
  assert (Z.log2 (Z.pos m) = e' - e + Z.log2 (Z.pos q)) as Hlm
    by (rewrite Hm; apply Z.log2_mul_pow2; lia).
  unfold shr_fexp, Zdigits2, shr_record_of_loc.
  rewrite digits2_log2, fexp_small by lia.
  replace (Z.log2 (Z.pos m) + 1 + e - 53 - e) with (e' - e) by lia.
  unfold shr. destruct (e' - e) as [|p|p] eqn:Hd; [| |lia].
  - f_equal; [f_equal|]; lia.
  - rewrite iter_pos_nat. f_equal; [|lia].
    apply shr_1_exact. rewrite positive_nat_Z. exact Hm.
Qed.

Lemma holds_finite (s : bool) (q : positive) (n : Z) :
  0 < n < 2 ^ 53 -> Z.pos q = n * 2 ^ (52 - Z.log2 n) ->
  holds (S754_finite s q (Z.log2 n - 52)) (if s then - n else n).
Proof.
  intros Hn Hq.
  assert (Z.log2 n < 53) by (apply Z.log2_lt_pow2; lia).
  unfold holds.
  assert (Z.abs (if s then - n else n) = n) as -> by (destruct s; lia).
  repeat split; try (destruct s; lia).
  rewrite Hq. do 2 f_equal. lia.
Qed.

Lemma round_aux_holds (s : bool) (m : positive) (e n : Z) :
  0 < n < 2 ^ 53 -> e <= Z.log2 n - 52 -> Z.pos m = n * 2 ^ (- e) ->
  holds (binary_round_aux 53 1024 s (Z.pos m) e loc_Exact)
        (if s then - n else n).
Proof.
  intros Hn He Hm.
  assert (0 <= Z.log2 n) by apply Z.log2_nonneg.
  assert (Z.log2 n < 53) by (apply Z.log2_lt_pow2; lia).
  set (e' := Z.log2 n - 52) in *.
  assert (0 < n * 2 ^ (52 - Z.log2 n)) as Hpos
    by (apply Z.mul_pos_pos; [lia | apply Z.pow_pos_nonneg; lia]).
  destruct (n * 2 ^ (52 - Z.log2 n)) as [|q|q] eqn:Hq; try lia.
  assert (Z.log2 (Z.pos q) = 52) as Hlq
    by (rewrite <- Hq, Z.log2_mul_pow2; lia).
  assert (Z.pos m = Z.pos q * 2 ^ (e' - e)) as Hmq.
  { rewrite Hm, <- Hq, <- Z.mul_assoc, <- Z.pow_add_r by lia.
    do 2 f_equal. lia. }
  unfold binary_round_aux.
  rewrite (shr_fexp_exact m q e e') by lia.
  cbn [shr_m loc_of_shr_record round_nearest_even].
  rewrite (shr_fexp_exact q q e' e') by (rewrite ?Z.sub_diag; lia).
  cbn [shr_m].
  replace (e' <=? 1024 - 53) with true by lia.
  apply holds_finite; [lia | symmetry; exact Hq].
Qed.

Lemma round_holds (s : bool) (p : positive) (e n : Z) :
  0 < n < 2 ^ 53 -> e <= 0 -> Z.pos p = n * 2 ^ (- e) ->
  holds (binary_round 53 1024 s p e) (if s then - n else n).
Proof.
  intros Hn He Hp.
  assert (0 <= Z.log2 n) by apply Z.log2_nonneg.
  assert (Z.log2 (Z.pos p) = - e + Z.log2 n) as Hlp
    by (rewrite Hp; apply Z.log2_mul_pow2; lia).
  unfold binary_round, shl_align.
  rewrite digits2_log2, fexp_small by lia.
  destruct (Z.log2 (Z.pos p) + 1 + e - 53 - e) as [|d|d] eqn:Hd.
  - apply round_aux_holds; [lia | lia | exact Hp].
  - apply round_aux_holds; [lia | lia | exact Hp].
  - apply round_aux_holds; [lia | lia |].
    rewrite pos_iter_xO, Hp, <- Z.mul_assoc, <- Z.pow_add_r by lia.
    do 2 f_equal. rewrite <- Hp. lia.
Qed.

Lemma normalize_holds (z e n : Z) :
  Z.abs n < 2 ^ 53 -> e <= 0 -> z = n * 2 ^ (- e) ->
  holds (binary_normalize 53 1024 z e false) n.
Proof.
  intros Hn He Hz.
  assert (0 < 2 ^ (- e)) by (apply Z.pow_pos_nonneg; lia).
  destruct z as [|p|p]; cbn [binary_normalize].
  - simpl. nia.
  - assert (0 < n) by nia.
    apply (round_holds false p e n); [lia | lia | exact Hz].
  - assert (n < 0) by nia.
    rewrite <- (Z.opp_involutive n).
    apply (round_holds true p e (- n)); [lia | lia |].
    rewrite Z.mul_opp_l, <- Hz. reflexivity.
Qed.

Lemma literal_holds (z : Z) :
  Z.abs z < 2 ^ 53 -> holds (PyFloat.literal z) z.
Proof.
  intros Hz. apply normalize_holds; [exact Hz | lia |].
  simpl. lia.
Qed.

Lemma of_int_holds (z : Z) :
  Z.abs z < 2 ^ 53 ->
  exists f, PyFloat.of_int z = Ok f /\ holds f z.
Proof.
  intros Hz. pose proof (literal_holds z Hz) as Hh.
  unfold PyFloat.of_int. unfold PyFloat.literal in Hh.
  destruct (binary_normalize PyFloat.prec PyFloat.emax z 0 false) as [| | |s m e];
    try contradiction; eexists; (split; [reflexivity | exact Hh]).
Qed.

Lemma to_int_holds (f : PyFloat.float) (n : Z) :
  holds f n -> PyFloat.to_int f = Ok n.
Proof.
  destruct f as [s|s| |s m e]; simpl; try contradiction.
  - intros ->. reflexivity.
  - intros (Hn & Hs & He & Hle & Hm).
    assert (0 < 2 ^ (- e)) by (apply Z.pow_pos_nonneg; lia).
    f_equal. rewrite Hm. destruct (Z.leb_spec 0 e).
    + replace e with 0 by lia. simpl. rewrite Hs.
      destruct (Z.ltb_spec n 0); lia.
    + rewrite Z.div_mul by lia. rewrite Hs.
      destruct (Z.ltb_spec n 0); lia.
Qed.

Lemma mul_holds (x y : PyFloat.float) (a b : Z) :
  holds x a -> holds y b -> Z.abs (a * b) < 2 ^ 53 ->
  holds (PyFloat.mul x y) (a * b).
Proof.
  unfold PyFloat.mul.
  destruct x as [sx|sx| |sx mx ex]; simpl; try contradiction;
    destruct y as [sy|sy| |sy my ey]; simpl; try contradiction.
  - intros -> _ _. reflexivity.
  - intros -> _ _. reflexivity.
  - intros _ -> _. lia.
  - intros (Ha & Hsa & Hea & Hlea & Hma) (Hb & Hsb & Heb & Hleb & Hmb) Hab.
    assert (Z.log2 (Z.abs a) + Z.log2 (Z.abs b) <= Z.log2 (Z.abs a * Z.abs b))
      by (apply Z.log2_mul_below; lia).
    assert (0 <= Z.log2 (Z.abs a)) by apply Z.log2_nonneg.
    assert (0 <= Z.log2 (Z.abs b)) by apply Z.log2_nonneg.
    replace (a * b) with
      (if xorb sx sy then - (Z.abs a * Z.abs b) else Z.abs a * Z.abs b).
    2:{ rewrite Hsa, Hsb.
        destruct (Z.ltb_spec a 0), (Z.ltb_spec b 0); simpl; nia. }
    apply round_aux_holds.
    + rewrite <- Z.abs_mul. split; [nia | exact Hab].
    + lia.
    + rewrite Pos2Z.inj_mul, Hma, Hmb.
      replace (- (ex + ey)) with (- ex + - ey) by lia.
      rewrite Z.pow_add_r by lia. ring.
Qed.

Lemma shl_align_fst (m : positive) (e ez : Z) :
  ez <= e -> Z.pos (fst (shl_align m e ez)) = Z.pos m * 2 ^ (e - ez).
Proof.
  intros He. unfold shl_align.
  destruct (ez - e) as [|d|d] eqn:Hd; cbn [fst]; try lia.
  - replace (e - ez) with 0 by lia. simpl. lia.
  - rewrite pos_iter_xO. do 2 f_equal. lia.
Qed.

Lemma cond_Zopp_holds (s : bool) (m : positive) (e ez a : Z) :
  holds (S754_finite s m e) a -> ez <= e ->
  cond_Zopp s (Z.pos (fst (shl_align m e ez))) = a * 2 ^ (- ez).
Proof.
  intros (Ha & Hs & He & Hle & Hm) Hez.
  rewrite shl_align_fst, Hm, <- Z.mul_assoc, <- Z.pow_add_r by lia.
  replace (- e + (e - ez)) with (- ez) by lia.
  rewrite Hs. unfold cond_Zopp. destruct (Z.ltb_spec a 0); lia.
Qed.

Lemma add_holds (x y : PyFloat.float) (a b : Z) :
  holds x a -> holds y b -> Z.abs (a + b) < 2 ^ 53 ->
  holds (PyFloat.add x y) (a + b).
Proof.
  unfold PyFloat.add.
  destruct x as [sx|sx| |sx mx ex]; try contradiction;
    destruct y as [sy|sy| |sy my ey]; try contradiction.
  - intros Ha Hb _. simpl in Ha, Hb. subst.
    destruct sx, sy; reflexivity.
  - intros Ha Hb _. simpl in Ha. subst. exact Hb.
  - intros Ha Hb _. simpl in Hb. subst. rewrite Z.add_0_r. exact Ha.
  - intros Ha Hb Hab. cbn [SFadd].
    rewrite (cond_Zopp_holds sx mx ex _ a Ha) by lia.
    rewrite (cond_Zopp_holds sy my ey _ b Hb) by lia.
    destruct Ha as (_ & _ & _ & Hlea & _), Hb as (_ & _ & _ & Hleb & _).
    apply normalize_holds; [exact Hab | lia | ring].
Qed.

Lemma sub_microseconds (t1 t2 : datetime) :
  0 <= Datetime.microseconds (Datetime.sub t1 t2) < 1000000.
Proof.
  unfold Datetime.sub, Datetime.normalize. cbn [Datetime.microseconds].
  apply Z.mod_pos_bound. lia.
Qed.

(** X23: when the interval, in the unit asked for, is below 2^53 in
    absolute value (about ten days and a half in DAQ ticks), every float
    of the computation is exact and [get_daq_ticks] returns the interval
    itself; the loss of C8 starts only above that bound. *)
Theorem get_daq_ticks_exact (start_time end_time : datetime) (is_ns : bool) :
  Z.abs (HsUtil.exact_ticks start_time end_time is_ns) < 2 ^ 53 ->
  HsUtil.get_daq_ticks start_time end_time is_ns
  = Ok (HsUtil.exact_ticks start_time end_time is_ns).
Proof.
  unfold HsUtil.exact_ticks, HsUtil.get_daq_ticks.
  pose proof (sub_microseconds end_time start_time) as Hus.
  set (delta := Datetime.sub end_time start_time) in *.
  set (secs := Datetime.days delta * 24 * 3600 + Datetime.seconds delta).
  set (us := Datetime.microseconds delta) in *.
  replace (Datetime.days delta * 86400 + Datetime.seconds delta)
    with secs by (unfold secs; lia).
  set (m := if is_ns then 10 ^ 3 else 10 ^ 4).
  change (2 ^ 53) with 9007199254740992.
  intros Hb.
  assert (m = 1000 \/ m = 10000) as Hm
    by (unfold m; destruct is_ns; [left | right]; reflexivity).
  assert (Z.abs (secs * 1000000 + us) < 2 ^ 53) as Hsum
    by (change (2 ^ 53) with 9007199254740992;
        change (10 ^ 6) with 1000000 in Hb; nia).
  assert (Z.abs (secs * 1000000) < 2 ^ 53) as Hprod
    by (change (2 ^ 53) with 9007199254740992;
        change (10 ^ 6) with 1000000 in Hb; nia).
  assert (Z.abs secs < 2 ^ 53) as Hsecs
    by (change (2 ^ 53) with 9007199254740992 in *; lia).
  assert (Z.abs us < 2 ^ 53) as Hus'
    by (change (2 ^ 53) with 9007199254740992; lia).
  destruct (of_int_holds secs Hsecs) as (fs & Hfs & Hhs).
  destruct (of_int_holds us Hus') as (fu & Hfu & Hhu).
  unfold PyFloat.int_mul, PyFloat.add_int.
  rewrite Hfs. cbn [mbind result_bind]. rewrite Hfu. cbn [mbind result_bind].
  apply to_int_holds.
  change (10 ^ 6) with 1000000.
  replace (if is_ns then PyFloat.literal 1000 else PyFloat.literal 10000)
    with (PyFloat.literal m) by (unfold m; destruct is_ns; reflexivity).
  apply mul_holds.
  - apply add_holds; [|exact Hhu|exact Hsum].
    apply mul_holds; [exact Hhs| |exact Hprod].
    apply literal_holds. reflexivity.
  - apply literal_holds. change (2 ^ 53) with 9007199254740992.
    destruct Hm as [-> | ->]; reflexivity.
  - change (2 ^ 53) with 9007199254740992. exact Hb.
Qed.

Lemma get_daq_ticks_exact_witness :
  Z.abs (HsUtil.exact_ticks jan1_2018
           (mk_datetime 2018 1 9 12 30 15 250001) false) < 2 ^ 53 /\
  HsUtil.get_daq_ticks jan1_2018 (mk_datetime 2018 1 9 12 30 15 250001) false
  = Ok (HsUtil.exact_ticks jan1_2018
          (mk_datetime 2018 1 9 12 30 15 250001) false).
Proof.
  split; [vm_compute; reflexivity|].
  apply get_daq_ticks_exact. vm_compute. reflexivity.
Defined.

(** ** payload.py: the charge stamp *)

Lemma land_bit_testbit (w k : Z) :
  0 <= k -> negb (Z.land w (2 ^ k) =? 0) = Z.testbit w k.
Proof.
  intros Hk. apply Z.b2z_inj.
  rewrite land_bit, Z.testbit_spec' by lia. reflexivity.
Qed.

(** X24: the charge stamp of a hit.  With bit 1 of the pedestal set it is
    the two fields of the low 19 bits of [word2] and two zeros.
    Otherwise its four numbers are the fields of bits 27 to 30, 18 to 26,
    9 to 17 and 0 to 8 of the word, the last three doubled when bit 31
    is set: they are below 512, or even and below 1024, and with bit 31
    they give back the low 32 bits of the word. *)
Theorem chargestamp_fields (h : Payload.hit) :
  let w := Payload.h_word2 h in
  let s := Z.b2z (Z.testbit w 31) in
  let '(p, a, b, c) := Payload.chargestamp h in
  (Z.testbit (Payload.h_pedestal h) 1 = true ->
   0 <= p <= 3 /\ 0 <= a < 2 ^ 17 /\ b = 0 /\ c = 0 /\
   w mod 2 ^ 19 = 2 ^ 17 * p + a) /\
  (Z.testbit (Payload.h_pedestal h) 1 = false ->
   0 <= p <= 15 /\
   0 <= a <= 511 * 2 ^ s /\ 0 <= b <= 511 * 2 ^ s /\ 0 <= c <= 511 * 2 ^ s /\
   a mod 2 ^ s = 0 /\ b mod 2 ^ s = 0 /\ c mod 2 ^ s = 0 /\
   w mod 2 ^ 32
   = 2 ^ 31 * s + 2 ^ 27 * p
     + 2 ^ 18 * (a / 2 ^ s) + 2 ^ 9 * (b / 2 ^ s) + c / 2 ^ s).
Proof.
  cbv zeta. unfold Payload.chargestamp.
  set (w := Payload.h_word2 h).
  change 2 with (2 ^ 1) at 1. change 2147483648 with (2 ^ 31).
  rewrite !land_bit_testbit by lia.
  destruct (Z.testbit (Payload.h_pedestal h) 1).
  - split; [intros _ | discriminate].
    rewrite (land_shiftr_low w 17 2), (land_low w 17) by (lia || reflexivity).
    change (2 ^ 2) with 4. change (2 ^ 17) with 131072.
    change (2 ^ 19) with 524288.
    repeat split; try reflexivity; Z.div_mod_to_equations; lia.
  - split; [discriminate | intros _].
    rewrite (land_shiftr_low w 27 4), (land_shiftr_low w 18 9),
      (land_shiftr_low w 9 9), (land_low w 9) by (lia || reflexivity).
    pose proof (Z.testbit_spec' w 31 ltac:(lia)) as Hs.
    destruct (Z.testbit w 31); cbn [Z.b2z] in *;
      rewrite ?Z.shiftl_mul_pow2, ?Z.shiftl_0_r by lia;
      change (2 ^ 0) with 1; change (2 ^ 1) with 2; change (2 ^ 4) with 16;
      change (2 ^ 9) with 512; change (2 ^ 18) with 262144;
      change (2 ^ 27) with 134217728; change (2 ^ 31) with 2147483648 in *;
      change (2 ^ 32) with 4294967296;
      repeat split; Z.div_mod_to_equations; lia.
Qed.

Lemma chargestamp_fields_witness :
  Z.testbit (Payload.h_pedestal stamped_hit) 1 = false /\
  Payload.chargestamp stamped_hit = (1, 10, 6, 2) /\
  Payload.h_word2 stamped_hit mod 2 ^ 32
  = 2 ^ 31 + 2 ^ 27 * 1 + 2 ^ 18 * 5 + 2 ^ 9 * 3 + 1.
Proof.
  pose proof (chargestamp_fields stamped_hit) as H. cbv zeta in H.
  change (Payload.chargestamp stamped_hit) with (1, 10, 6, 2) in H.
  cbv iota beta in H. destruct H as [_ H].
  specialize (H eq_refl). destruct H as (_ & _ & _ & _ & _ & _ & _ & H).
  split; [reflexivity|]. split; [reflexivity|].
  rewrite H. reflexivity.
Defined.

(** ** HsUtil.dict_to_object: when it returns *)


